(** * Collection tools of the Chroma MCP server: a shallow embedding

    The development follows [src/chroma_mcp/tools/collection_tools.py].
    Python values, strings and dictionaries are modelled first, then the
    MCP error envelope, the runtime the tools rely on ([json] and
    [str.lower], which are parameters), the external vector-database
    client, and finally the tool implementations themselves. *)

From Stdlib Require Import String Ascii List ZArith Lia Bool Arith.
From Stdlib Require Import DecimalString.
From Stdlib Require DecimalFacts DecimalPos.
Import ListNotations.

Local Open Scope string_scope.
Local Open Scope Z_scope.

#[local] Set Warnings "-register-all".

(* ================================================================== *)
(** * Python strings *)
(* ================================================================== *)

(** A Python [str] is a sequence of Unicode code points.  It is modelled
    by the Rocq string that holds its UTF-8 encoding, byte after byte (a
    lone surrogate is encoded like any other code point).  Equality,
    concatenation, [startswith], the substring test [in] and the
    replacement of one ASCII character by another act on the encodings
    as they act on the code points, because the encoding of a code point
    never occurs inside or across the encodings of others.

    [str.lower] follows the Unicode tables of the interpreter.  The
    tools take it as a parameter ([str_lower], in [Runtime] below);
    [lower] here is the one of the reference runtime, which lowers the
    ASCII letters and nothing else. *)
Module PyStr.

(** A byte that continues the encoding of a code point: [10xxxxxx]. *)
Definition continues (c : ascii) : bool :=
  let n := nat_of_ascii c in (Nat.leb 128 n && Nat.ltb n 192)%bool.

(** The characters of a string, in order: each byte with the bytes that
    continue it. *)
Fixpoint chars (s : string) : list string :=
  match s with
  | EmptyString => nil
  | String c s' =>
      let rest := chars s' in
      let alone := cons (String c EmptyString) rest in
      match s' with
      | String d _ =>
          if continues d then
            match rest with
            | cons first others => cons (String c first) others
            | nil => alone
            end
          else alone
      | EmptyString => alone
      end
  end.

(** [c.lower()] on one character (ASCII letters only). *)
Definition lower_ascii (c : ascii) : ascii :=
  let n := nat_of_ascii c in
  if (Nat.leb 65 n && Nat.leb n 90)%bool then ascii_of_nat (n + 32) else c.

(** [s.lower()] in the reference runtime. *)
Fixpoint lower (s : string) : string :=
  match s with
  | EmptyString => EmptyString
  | String c s' => String (lower_ascii c) (lower s')
  end.

(** [s.startswith(p)] *)
Definition startswith (s p : string) : bool := String.prefix p s.

(** [p in s] : substring test. *)
Fixpoint contains (p s : string) : bool :=
  String.prefix p s ||
  match s with
  | EmptyString => false
  | String _ s' => contains p s'
  end.

(** [s[n:]] for [0 <= n], where the [n] characters dropped are ASCII. *)
Fixpoint drop (n : nat) (s : string) : string :=
  match n, s with
  | O, _ => s
  | S n', EmptyString => EmptyString
  | S n', String _ s' => drop n' s'
  end.

(** [s.replace(a, b)] for one-character strings [a] and [b]. *)
Fixpoint replace (a b : ascii) (s : string) : string :=
  match s with
  | EmptyString => EmptyString
  | String c s' =>
      String (if Ascii.eqb c a then b else c) (replace a b s')
  end.

(** [c in s] for a single character. *)
Fixpoint has_char (c : ascii) (s : string) : bool :=
  match s with
  | EmptyString => false
  | String d s' => Ascii.eqb d c || has_char c s'
  end.

(** Truth value of a string: the empty string is falsy. *)
Definition truthy (s : string) : bool :=
  match s with EmptyString => false | _ => true end.

End PyStr.

(* ================================================================== *)
(** * Python values and dictionaries *)
(* ================================================================== *)

(** A Python [float] is kept as the decimal number that denotes it, or
    as one of the three special values. *)
Inductive pyfloat : Type :=
| FNaN
| FInf (negative : bool)
| FDec (mantissa exponent : Z).   (* mantissa * 10 ^ exponent *)

(** The Python objects that flow through the tools.  [PObj] stands for any
    other object (a numpy array or scalar, say): it is neither a list nor
    a dictionary, [json] cannot serialize it, it may be iterable and it
    may have a [tolist()] method. *)
Inductive pyval : Type :=
| PNone
| PBool (b : bool)
| PInt (z : Z)
| PFloat (f : pyfloat)
| PStr (s : string)
| PList (items : list pyval)
| PDict (entries : list (string * pyval))
| PObj (type_name : string) (iter : option (list pyval)) (tolist : option pyval).

(** A [dict] with string keys, in insertion order. *)
Definition dict : Type := list (string * pyval).

Module PyDict.

(** [key in d] *)
Fixpoint mem (key : string) (d : dict) : bool :=
  match d with
  | [] => false
  | (k, _) :: d' => String.eqb k key || mem key d'
  end.

(** [d.get(key)] *)
Fixpoint get (key : string) (d : dict) : option pyval :=
  match d with
  | [] => None
  | (k, v) :: d' => if String.eqb k key then Some v else get key d'
  end.

(** [d[key] = value]: an existing key keeps its position, a new key
    goes last. *)
Fixpoint set (d : dict) (key : string) (value : pyval) : dict :=
  match d with
  | [] => [(key, value)]
  | (k, v) :: d' =>
      if String.eqb k key then (k, value) :: d'
      else (k, v) :: set d' key value
  end.

(** [del d[key]] for a key that is present: what is stored under
    [key] is removed. *)
Fixpoint del (d : dict) (key : string) : dict :=
  match d with
  | [] => []
  | (k, v) :: d' =>
      if String.eqb k key then del d' key else (k, v) :: del d' key
  end.

(** The keys, in order. *)
Definition keys (d : dict) : list string := map fst d.

(** Truth value of a dictionary: the empty one is falsy. *)
Definition truthy (d : dict) : bool :=
  match d with [] => false | _ => true end.

(** A dictionary built by Python never repeats a key. *)
Definition wf (d : dict) : Prop := NoDup (keys d).

(** [{f(k): v for k, v in d.items()}] *)
Definition map_keys (f : string -> string) (d : dict) : dict :=
  fold_left (fun acc kv => set acc (f (fst kv)) (snd kv)) d [].

End PyDict.

(** Python list slicing [xs[start:stop]] with an integer [start] and an
    optional [stop]; negative indices count from the end and every index
    is clamped to the list. *)
Definition slice_index (len i : Z) : Z :=
  if i <? 0 then Z.max 0 (i + len) else Z.min i len.

Definition py_slice {A : Type} (xs : list A) (start : Z) (stop : option Z)
  : list A :=
  let len := Z.of_nat (length xs) in
  let a := slice_index len start in
  let b := match stop with
           | None => len
           | Some e => slice_index len e
           end in
  firstn (Z.to_nat (b - a)) (skipn (Z.to_nat a) xs).

(* ================================================================== *)
(** * Metadata reconstruction *)
(* ================================================================== *)

(** The body of the [for key, value in metadata.items()] loop of
    [_reconstruct_metadata], threading the two dictionaries it fills. *)
Definition reconstruct_step (acc : dict * dict) (kv : string * pyval)
  : dict * dict :=
  let '(reconstructed, settings) := acc in
  let '(key, value) := kv in
  let setting_key_to_store : option string :=
    if PyStr.startswith key "chroma:setting:" then
      Some (PyStr.replace "_" ":"
              (PyStr.drop (String.length "chroma:setting:") key))
    else if PyStr.startswith key "hnsw:" then Some key
    else None in
  let not_a_setting : dict * dict :=
    if String.eqb key "description" then
      (PyDict.set reconstructed key value, settings)
    else if negb (PyStr.startswith key "chroma:") then
      (PyDict.set reconstructed key value, settings)
    else (reconstructed, settings) in
  match setting_key_to_store with
  | Some k =>
      (* [if setting_key_to_store:] an empty key is falsy, as [None] is *)
      if PyStr.truthy k then (reconstructed, PyDict.set settings k value)
      else not_a_setting
  | None => not_a_setting
  end.

Definition _reconstruct_metadata (metadata : option dict) : dict :=
  match metadata with
  | None => []
  | Some [] => []
  | Some m =>
      let '(reconstructed, settings) := fold_left reconstruct_step m ([], []) in
      if PyDict.truthy settings
      then PyDict.set reconstructed "settings" (PDict settings)
      else reconstructed
  end.

(** The flattening of the default settings done by
    [_create_collection_impl]:
    [{f"chroma:setting:{k.replace(':', '_')}": v for k, v in s.items()}]. *)
Definition flatten_key (k : string) : string :=
  "chroma:setting:" ++ PyStr.replace ":" "_" k.

Definition flatten_settings (default_settings : dict) : dict :=
  PyDict.map_keys flatten_key default_settings.

(* ================================================================== *)
(** * Exceptions and the MCP error envelope *)
(* ================================================================== *)

(** [mcp.types.ErrorData] with the two codes the tools use. *)
Record ErrorData : Type := mkErrorData { code : Z; message : string }.

Definition INVALID_PARAMS : Z := -32602.
Definition INTERNAL_ERROR : Z := -32603.

(** [mcp.types.TextContent]; its [type] field is always ["text"]. *)
Record TextContent : Type := mkTextContent { type : string; text : string }.

(** The classes of the exceptions that reach the tools from outside (the
    validator, the accessors, the [json] module and the external
    client), [McpError] apart: an [McpError] raised outside is kept with
    its [ErrorData], see [Fails] below.  All the classes derive from
    [Exception]; [OtherException] stands for every class not named by an
    [except] clause of the module. *)
Inductive ExcClass : Type :=
| ValidationError
| JSONDecodeError
| ValueError
| InvalidDimensionException
| TypeError
| OtherException.

(** An exception in flight: one of a foreign class, with its class and
    its [str()], or an [McpError], built by the tools or raised
    outside. *)
Inductive PyExc : Type :=
| Foreign (cls : ExcClass) (msg : string)
| McpError (error : ErrorData).

(** [str(e)]; for [McpError] it is the message of its [ErrorData]. *)
Definition exc_str (e : PyExc) : string :=
  match e with
  | Foreign _ msg => msg
  | McpError d => message d
  end.

(** [ValidationError] is declared in [chroma_mcp/utils/errors.py], outside
    the module modelled here.  Whether it derives from [ValueError] decides
    which [except] clause catches it, so its base class is a parameter of
    the development: [true] when it derives from [ValueError]. *)
Class ErrorClasses : Type :=
  { ValidationError_is_ValueError : bool }.

(** [isinstance(e, C)] for the classes named in [except] clauses.
    [json.JSONDecodeError] derives from [ValueError]; chromadb's
    [InvalidDimensionException] and [TypeError] do not. *)
Definition is_ValidationError (e : PyExc) : bool :=
  match e with Foreign ValidationError _ => true | _ => false end.

Definition is_JSONDecodeError (e : PyExc) : bool :=
  match e with Foreign JSONDecodeError _ => true | _ => false end.

Definition is_ValueError `{ErrorClasses} (e : PyExc) : bool :=
  match e with
  | Foreign ValueError _ | Foreign JSONDecodeError _ => true
  | Foreign ValidationError _ => ValidationError_is_ValueError
  | _ => false
  end.

Definition is_InvalidDimensionException (e : PyExc) : bool :=
  match e with Foreign InvalidDimensionException _ => true | _ => false end.

Definition is_McpError (e : PyExc) : bool :=
  match e with McpError _ => true | _ => false end.

(** The result of a call that may raise. *)
Inductive PyResult (A : Type) : Type :=
| Return (a : A)
| Raise (e : PyExc).
Arguments Return {A} a.
Arguments Raise {A} e.

(** What a call from outside does: it returns, it raises an exception
    of a foreign class, or it raises an [McpError] of its own (as
    [get_server_config] of [chroma_mcp.utils] does). *)
Inductive Answer (A : Type) : Type :=
| Gives (a : A)
| Throws (cls : ExcClass) (msg : string)
| Fails (error : ErrorData).
Arguments Gives {A} a.
Arguments Throws {A} cls msg.
Arguments Fails {A} error.

Definition answer {A : Type} (r : Answer A) : PyResult A :=
  match r with
  | Gives a => Return a
  | Throws cls msg => Raise (Foreign cls msg)
  | Fails error => Raise (McpError error)
  end.

(* ================================================================== *)
(** * A JSON codec *)
(* ================================================================== *)

(** [json.dumps] and [json.loads] belong to the Python standard library,
    not to the repository: what they do is a parameter of the tools
    ([Runtime] below).  This module is the codec of the reference
    runtime, on which the sample deployments run, and its decoder is the
    grammar against which [parses_as_json] is stated.  It writes and
    reads JSON with the options the tools use, but it is not CPython's
    codec: it prints a float as mantissa and exponent, it knows no limit
    on the length of an integer or on the depth of the nesting, it
    escapes and unescapes byte by byte, and it reports every failure by
    the same [JSONDecodeError]. *)
Module Json.

Definition newline : string := String (ascii_of_nat 10) EmptyString.
Definition dquote : ascii := ascii_of_nat 34.

Definition hex_digit (n : nat) : ascii :=
  ascii_of_nat (if Nat.ltb n 10 then 48 + n else 87 + n).

(** The escape of one character inside a JSON string. *)
Definition escape_char (c : ascii) : string :=
  let n := nat_of_ascii c in
  if Nat.eqb n 34 then String "\" (String dquote EmptyString)
  else if Nat.eqb n 92 then "\\"
  else if Nat.eqb n 10 then "\n"
  else if Nat.eqb n 13 then "\r"
  else if Nat.eqb n 9 then "\t"
  else if Nat.eqb n 8 then "\b"
  else if Nat.eqb n 12 then "\f"
  else if (Nat.ltb n 32 || Nat.ltb 126 n)%bool then
    "\u00" ++ String (hex_digit (Nat.div n 16))
                (String (hex_digit (Nat.modulo n 16)) EmptyString)
  else String c EmptyString.

Fixpoint escape (s : string) : string :=
  match s with
  | EmptyString => EmptyString
  | String c s' => escape_char c ++ escape s'
  end.

Definition quote (s : string) : string :=
  String dquote (escape s ++ String dquote EmptyString).

Definition string_of_Z (z : Z) : string :=
  NilZero.string_of_int (Z.to_int z).

Definition string_of_float (f : pyfloat) : string :=
  match f with
  | FNaN => "NaN"
  | FInf false => "Infinity"
  | FInf true => "-Infinity"
  | FDec m e => string_of_Z m ++ "e" ++ string_of_Z e
  end.

Fixpoint spaces (n : nat) : string :=
  match n with
  | O => EmptyString
  | S n' => String " " (spaces n')
  end.

Fixpoint join (sep : string) (parts : list string) : string :=
  match parts with
  | [] => EmptyString
  | [p] => p
  | p :: rest => p ++ sep ++ join sep rest
  end.

(** An opening bracket, the items and the closing bracket: on one line
    without [indent], one item per line with it. *)
Definition bracket (indent : option nat) (level : nat)
           (opening closing : string) (parts : list string) : string :=
  match parts, indent with
  | [], _ => opening ++ closing
  | _, None => opening ++ join ", " parts ++ closing
  | _, Some n =>
      opening ++ newline ++ spaces (n * S level)
      ++ join ("," ++ newline ++ spaces (n * S level)) parts
      ++ newline ++ spaces (n * level) ++ closing
  end.

(** The encoder; [inl] carries the type name of an object that cannot
    be serialized. *)
Fixpoint encode (indent : option nat) (level : nat) (v : pyval)
  : string + string :=
  match v with
  | PNone => inr "null"
  | PBool true => inr "true"
  | PBool false => inr "false"
  | PInt z => inr (string_of_Z z)
  | PFloat f => inr (string_of_float f)
  | PStr s => inr (quote s)
  | PList items =>
      let fix go (l : list pyval) : string + list string :=
        match l with
        | [] => inr []
        | x :: l' =>
            match encode indent (S level) x with
            | inl t => inl t
            | inr s =>
                match go l' with
                | inl t => inl t
                | inr ss => inr (s :: ss)
                end
            end
        end in
      match go items with
      | inl t => inl t
      | inr parts => inr (bracket indent level "[" "]" parts)
      end
  | PDict entries =>
      let fix go (l : list (string * pyval)) : string + list string :=
        match l with
        | [] => inr []
        | (k, x) :: l' =>
            match encode indent (S level) x with
            | inl t => inl t
            | inr s =>
                match go l' with
                | inl t => inl t
                | inr ss => inr ((quote k ++ ": " ++ s) :: ss)
                end
            end
        end in
      match go entries with
      | inl t => inl t
      | inr parts => inr (bracket indent level "{" "}" parts)
      end
  | PObj t _ _ => inl t
  end.

(** Encoding as a call that may raise. *)
Definition dumps (indent : option nat) (v : pyval) : Answer string :=
  match encode indent 0 v with
  | inr s => Gives s
  | inl t =>
      Throws TypeError ("Object of type " ++ t ++ " is not JSON serializable")
  end.

(** ** Decoding *)

Definition is_ws (c : ascii) : bool :=
  let n := nat_of_ascii c in
  (Nat.eqb n 32 || Nat.eqb n 9 || Nat.eqb n 10 || Nat.eqb n 13)%bool.

Fixpoint skip_ws (s : string) : string :=
  match s with
  | String c s' => if is_ws c then skip_ws s' else s
  | EmptyString => s
  end.

Definition is_digit (c : ascii) : bool :=
  let n := nat_of_ascii c in (Nat.leb 48 n && Nat.leb n 57)%bool.

Definition digit_val (c : ascii) : Z := Z.of_nat (nat_of_ascii c - 48).

Definition hex_val (c : ascii) : option nat :=
  let n := nat_of_ascii c in
  if (Nat.leb 48 n && Nat.leb n 57)%bool then Some (n - 48)%nat
  else if (Nat.leb 97 n && Nat.leb n 102)%bool then Some (n - 87)%nat
  else if (Nat.leb 65 n && Nat.leb n 70)%bool then Some (n - 55)%nat
  else None.

(** The longest run of digits at the head of [s]: its value, its length
    and the rest of the input. *)
Fixpoint digits (acc : Z) (len : nat) (s : string) : Z * nat * string :=
  match s with
  | String c s' =>
      if is_digit c then digits (10 * acc + digit_val c) (S len) s'
      else (acc, len, s)
  | EmptyString => (acc, len, s)
  end.

(** [s] starts with [p]: the rest of [s] after it. *)
Fixpoint expect (p s : string) : option string :=
  match p, s with
  | EmptyString, _ => Some s
  | String a p', String b s' => if Ascii.eqb a b then expect p' s' else None
  | String _ _, EmptyString => None
  end.

(** The four hexadecimal digits of a [\u] escape.  Code points above
    255 have no character in this model and are read as [?]. *)
Definition unicode_escape (s : string) : option (ascii * string) :=
  match s with
  | String a (String b (String c (String d rest))) =>
      match hex_val a, hex_val b, hex_val c, hex_val d with
      | Some x, Some y, Some z, Some w =>
          if (Nat.eqb x 0 && Nat.eqb y 0)%bool
          then Some (ascii_of_nat (16 * z + w), rest)
          else Some ("?"%char, rest)
      | _, _, _, _ => None
      end
  | _ => None
  end.

(** The characters of a string literal after its opening quote, up to
    and including the closing quote. *)
Fixpoint string_body (s : string) {struct s} : option (string * string) :=
  match s with
  | EmptyString => None
  | String c s' =>
      let n := nat_of_ascii c in
      if Nat.eqb n 34 then Some (EmptyString, s')
      else if Nat.eqb n 92 then
        match s' with
        | EmptyString => None
        | String e s'' =>
            let simple (x : nat) :=
              match string_body s'' with
              | Some (r, rest) => Some (String (ascii_of_nat x) r, rest)
              | None => None
              end in
            let m := nat_of_ascii e in
            if Nat.eqb m 34 then simple 34%nat
            else if Nat.eqb m 92 then simple 92%nat
            else if Nat.eqb m 47 then simple 47%nat
            else if Nat.eqb m 98 then simple 8%nat
            else if Nat.eqb m 102 then simple 12%nat
            else if Nat.eqb m 110 then simple 10%nat
            else if Nat.eqb m 114 then simple 13%nat
            else if Nat.eqb m 116 then simple 9%nat
            else if Nat.eqb m 117 then
              match s'' with
              | String a (String b (String c' (String d rest))) =>
                  match unicode_escape s'', string_body rest with
                  | Some (ch, _), Some (r, rest') => Some (String ch r, rest')
                  | _, _ => None
                  end
              | _ => None
              end
            else None
        end
      else if Nat.ltb n 32 then None
      else
        match string_body s' with
        | Some (r, rest) => Some (String c r, rest)
        | None => None
        end
  end.

(** [s] starts with the character [c]: the rest of [s] after it. *)
Definition eat (c : ascii) (s : string) : option string :=
  match s with
  | String d rest => if Ascii.eqb d c then Some rest else None
  | EmptyString => None
  end.

(** A number: an optional minus sign, then [0] or a run of digits that
    does not start with [0], then optionally a dot and digits, then
    optionally [e] or [E], a sign and digits.  A fraction or exponent
    without digits is not part of the number. *)
Definition int_part (s : string) : option (Z * string) :=
  match s with
  | String c s' =>
      if Ascii.eqb c "0" then Some (0, s')
      else if is_digit c then
        let '(v, _, rest) := digits 0 0 s in Some (v, rest)
      else None
  | EmptyString => None
  end.

(** The fraction after the integer part [i]: the mantissa with the
    fraction digits appended, their number, and the rest. *)
Definition frac_part (i : Z) (s : string) : Z * nat * string :=
  match eat "." s with
  | Some s' =>
      let '(v, len, rest) := digits i 0 s' in
      if Nat.eqb len 0 then (i, O, s) else (v, len, rest)
  | None => (i, O, s)
  end.

(** The exponent, when there is one. *)
Definition exp_part (s : string) : option (Z * string) :=
  match s with
  | String c s' =>
      if (Ascii.eqb c "e" || Ascii.eqb c "E")%bool then
        let '(negative, s'') :=
          match eat "-" s', eat "+" s' with
          | Some t, _ => (true, t)
          | None, Some t => (false, t)
          | None, None => (false, s')
          end in
        let '(v, len, rest) := digits 0 0 s'' in
        if Nat.eqb len 0 then None
        else Some ((if negative then - v else v), rest)
      else None
  | EmptyString => None
  end.

Definition number (s : string) : option (pyval * string) :=
  let '(negative, s1) :=
    match eat "-" s with
    | Some s' => (true, s')
    | None => (false, s)
    end in
  match int_part s1 with
  | None => None
  | Some (i, s2) =>
      let '(m, flen, s3) := frac_part i s2 in
      let signed := if negative then - m else m in
      match exp_part s3 with
      | Some (e, s4) => Some (PFloat (FDec signed (e - Z.of_nat flen)), s4)
      | None =>
          if Nat.eqb flen 0 then Some (PInt signed, s3)
          else Some (PFloat (FDec signed (- Z.of_nat flen)), s3)
      end
  end.

(** [dict(pairs)]: a repeated key keeps its first position and its
    last value. *)
Definition dict_of_pairs (pairs : list (string * pyval)) : dict :=
  fold_left (fun d kv => PyDict.set d (fst kv) (snd kv)) pairs [].

Section Containers.
(** The decoder of one value, at the nesting level below. *)
Variable value : string -> option (pyval * string).

(** The items of an array after the first, up to the closing bracket. *)
Fixpoint elements (fuel : nat) (acc : list pyval) (s : string)
  : option (pyval * string) :=
  match fuel with
  | O => None
  | S fuel' =>
      match eat "]" (skip_ws s), eat "," (skip_ws s) with
      | Some rest, _ => Some (PList (List.rev acc), rest)
      | None, Some rest =>
          match value (skip_ws rest) with
          | Some (v, rest') => elements fuel' (v :: acc) rest'
          | None => None
          end
      | None, None => None
      end
  end.

(** One [key: value] pair of an object. *)
Definition member (s : string) : option (string * pyval * string) :=
  match eat dquote s with
  | Some s' =>
      match string_body s' with
      | Some (k, rest) =>
          match eat ":" (skip_ws rest) with
          | Some rest' =>
              match value (skip_ws rest') with
              | Some (v, rest'') => Some (k, v, rest'')
              | None => None
              end
          | None => None
          end
      | None => None
      end
  | None => None
  end.

(** The pairs of an object after the first, up to the closing brace. *)
Fixpoint members (fuel : nat) (acc : list (string * pyval)) (s : string)
  : option (pyval * string) :=
  match fuel with
  | O => None
  | S fuel' =>
      match eat "}" (skip_ws s), eat "," (skip_ws s) with
      | Some rest, _ => Some (PDict (dict_of_pairs (List.rev acc)), rest)
      | None, Some rest =>
          match member (skip_ws rest) with
          | Some (k, v, rest') => members fuel' ((k, v) :: acc) rest'
          | None => None
          end
      | None, None => None
      end
  end.
End Containers.

(** A number or one of the constants. *)
Definition literal (s : string) : option (pyval * string) :=
  match number s with
  | Some r => Some r
  | None =>
      match expect "null" s, expect "true" s, expect "false" s with
      | Some rest, _, _ => Some (PNone, rest)
      | _, Some rest, _ => Some (PBool true, rest)
      | _, _, Some rest => Some (PBool false, rest)
      | _, _, _ =>
          match expect "NaN" s, expect "Infinity" s,
                expect "-Infinity" s with
          | Some rest, _, _ => Some (PFloat FNaN, rest)
          | _, Some rest, _ => Some (PFloat (FInf false), rest)
          | _, _, Some rest => Some (PFloat (FInf true), rest)
          | _, _, _ => None
          end
      end
  end.

(** One value at the head of [s] (no leading white space). *)
Fixpoint value (fuel : nat) (s : string) : option (pyval * string) :=
  match fuel with
  | O => None
  | S fuel' =>
      match eat dquote s, eat "{" s, eat "[" s with
      | Some s', _, _ =>
          match string_body s' with
          | Some (r, rest) => Some (PStr r, rest)
          | None => None
          end
      | None, Some s', _ =>
          match eat "}" (skip_ws s') with
          | Some rest => Some (PDict [], rest)
          | None =>
              match member (value fuel') (skip_ws s') with
              | Some (k, v, rest) => members (value fuel') fuel' [(k, v)] rest
              | None => None
              end
          end
      | None, None, Some s' =>
          match eat "]" (skip_ws s') with
          | Some rest => Some (PList [], rest)
          | None =>
              match value fuel' (skip_ws s') with
              | Some (v, rest) => elements (value fuel') fuel' [v] rest
              | None => None
              end
          end
      | None, None, None => literal s
      end
  end.

(** The whole text is one value between optional white space. *)
Definition decode (s : string) : option pyval :=
  match value (S (String.length s)) (skip_ws s) with
  | Some (v, rest) =>
      match skip_ws rest with
      | EmptyString => Some v
      | _ => None
      end
  | None => None
  end.

(** Decoding as a call that may raise. *)
Definition loads (s : string) : Answer pyval :=
  match decode s with
  | Some v => Gives v
  | None => Throws JSONDecodeError "Expecting value"
  end.

End Json.

(* ================================================================== *)
(** * The runtime *)
(* ================================================================== *)

(** What the tools use of the interpreter and of its standard library:
    [json.dumps(v, indent=...)], [json.loads(s)] and [s.lower()].  They
    are not code of the repository, and what they do at the margins
    (the text of a float, the limits on integers and on nesting, the
    Unicode tables) changes with the interpreter: the tools take them as
    parameters, and a statement about the tools that binds a [Runtime]
    holds for every one of them. *)
Class Runtime : Type :=
  { json_dumps : option nat -> pyval -> Answer string;
    json_loads : string -> Answer pyval;
    str_lower : string -> string }.

(** The reference runtime: the codec above and the lowering of the
    ASCII letters.  A statement that binds no [Runtime] is about it. *)
#[global] Instance reference_runtime : Runtime :=
  {| json_dumps := Json.dumps;
     json_loads := Json.loads;
     str_lower := PyStr.lower |}.

(* ================================================================== *)
(** * The external client and the accessors *)
(* ================================================================== *)

(** The configured embedding function is an opaque object that the tools
    only pass on; it is known by its name. *)
Definition EmbeddingFunction : Type := string.

(** The [embedding_function] keyword of [get_collection]: left out, or
    given (possibly as [None]). *)
Inductive ef_keyword : Type :=
| ef_omitted
| ef_given (f : option EmbeddingFunction).

(** A collection object of the client: its attributes, and what each of
    its methods does when called. *)
Record Collection : Type := mkCollection
  { coll_name : string;
    coll_id : string;                       (* [str(collection.id)] *)
    coll_metadata : option dict;
    coll_count : Answer Z;
    coll_peek : Z -> Answer (option dict);
    coll_modify : string -> Answer unit }.

(** The client object: what each of its methods does when called. *)
Record Client : Type := mkClient
  { create_collection :
      string -> dict -> option EmbeddingFunction -> bool -> Answer Collection;
    list_collections : Answer (list string);
    get_collection : string -> ef_keyword -> Answer Collection;
    delete_collection : string -> Answer unit }.

(** The functions of [chroma_mcp.utils] that the tools import: the
    validator of names and the three accessors.  They are defined outside
    the module modelled here, so what they do is a parameter. *)
Record Env : Type := mkEnv
  { validate_collection_name : string -> Answer unit;
    get_chroma_client : Answer Client;
    get_embedding_function : Answer (option EmbeddingFunction);
    get_collection_settings : Answer dict }.

(** A call into the external library, on the client object or on a
    collection object it returned. *)
Inductive Call : Type :=
| call_create_collection (name : string) (metadata : dict)
    (embedding_function : option EmbeddingFunction) (get_or_create : bool)
| call_list_collections
| call_get_collection (name : string) (embedding_function : ef_keyword)
| call_delete_collection (name : string)
| call_count
| call_peek (limit : Z)
| call_modify (name : string).

(* ================================================================== *)
(** * Executions *)
(* ================================================================== *)

(** A piece of Python code: it extends the log of the calls made into
    the external library, and returns or raises. *)
Definition Exec (A : Type) : Type := list Call -> PyResult A * list Call.

Definition ret {A : Type} (a : A) : Exec A := fun log => (Return a, log).

Definition raise {A : Type} (e : PyExc) : Exec A := fun log => (Raise e, log).

Definition bind {A B : Type} (m : Exec A) (f : A -> Exec B) : Exec B :=
  fun log =>
    match m log with
    | (Return a, log') => f a log'
    | (Raise e, log') => (Raise e, log')
    end.

(** A call that does not reach the external library. *)
Definition ask {A : Type} (r : Answer A) : Exec A :=
  fun log => (answer r, log).

(** A call into the external library: it is logged, whatever it does. *)
Definition call {A : Type} (c : Call) (r : Answer A) : Exec A :=
  fun log => (answer r, (log ++ [c])%list).

(** [try: body except Exception as e: handler(e)]; the handler chooses
    by class, as the [except] clauses do. *)
Definition try_except {A : Type} (body : Exec A) (handler : PyExc -> Exec A)
  : Exec A :=
  fun log =>
    match body log with
    | (Raise e, log') => handler e log'
    | r => r
    end.

(** Running a tool from an empty log. *)
Definition run {A : Type} (m : Exec A) : PyResult A * list Call := m [].

Declare Scope exec_scope.
Delimit Scope exec_scope with exec.
Notation "x <- m ;; k" := (bind m (fun x => k))
  (at level 61, m at next level, right associativity) : exec_scope.
Notation "m ;;; k" := (bind m (fun _ => k))
  (at level 61, right associativity) : exec_scope.
Local Open Scope exec_scope.

Definition mcp_error {A : Type} (c : Z) (msg : string) : Exec A :=
  raise (McpError (mkErrorData c msg)).

Definition text_content (s : string) : list TextContent :=
  [mkTextContent "text" s].

(* ================================================================== *)
(** * Input models *)
(* ================================================================== *)

Module CreateCollectionInput.
Record t : Type := make { collection_name : string }.
End CreateCollectionInput.

Module CreateCollectionWithMetadataInput.
Record t : Type := make { collection_name : string; metadata : string }.
End CreateCollectionWithMetadataInput.

Module ListCollectionsInput.
Record t : Type := make
  { limit : option Z; offset : option Z; name_contains : option string }.

(** The constraints of the fields: [ge=0] on [limit] and [offset]. *)
Definition valid (i : t) : Prop :=
  (forall l, limit i = Some l -> 0 <= l) /\
  (forall o, offset i = Some o -> 0 <= o).
End ListCollectionsInput.

Module GetCollectionInput.
Record t : Type := make { collection_name : string }.
End GetCollectionInput.

Module RenameCollectionInput.
Record t : Type := make { collection_name : string; new_name : string }.
End RenameCollectionInput.

Module DeleteCollectionInput.
Record t : Type := make { collection_name : string }.
End DeleteCollectionInput.

Module PeekCollectionInput.
Record t : Type := make { collection_name : string; limit : option Z }.

(** The constraint of the field: [ge=1] on [limit]. *)
Definition valid (i : t) : Prop := forall l, limit i = Some l -> 1 <= l.
End PeekCollectionInput.

(* ================================================================== *)
(** * The tool implementations *)
(* ================================================================== *)

(** Logging has no effect on what a tool returns or raises and is left
    out.  Every definition below follows the statements of the Python
    function of the same name, in their order. *)

Section Tools.
Context `{ErrorClasses}.
Context {runtime : Runtime}.
Variable env : Env.

Definition _create_collection_impl (input_data : CreateCollectionInput.t)
  : Exec (list TextContent) :=
  let collection_name := CreateCollectionInput.collection_name input_data in
  try_except
    (ask (validate_collection_name env collection_name) ;;;
     client <- ask (get_chroma_client env) ;;
     embedding_function <- ask (get_embedding_function env) ;;
     default_settings <- ask (get_collection_settings env) ;;
     let final_metadata := flatten_settings default_settings in
     collection <-
       call (call_create_collection collection_name final_metadata
               embedding_function false)
            (create_collection client collection_name final_metadata
               embedding_function false) ;;
     count <- call call_count (coll_count collection) ;;
     let result_data : dict :=
       [ ("name", PStr (coll_name collection));
         ("id", PStr (coll_id collection));
         ("metadata",
           PDict (_reconstruct_metadata (coll_metadata collection)));
         ("count", PInt count) ] in
     result_json <- ask (json_dumps (Some 2%nat) (PDict result_data)) ;;
     ret (text_content result_json))
    (fun e =>
       if is_ValidationError e then
         mcp_error INVALID_PARAMS ("Validation Error: " ++ exc_str e)
       else if is_ValueError e then
         if PyStr.contains
              ("Collection " ++ collection_name ++ " already exists.")
              (exc_str e)
         then
           mcp_error INVALID_PARAMS
             ("Tool Error: Collection '" ++ collection_name
              ++ "' already exists.")
         else
           mcp_error INVALID_PARAMS
             ("Tool Error: Invalid parameter during collection creation. Details: "
              ++ exc_str e)
       else if is_InvalidDimensionException e then
         mcp_error INTERNAL_ERROR
           ("ChromaDB Error: Invalid dimension configuration. " ++ exc_str e)
       else
         mcp_error INTERNAL_ERROR
           ("Tool Error: An unexpected error occurred while creating collection '"
            ++ collection_name ++ "'. Details: " ++ exc_str e)).

(** [None] and integers as JSON values. *)
Definition opt_int (o : option Z) : pyval :=
  match o with Some z => PInt z | None => PNone end.

Definition _list_collections_impl (input_data : ListCollectionsInput.t)
  : Exec (list TextContent) :=
  let limit := ListCollectionsInput.limit input_data in
  let offset := ListCollectionsInput.offset input_data in
  let name_contains := ListCollectionsInput.name_contains input_data in
  try_except
    (client <- ask (get_chroma_client env) ;;
     all_collection_names <-
       call call_list_collections (list_collections client) ;;
     let filtered_names :=
       match name_contains with
       | Some nc =>
           if PyStr.truthy nc then
             filter (fun name =>
                       PyStr.truthy nc &&
                       PyStr.contains (str_lower nc) (str_lower name))
                    all_collection_names
           else all_collection_names
       | None => all_collection_names
       end in
     let total_matching_count := Z.of_nat (length filtered_names) in
     let start_index := match offset with Some o => o | None => 0 end in
     let end_index :=
       match limit with Some l => Some (start_index + l) | None => None end in
     let start_index := if start_index <? 0 then 0 else start_index in
     let paginated_names := py_slice filtered_names start_index end_index in
     let result_data : dict :=
       [ ("collection_names", PList (map PStr paginated_names));
         ("total_count", PInt total_matching_count);
         ("limit", opt_int limit);
         ("offset", opt_int offset) ] in
     result_json <- ask (json_dumps (Some 2%nat) (PDict result_data)) ;;
     ret (text_content result_json))
    (fun e =>
       mcp_error INTERNAL_ERROR
         ("Tool Error: Error listing collections. Details: " ++ exc_str e)).

(** A dictionary or [None] as a JSON value. *)
Definition opt_dict (o : option dict) : pyval :=
  match o with Some d => PDict d | None => PNone end.

Definition _get_collection_impl (input_data : GetCollectionInput.t)
  : Exec (list TextContent) :=
  let collection_name := GetCollectionInput.collection_name input_data in
  try_except
    (ask (validate_collection_name env collection_name) ;;;
     client <- ask (get_chroma_client env) ;;
     embedding_function <- ask (get_embedding_function env) ;;
     collection <-
       call (call_get_collection collection_name (ef_given embedding_function))
            (get_collection client collection_name
               (ef_given embedding_function)) ;;
     count <- call call_count (coll_count collection) ;;
     peek_results <-
       try_except
         (peek_results <- call (call_peek 5) (coll_peek collection 5) ;;
          ret (match peek_results with
               | Some d =>
                   if PyDict.truthy d && PyDict.mem "embeddings" d
                   then Some (PyDict.del d "embeddings")
                   else Some d
               | None => None
               end))
         (fun peek_err =>
            ret (Some [("error",
                        PStr ("Could not peek: " ++ exc_str peek_err))])) ;;
     let result_data : dict :=
       [ ("name", PStr (coll_name collection));
         ("id", PStr (coll_id collection));
         ("metadata",
           PDict (_reconstruct_metadata (coll_metadata collection)));
         ("count", PInt count);
         ("sample_entries", opt_dict peek_results) ] in
     result_json <- ask (json_dumps (Some 2%nat) (PDict result_data)) ;;
     ret (text_content result_json))
    (fun e =>
       if is_ValueError e then
         let error_str := str_lower (exc_str e) in
         let not_found :=
           PyStr.contains
             ("collection " ++ collection_name ++ " does not exist.")
             error_str
           || PyStr.contains
                ("collection " ++ collection_name ++ " not found") error_str in
         if not_found then
           mcp_error INVALID_PARAMS
             ("Tool Error: Collection '" ++ collection_name ++ "' not found.")
         else
           mcp_error INVALID_PARAMS
             ("Tool Error: Invalid parameter getting collection. Details: "
              ++ exc_str e)
       else
         mcp_error INTERNAL_ERROR
           ("Tool Error: An unexpected error occurred while getting collection '"
            ++ collection_name ++ "'. Details: " ++ exc_str e)).

Definition _rename_collection_impl (input_data : RenameCollectionInput.t)
  : Exec (list TextContent) :=
  let original_name := RenameCollectionInput.collection_name input_data in
  let new_name := RenameCollectionInput.new_name input_data in
  try_except
    (ask (validate_collection_name env original_name) ;;;
     ask (validate_collection_name env new_name) ;;;
     client <- ask (get_chroma_client env) ;;
     collection <-
       call (call_get_collection original_name ef_omitted)
            (get_collection client original_name ef_omitted) ;;
     call (call_modify new_name) (coll_modify collection new_name) ;;;
     ret (text_content
            ("Collection '" ++ original_name ++ "' successfully renamed to '"
             ++ new_name ++ "'.")))
    (fun e =>
       if is_ValidationError e then
         mcp_error INVALID_PARAMS ("Validation Error: " ++ exc_str e)
       else if is_ValueError e then
         let error_str := str_lower (exc_str e) in
         let original_not_found :=
           PyStr.contains
             ("collection " ++ original_name ++ " does not exist.") error_str
           || PyStr.contains
                ("collection " ++ original_name ++ " not found") error_str in
         if original_not_found then
           mcp_error INVALID_PARAMS
             ("Tool Error: Collection '" ++ original_name ++ "' not found.")
         else
           let new_name_exists :=
             PyStr.contains
               ("collection " ++ new_name ++ " already exists.") error_str in
           if new_name_exists then
             mcp_error INVALID_PARAMS
               ("Tool Error: Collection name '" ++ new_name
                ++ "' already exists.")
           else
             mcp_error INVALID_PARAMS
               ("Tool Error: Invalid parameter during rename. Details: "
                ++ exc_str e)
       else
         mcp_error INTERNAL_ERROR
           ("Tool Error: An unexpected error occurred renaming collection '"
            ++ original_name ++ "'. Details: " ++ exc_str e)).

Definition _delete_collection_impl (input_data : DeleteCollectionInput.t)
  : Exec (list TextContent) :=
  let collection_name := DeleteCollectionInput.collection_name input_data in
  try_except
    (ask (validate_collection_name env collection_name) ;;;
     client <- ask (get_chroma_client env) ;;
     call (call_delete_collection collection_name)
          (delete_collection client collection_name) ;;;
     ret (text_content
            ("Collection '" ++ collection_name ++ "' deleted successfully.")))
    (fun e =>
       if is_ValueError e then
         let error_str := str_lower (exc_str e) in
         let not_found :=
           PyStr.contains
             ("collection " ++ collection_name ++ " does not exist.")
             error_str
           || PyStr.contains
                ("collection named " ++ collection_name ++ " does not exist")
                error_str in
         if not_found then
           mcp_error INVALID_PARAMS
             ("Tool Error: Collection '" ++ collection_name ++ "' not found.")
         else
           mcp_error INVALID_PARAMS
             ("Tool Error: Invalid parameter deleting collection. Details: "
              ++ exc_str e)
       else
         mcp_error INTERNAL_ERROR
           ("Tool Error: An unexpected error occurred deleting collection '"
            ++ collection_name ++ "'. Details: " ++ exc_str e)).

(** [for item in v]: the items that iterating over [v] yields. *)
Definition py_iter (v : pyval) : Answer (list pyval) :=
  match v with
  | PList items => Gives items
  | PDict entries => Gives (map (fun kv => PStr (fst kv)) entries)
  | PStr s => Gives (map PStr (PyStr.chars s))
  | PObj _ (Some items) _ => Gives items
  | PObj t None _ => Throws TypeError ("'" ++ t ++ "' object is not iterable")
  | PNone => Throws TypeError "'NoneType' object is not iterable"
  | PBool _ => Throws TypeError "'bool' object is not iterable"
  | PInt _ => Throws TypeError "'int' object is not iterable"
  | PFloat _ => Throws TypeError "'float' object is not iterable"
  end.

(** [x.tolist() if hasattr(x, "tolist") else x] *)
Definition tolist_or_self (x : pyval) : pyval :=
  match x with
  | PObj _ _ (Some l) => l
  | _ => x
  end.

(** One turn of the loops of [_peek_collection_impl] over the
    embeddings and over the distances. *)
Definition convert_item (item : pyval) : pyval :=
  match item with
  | PList inner => PList (map tolist_or_self inner)
  | _ => tolist_or_self item
  end.

(** The two blocks of [_peek_collection_impl] that replace the entry
    under ["embeddings"], then under ["distances"], when it is present
    and not [None]. *)
Definition convert_entry (key : string) (processed_peek : dict)
  : Exec dict :=
  match PyDict.get key processed_peek with
  | None | Some PNone => ret processed_peek
  | Some entries =>
      items <- ask (py_iter entries) ;;
      ret (PyDict.set processed_peek key (PList (map convert_item items)))
  end.

Definition _peek_collection_impl (input_data : PeekCollectionInput.t)
  : Exec (list TextContent) :=
  let collection_name := PeekCollectionInput.collection_name input_data in
  let limit := PeekCollectionInput.limit input_data in
  try_except
    (ask (validate_collection_name env collection_name) ;;;
     client <- ask (get_chroma_client env) ;;
     collection <-
       call (call_get_collection collection_name ef_omitted)
            (get_collection client collection_name ef_omitted) ;;
     let peek_limit := match limit with Some l => l | None => 10 end in
     peek_results <-
       call (call_peek peek_limit) (coll_peek collection peek_limit) ;;
     let processed_peek : dict :=
       match peek_results with Some d => d | None => [] end in
     processed_peek <- convert_entry "embeddings" processed_peek ;;
     processed_peek <- convert_entry "distances" processed_peek ;;
     result_json <- ask (json_dumps (Some 2%nat) (PDict processed_peek)) ;;
     ret (text_content result_json))
    (fun e =>
       if is_ValueError e then
         let error_str := str_lower (exc_str e) in
         let not_found :=
           PyStr.contains
             ("collection " ++ collection_name ++ " does not exist.")
             error_str
           || PyStr.contains
                ("collection " ++ collection_name ++ " not found") error_str in
         if not_found then
           mcp_error INVALID_PARAMS
             ("Tool Error: Collection '" ++ collection_name ++ "' not found.")
         else
           mcp_error INVALID_PARAMS
             ("Tool Error: Problem accessing collection '" ++ collection_name
              ++ "'. Details: " ++ exc_str e)
       else
         mcp_error INTERNAL_ERROR
           ("Tool Error: An unexpected error occurred peeking collection '"
            ++ collection_name ++ "'. Details: " ++ exc_str e)).

Definition _create_collection_with_metadata_impl
           (input_data : CreateCollectionWithMetadataInput.t)
  : Exec (list TextContent) :=
  let collection_name :=
    CreateCollectionWithMetadataInput.collection_name input_data in
  let metadata_str := CreateCollectionWithMetadataInput.metadata input_data in
  try_except
    (metadata_dict <-
       try_except
         (metadata_dict <- ask (json_loads metadata_str) ;;
          match metadata_dict with
          | PDict d => ret d
          | _ =>
              raise (Foreign ValueError
                "Metadata string must decode to a JSON object (dictionary).")
          end)
         (fun e =>
            if is_JSONDecodeError e then
              mcp_error INVALID_PARAMS
                ("Invalid JSON format for metadata field: " ++ exc_str e)
            else if is_ValueError e then
              mcp_error INVALID_PARAMS (exc_str e)
            else raise e) ;;
     ask (validate_collection_name env collection_name) ;;;
     embedding_function <- ask (get_embedding_function env) ;;
     chroma_client <- ask (get_chroma_client env) ;;
     collection <-
       call (call_create_collection collection_name metadata_dict
               embedding_function false)
            (create_collection chroma_client collection_name metadata_dict
               embedding_function false) ;;
     let reconstructed_meta :=
       _reconstruct_metadata (coll_metadata collection) in
     count <- call call_count (coll_count collection) ;;
     let result_dict : dict :=
       [ ("name", PStr (coll_name collection));
         ("id", PStr (coll_id collection));
         ("metadata", PDict reconstructed_meta);
         ("count", PInt count);
         ("status", PStr "success") ] in
     result_json <- ask (json_dumps None (PDict result_dict)) ;;
     ret (text_content result_json))
    (fun e =>
       if is_ValidationError e then
         mcp_error INVALID_PARAMS ("Validation Error: " ++ exc_str e)
       else if is_McpError e then raise e
       else if PyStr.contains
                 ("Collection " ++ collection_name ++ " already exists.")
                 (exc_str e)
       then
         mcp_error INVALID_PARAMS
           ("Tool Error: Collection '" ++ collection_name
            ++ "' already exists.")
       else
         mcp_error INTERNAL_ERROR
           ("Tool Error: An unexpected error occurred while creating collection '"
            ++ collection_name ++ "'. Details: " ++ exc_str e)).

End Tools.

(* ================================================================== *)
(** * Requests, calls and sample deployments *)
(* ================================================================== *)

(** The seven tools as one function of the request, so that a statement
    can speak of every tool operation at once. *)
Inductive ToolCall : Type :=
| create_collection_tool (i : CreateCollectionInput.t)
| create_collection_with_metadata_tool (i : CreateCollectionWithMetadataInput.t)
| list_collections_tool (i : ListCollectionsInput.t)
| get_collection_tool (i : GetCollectionInput.t)
| rename_collection_tool (i : RenameCollectionInput.t)
| delete_collection_tool (i : DeleteCollectionInput.t)
| peek_collection_tool (i : PeekCollectionInput.t).

Definition tool_impl `{ErrorClasses} {runtime : Runtime} (env : Env)
           (t : ToolCall)
  : Exec (list TextContent) :=
  match t with
  | create_collection_tool i => _create_collection_impl env i
  | create_collection_with_metadata_tool i =>
      _create_collection_with_metadata_impl env i
  | list_collections_tool i => _list_collections_impl env i
  | get_collection_tool i => _get_collection_impl env i
  | rename_collection_tool i => _rename_collection_impl env i
  | delete_collection_tool i => _delete_collection_impl env i
  | peek_collection_tool i => _peek_collection_impl env i
  end.

(** The method of the external library that a call invokes. *)
Inductive Method : Type :=
| m_create_collection
| m_list_collections
| m_get_collection
| m_delete_collection
| m_count
| m_peek
| m_modify.

Definition method (c : Call) : Method :=
  match c with
  | call_create_collection _ _ _ _ => m_create_collection
  | call_list_collections => m_list_collections
  | call_get_collection _ _ => m_get_collection
  | call_delete_collection _ => m_delete_collection
  | call_count => m_count
  | call_peek _ => m_peek
  | call_modify _ => m_modify
  end.

(** The calls into the external library that each tool makes when it
    succeeds, in their order. *)
Definition calls_on_success (t : ToolCall) : list Method :=
  match t with
  | create_collection_tool _ => [m_create_collection; m_count]
  | create_collection_with_metadata_tool _ => [m_create_collection; m_count]
  | list_collections_tool _ => [m_list_collections]
  | get_collection_tool _ => [m_get_collection; m_count; m_peek]
  | rename_collection_tool _ => [m_get_collection; m_modify]
  | delete_collection_tool _ => [m_delete_collection]
  | peek_collection_tool _ => [m_get_collection; m_peek]
  end.

(** ** A sample deployment

    A client that holds one collection, [docs], with one stored entry,
    and accessors that hand it out. *)
Definition docs : Collection :=
  {| coll_name := "docs";
     coll_id := "7f1d";
     coll_metadata := Some [("chroma:setting:hnsw_space", PStr "cosine")];
     coll_count := Gives 1;
     coll_peek := fun _ =>
       Gives (Some [("ids", PList [PStr "a"]);
                    ("embeddings",
                      PList [PObj "ndarray" None (Some (PList [PInt 1]))])]);
     coll_modify := fun _ => Gives tt |}.

Definition docs_client : Client :=
  {| create_collection := fun _ _ _ _ => Gives docs;
     list_collections := Gives ["docs"];
     get_collection := fun _ _ => Gives docs;
     delete_collection := fun _ => Gives tt |}.

Definition docs_env : Env :=
  {| validate_collection_name := fun _ => Gives tt;
     get_chroma_client := Gives docs_client;
     get_embedding_function := Gives None;
     get_collection_settings := Gives [("hnsw:space", PStr "cosine")] |}.

(** The same deployment with a validator that rejects names shorter
    than three characters. *)
Definition strict_env : Env :=
  {| validate_collection_name := fun name =>
       if Nat.ltb (String.length name) 3
       then Throws ValidationError "Collection name must be at least 3 characters"
       else Gives tt;
     get_chroma_client := Gives docs_client;
     get_embedding_function := Gives None;
     get_collection_settings := Gives [("hnsw:space", PStr "cosine")] |}.

(** A client in which every name is taken: creation fails with an
    exception of class [cls]. *)
Definition taken_client (cls : ExcClass) : Client :=
  {| create_collection := fun name _ _ _ =>
       Throws cls ("Collection " ++ name ++ " already exists.");
     list_collections := Gives ["docs"];
     get_collection := fun _ _ => Gives docs;
     delete_collection := fun _ => Gives tt |}.

Definition taken_env (cls : ExcClass) : Env :=
  {| validate_collection_name := fun _ => Gives tt;
     get_chroma_client := Gives (taken_client cls);
     get_embedding_function := Gives None;
     get_collection_settings := Gives [("hnsw:space", PStr "cosine")] |}.

(** A collection whose entries cannot be sampled: [peek] fails with a
    [ValueError]. *)
Definition sealed : Collection :=
  {| coll_name := "docs";
     coll_id := "7f1d";
     coll_metadata := Some [("description", PStr "notes")];
     coll_count := Gives 1;
     coll_peek := fun _ => Throws ValueError "Collection docs not found";
     coll_modify := fun _ => Gives tt |}.

Definition sealed_client : Client :=
  {| create_collection := fun _ _ _ _ => Gives sealed;
     list_collections := Gives ["docs"];
     get_collection := fun _ _ => Gives sealed;
     delete_collection := fun _ => Gives tt |}.

Definition sealed_env : Env :=
  {| validate_collection_name := fun _ => Gives tt;
     get_chroma_client := Gives sealed_client;
     get_embedding_function := Gives None;
     get_collection_settings := Gives [("hnsw:space", PStr "cosine")] |}.

(** A client without collections: every lookup fails with a
    [ValueError]. *)
Definition empty_client : Client :=
  {| create_collection := fun _ _ _ _ => Gives docs;
     list_collections := Gives [];
     get_collection := fun name _ =>
       Throws ValueError ("Collection " ++ name ++ " does not exist.");
     delete_collection := fun name =>
       Throws ValueError ("Collection " ++ name ++ " does not exist.") |}.

Definition empty_env : Env :=
  {| validate_collection_name := fun _ => Gives tt;
     get_chroma_client := Gives empty_client;
     get_embedding_function := Gives None;
     get_collection_settings := Gives [("hnsw:space", PStr "cosine")] |}.

(** A client with the four collections of the repository's test of the
    listing. *)
Definition fruit_names : list string :=
  ["apple"; "banana"; "apricot"; "avocado"].

Definition fruit_client : Client :=
  {| create_collection := fun _ _ _ _ => Gives docs;
     list_collections := Gives fruit_names;
     get_collection := fun _ _ => Gives docs;
     delete_collection := fun _ => Gives tt |}.

Definition fruit_env : Env :=
  {| validate_collection_name := fun _ => Gives tt;
     get_chroma_client := Gives fruit_client;
     get_embedding_function := Gives None;
     get_collection_settings := Gives [("hnsw:space", PStr "cosine")] |}.

(** The request of that test: the second page of size two of the names
    that contain [ap]. *)
Definition second_ap_page : ListCollectionsInput.t :=
  ListCollectionsInput.make (Some 2) (Some 1) (Some "ap").

(** ** Exceptions raised by the client during an operation *)

(** During a creation, the client raises either in [create_collection]
    or in the [count] that follows it. *)
Definition creation_raises (client : Client) (name : string) (metadata : dict)
           (ef : option EmbeddingFunction) (cls : ExcClass) (msg : string)
  : Prop :=
  create_collection client name metadata ef false = Throws cls msg \/
  exists c, create_collection client name metadata ef false = Gives c /\
            coll_count c = Throws cls msg.

(** The message of the client says that the name is taken. *)
Definition says_already_exists (name msg : string) : bool :=
  PyStr.contains ("Collection " ++ name ++ " already exists.") msg.

(** During get collection, outside the guarded sampling, the client
    raises either in [get_collection] or in [count]. *)
Definition lookup_raises (client : Client) (name : string)
           (ef : option EmbeddingFunction) (cls : ExcClass) (msg : string)
  : Prop :=
  get_collection client name (ef_given ef) = Throws cls msg \/
  exists c, get_collection client name (ef_given ef) = Gives c /\
            coll_count c = Throws cls msg.

(** During peek collection, the client raises either in
    [get_collection] or in [peek]. *)
Definition sampling_raises (client : Client) (name : string) (limit : Z)
           (cls : ExcClass) (msg : string) : Prop :=
  get_collection client name ef_omitted = Throws cls msg \/
  exists c, get_collection client name ef_omitted = Gives c /\
            coll_peek c limit = Throws cls msg.

(** The lowercased message of the client says that the collection is
    missing, in one of the two wordings that get and peek know. *)
Definition says_not_found {runtime : Runtime} (name msg : string) : bool :=
  PyStr.contains ("collection " ++ name ++ " does not exist.") (str_lower msg)
  || PyStr.contains ("collection " ++ name ++ " not found") (str_lower msg).

(** The two wordings that delete knows. *)
Definition says_not_found_on_delete {runtime : Runtime} (name msg : string)
  : bool :=
  PyStr.contains ("collection " ++ name ++ " does not exist.") (str_lower msg)
  || PyStr.contains ("collection named " ++ name ++ " does not exist")
       (str_lower msg).

Definition not_found_message (name : string) : string :=
  "Tool Error: Collection '" ++ name ++ "' not found.".

(** An [McpError] with code [INVALID_PARAMS], and with the not-found
    message when the client said so. *)
Definition invalid_params_not_found {A : Type} (r : PyResult A)
           (said_not_found : bool) (name : string) : Prop :=
  exists m, r = Raise (McpError (mkErrorData INVALID_PARAMS m)) /\
            (said_not_found = true -> m = not_found_message name).

(** ** The result of get collection *)

(** The dictionary that get collection serializes, given the collection,
    its count and what it stores under ["sample_entries"]. *)
Definition get_result_data (c : Collection) (count : Z)
           (sample_entries : option dict) : dict :=
  [ ("name", PStr (coll_name c));
    ("id", PStr (coll_id c));
    ("metadata", PDict (_reconstruct_metadata (coll_metadata c)));
    ("count", PInt count);
    ("sample_entries", opt_dict sample_entries) ].

(** What is stored under ["sample_entries"] when the sampling fails. *)
Definition could_not_peek (msg : string) : dict :=
  [("error", PStr ("Could not peek: " ++ msg))].

(** What get collection stores under ["sample_entries"]: the sample of
    five entries without its embeddings, or the message of the
    exception that [peek] raised. *)
Definition sample_entries (c : Collection) : option dict :=
  match answer (coll_peek c 5) with
  | Return (Some d) =>
      if PyDict.truthy d && PyDict.mem "embeddings" d
      then Some (PyDict.del d "embeddings")
      else Some d
  | Return None => None
  | Raise e => Some (could_not_peek (exc_str e))
  end.

(** The three calls of a get collection that reaches its sampling. *)
Definition get_calls (name : string) (ef : option EmbeddingFunction)
  : list Call :=
  [call_get_collection name (ef_given ef); call_count; call_peek 5].

(** The text is a JSON document. *)
Definition parses_as_json (s : string) : Prop :=
  exists v, Json.decode s = Some v.

(** ** The two confirmation sentences *)

Definition renamed_message (i : RenameCollectionInput.t) : string :=
  "Collection '" ++ RenameCollectionInput.collection_name i
  ++ "' successfully renamed to '" ++ RenameCollectionInput.new_name i ++ "'.".

Definition deleted_message (i : DeleteCollectionInput.t) : string :=
  "Collection '" ++ DeleteCollectionInput.collection_name i
  ++ "' deleted successfully.".

(** The two possible declarations of [ValidationError]. *)
Definition validation_error_is_plain : ErrorClasses :=
  {| ValidationError_is_ValueError := false |}.

Definition validation_error_is_value_error : ErrorClasses :=
  {| ValidationError_is_ValueError := true |}.

(** ** Sample requests *)

Definition get_docs : ToolCall :=
  get_collection_tool (GetCollectionInput.make "docs").

Definition delete_docs : ToolCall :=
  delete_collection_tool (DeleteCollectionInput.make "docs").

Definition rename_docs : ToolCall :=
  rename_collection_tool (RenameCollectionInput.make "docs" "notes").

(** The text of the first item that a run returned. *)
Definition returned_text (r : PyResult (list TextContent) * list Call)
  : string :=
  match fst r with
  | Return (item :: _) => text item
  | _ => EmptyString
  end.

(** The text that get collection returns for [docs]. *)
Definition docs_summary : string :=
  Eval vm_compute in
    returned_text
      (run (tool_impl (H:=validation_error_is_plain) docs_env get_docs)).

(** The text that get collection returns for [sealed], whose sampling
    fails. *)
Definition sealed_summary : string :=
  Eval vm_compute in
    returned_text
      (run (tool_impl (H:=validation_error_is_plain) sealed_env get_docs)).

(** The text that list collections returns for the second page of the
    names that contain [ap]. *)
Definition second_ap_page_text : string :=
  Eval vm_compute in
    returned_text (run (_list_collections_impl fruit_env second_ap_page)).

(* ================================================================== *)
(** * Vocabulary of the statements *)
(* ================================================================== *)

(** The values that [json.dumps] accepts: everything but foreign objects. *)
Fixpoint serializable (v : pyval) : bool :=
  match v with
  | PList items => forallb serializable items
  | PDict entries => forallb (fun kv => serializable (snd kv)) entries
  | PObj _ _ _ => false
  | _ => true
  end.

(** A failure in the shape of the protocol: an [McpError] that carries
    one of the two codes and a message that is not empty. *)
Definition protocol_error (d : ErrorData) : Prop :=
  (code d = INVALID_PARAMS \/ code d = INTERNAL_ERROR) /\ message d <> "".

Definition returns_or_protocol_error {A : Type} (r : PyResult A) : Prop :=
  match r with
  | Return _ => True
  | Raise (McpError d) => protocol_error d
  | Raise (Foreign _ _) => False
  end.

(** ** The listing, in the words of its specification *)

(** [p] occurs in [s]. *)
Definition occurs_in (p s : string) : Prop := exists a b, s = a ++ p ++ b.

(** [filtered] keeps exactly the names, in order, whose lowercased form
    contains the lowercased [name_contains]; all the names when it is
    absent or empty. *)
Definition keeps_matching {runtime : Runtime} (name_contains : option string)
           (names filtered : list string) : Prop :=
  match name_contains with
  | None | Some EmptyString => filtered = names
  | Some nc =>
      exists keep : string -> bool,
        (forall name,
            keep name = true
            <-> occurs_in (str_lower nc) (str_lower name)) /\
        filtered = filter keep names
  end.

(** A page: skip [offset] names, then keep at most [limit] of them.
    For indices that are not negative this is the slice
    [filtered[offset : offset + limit]], with [offset] read as [0] when
    absent and no upper end when [limit] is absent. *)
Definition page_of {A : Type} (filtered : list A) (offset limit : option Z)
  : list A :=
  let rest :=
    skipn (Z.to_nat (match offset with Some o => o | None => 0 end))
          filtered in
  match limit with
  | Some l => firstn (Z.to_nat l) rest
  | None => rest
  end.

(** The result of a listing whose page is [page] and which counted
    [total] matching names. *)
Definition list_result_data (page : list string) (total : nat)
           (limit offset : option Z) : dict :=
  [ ("collection_names", PList (map PStr page));
    ("total_count", PInt (Z.of_nat total));
    ("limit", opt_int limit);
    ("offset", opt_int offset) ].

(** ** The result dictionaries *)

(** The dictionary that a creation serializes, given the collection that
    the client returned and its count. *)
Definition creation_result_data (c : Collection) (count : Z) : dict :=
  [ ("name", PStr (coll_name c));
    ("id", PStr (coll_id c));
    ("metadata", PDict (_reconstruct_metadata (coll_metadata c)));
    ("count", PInt count) ].

Definition creation_with_metadata_result_data (c : Collection) (count : Z)
  : dict :=
  [ ("name", PStr (coll_name c));
    ("id", PStr (coll_id c));
    ("metadata", PDict (_reconstruct_metadata (coll_metadata c)));
    ("count", PInt count);
    ("status", PStr "success") ].

(** The names that pass the filter of the listing, as its code selects
    them. *)
Definition filtered_names {runtime : Runtime} (name_contains : option string)
           (all_collection_names : list string) : list string :=
  match name_contains with
  | Some nc =>
      if PyStr.truthy nc then
        filter (fun name =>
                  PyStr.truthy nc &&
                  PyStr.contains (str_lower nc) (str_lower name))
               all_collection_names
      else all_collection_names
  | None => all_collection_names
  end.

(** The [indent] that each tool gives to [json.dumps]. *)
Definition indent_of (t : ToolCall) : option nat :=
  match t with
  | create_collection_with_metadata_tool _ => None
  | _ => Some 2%nat
  end.

(** [data] is the result dictionary that the tool builds from what the
    accessors and the client answered.  Rename and delete build none. *)
Definition result_dictionary {runtime : Runtime} (env : Env) (t : ToolCall)
           (data : dict) : Prop :=
  match t with
  | create_collection_tool i =>
      exists client ef settings c n,
        get_chroma_client env = Gives client /\
        get_embedding_function env = Gives ef /\
        get_collection_settings env = Gives settings /\
        create_collection client (CreateCollectionInput.collection_name i)
          (flatten_settings settings) ef false = Gives c /\
        coll_count c = Gives n /\
        data = creation_result_data c n
  | create_collection_with_metadata_tool i =>
      exists d client ef c n,
        json_loads (CreateCollectionWithMetadataInput.metadata i)
        = Gives (PDict d) /\
        get_embedding_function env = Gives ef /\
        get_chroma_client env = Gives client /\
        create_collection client
          (CreateCollectionWithMetadataInput.collection_name i) d ef false
        = Gives c /\
        coll_count c = Gives n /\
        data = creation_with_metadata_result_data c n
  | list_collections_tool i =>
      exists client names,
        get_chroma_client env = Gives client /\
        list_collections client = Gives names /\
        let filtered :=
          filtered_names (ListCollectionsInput.name_contains i) names in
        let start_index :=
          match ListCollectionsInput.offset i with
          | Some o => o
          | None => 0
          end in
        let end_index :=
          match ListCollectionsInput.limit i with
          | Some l => Some (start_index + l)
          | None => None
          end in
        data = list_result_data
                 (py_slice filtered
                    (if start_index <? 0 then 0 else start_index) end_index)
                 (length filtered)
                 (ListCollectionsInput.limit i)
                 (ListCollectionsInput.offset i)
  | get_collection_tool i =>
      exists client ef c n,
        get_chroma_client env = Gives client /\
        get_embedding_function env = Gives ef /\
        get_collection client (GetCollectionInput.collection_name i)
          (ef_given ef) = Gives c /\
        coll_count c = Gives n /\
        data = get_result_data c n (sample_entries c)
  | peek_collection_tool i =>
      exists client c sample d1 log1 log2,
        get_chroma_client env = Gives client /\
        get_collection client (PeekCollectionInput.collection_name i)
          ef_omitted = Gives c /\
        coll_peek c (match PeekCollectionInput.limit i with
                     | Some l => l
                     | None => 10
                     end) = Gives sample /\
        convert_entry "embeddings"
          (match sample with Some d => d | None => [] end) log1
        = (Return d1, log1) /\
        convert_entry "distances" d1 log2 = (Return data, log2)
  | rename_collection_tool _ | delete_collection_tool _ => False
  end.

(** What the text of a successful tool call is: the confirmation
    sentence, which is not JSON, for rename and delete; for the others,
    what [json.dumps] returned for the result dictionary. *)
Definition text_of_success {runtime : Runtime} (env : Env) (t : ToolCall)
           (s : string) : Prop :=
  match t with
  | rename_collection_tool i => s = renamed_message i /\ ~ parses_as_json s
  | delete_collection_tool i => s = deleted_message i /\ ~ parses_as_json s
  | _ =>
      exists data,
        result_dictionary env t data /\
        json_dumps (indent_of t) (PDict data) = Gives s
  end.

(** ** Failures *)

(** No exception of a foreign class leaves the operation. *)
Definition raises_only_mcp_errors {A : Type} (r : PyResult A) : Prop :=
  match r with
  | Raise (Foreign _ _) => False
  | _ => True
  end.

(** The errors that create collection with metadata hands on as they
    are: an [McpError] that [json], the validator, an accessor or the
    client raised while it ran, and the message of a [ValueError] of
    [json.loads], which becomes the message of the error. *)
Definition relayed {runtime : Runtime} (env : Env)
           (i : CreateCollectionWithMetadataInput.t) (d : ErrorData) : Prop :=
  let name := CreateCollectionWithMetadataInput.collection_name i in
  let metadata := CreateCollectionWithMetadataInput.metadata i in
  (exists cls, json_loads metadata = Throws cls (message d) /\
               code d = INVALID_PARAMS) \/
  json_loads metadata = Fails d \/
  validate_collection_name env name = Fails d \/
  get_embedding_function env = Fails d \/
  get_chroma_client env = Fails d \/
  (exists client m ef,
      get_chroma_client env = Gives client /\
      create_collection client name m ef false = Fails d) \/
  (exists client m ef c,
      get_chroma_client env = Gives client /\
      create_collection client name m ef false = Gives c /\
      coll_count c = Fails d) \/
  (exists v, json_dumps None v = Fails d).

(** What create collection with metadata may do: return, or raise a
    protocol error of its own making, or raise an error that it
    relays. *)
Definition protocol_error_or_relayed {runtime : Runtime} (env : Env)
           (i : CreateCollectionWithMetadataInput.t)
           (r : PyResult (list TextContent)) : Prop :=
  match r with
  | Return _ => True
  | Raise (Foreign _ _) => False
  | Raise (McpError d) => protocol_error d \/ relayed env i d
  end.

(** What [json.dumps] wrote, [json.loads] reads. *)
Definition reads_what_it_writes {runtime : Runtime} : Prop :=
  forall indent v s, json_dumps indent v = Gives s ->
                     exists v', json_loads s = Gives v'.

(** The tools whose result is a dictionary that they serialize. *)
Definition serializes_a_dictionary (t : ToolCall) : bool :=
  match t with
  | rename_collection_tool _ | delete_collection_tool _ => false
  | _ => true
  end.

(** No key ["embeddings"] in what is stored under ["sample_entries"]. *)
Definition no_embeddings (entries : option dict) : Prop :=
  match entries with
  | Some d => PyDict.mem "embeddings" d = false
  | None => True
  end.

(** The keys for which flattening can be undone: not empty, and free
    of underscores. *)
Definition plain_key (k : string) : Prop :=
  k <> "" /\ PyStr.has_char "_" k = false.

(** The code that the handlers of get, delete and peek give to a
    [ValidationError]: they have no clause for it, so it is handled as
    a [ValueError] when it is one and as an unexpected error
    otherwise. *)
Definition unhandled_validation_code `{ErrorClasses} : Z :=
  if ValidationError_is_ValueError then INVALID_PARAMS else INTERNAL_ERROR.

Definition already_exists_error (name : string) : PyExc :=
  McpError (mkErrorData INVALID_PARAMS
              ("Tool Error: Collection '" ++ name ++ "' already exists.")).

(* ================================================================== *)
(** * Vocabulary of the JSON round trip *)
(* ================================================================== *)

Section PyvalInduction.
Variable P : pyval -> Prop.
Hypothesis HNone : P PNone.
Hypothesis HBool : forall b, P (PBool b).
Hypothesis HInt : forall z, P (PInt z).
Hypothesis HFloat : forall f, P (PFloat f).
Hypothesis HStr : forall s, P (PStr s).
Hypothesis HList : forall items, Forall P items -> P (PList items).
Hypothesis HDict :
  forall entries, Forall (fun kv => P (snd kv)) entries -> P (PDict entries).
Hypothesis HObj : forall t i l, P (PObj t i l).

(** Induction over a value and the values it contains. *)
Fixpoint pyval_nested_ind (v : pyval) : P v :=
  match v with
  | PNone => HNone
  | PBool b => HBool b
  | PInt z => HInt z
  | PFloat f => HFloat f
  | PStr s => HStr s
  | PList items =>
      HList items
        ((fix all (l : list pyval) : Forall P l :=
            match l with
            | [] => Forall_nil P
            | x :: l' => Forall_cons x (pyval_nested_ind x) (all l')
            end) items)
  | PDict entries =>
      HDict entries
        ((fix all (l : list (string * pyval))
            : Forall (fun kv => P (snd kv)) l :=
            match l with
            | [] => Forall_nil _
            | kv :: l' =>
                Forall_cons kv (pyval_nested_ind (snd kv)) (all l')
            end) entries)
  | PObj t i l => HObj t i l
  end.
End PyvalInduction.

(** The two inner loops of the encoder, by name. *)
Definition encode_items (indent : option nat) (level : nat) :=
  fix go (l : list pyval) : string + list string :=
    match l with
    | [] => inr []
    | x :: l' =>
        match Json.encode indent (S level) x with
        | inl t => inl t
        | inr s =>
            match go l' with
            | inl t => inl t
            | inr ss => inr (s :: ss)
            end
        end
    end.

Definition encode_entries (indent : option nat) (level : nat) :=
  fix go (l : list (string * pyval)) : string + list string :=
    match l with
    | [] => inr []
    | (k, x) :: l' =>
        match Json.encode indent (S level) x with
        | inl t => inl t
        | inr s =>
            match go l' with
            | inl t => inl t
            | inr ss => inr ((Json.quote k ++ ": " ++ s) :: ss)
            end
        end
    end.

(** The text after a run of digits: it does not go on with a digit. *)
Definition stops_digits (rest : string) : bool :=
  match rest with
  | EmptyString => true
  | String c _ => negb (Json.is_digit c)
  end.

(** What may follow a number without being read as part of it. *)
Definition ends_number (rest : string) : bool :=
  match rest with
  | EmptyString => true
  | String c _ =>
      negb (Json.is_digit c) && negb (Ascii.eqb c ".")
      && negb (Ascii.eqb c "e") && negb (Ascii.eqb c "E")
  end.

(** The number that the decoder accumulates over a run of digits. *)
Fixpoint uint_value (acc : Z) (d : Decimal.uint) : Z :=
  match d with
  | Decimal.Nil => acc
  | Decimal.D0 d => uint_value (10 * acc) d
  | Decimal.D1 d => uint_value (10 * acc + 1) d
  | Decimal.D2 d => uint_value (10 * acc + 2) d
  | Decimal.D3 d => uint_value (10 * acc + 3) d
  | Decimal.D4 d => uint_value (10 * acc + 4) d
  | Decimal.D5 d => uint_value (10 * acc + 5) d
  | Decimal.D6 d => uint_value (10 * acc + 6) d
  | Decimal.D7 d => uint_value (10 * acc + 7) d
  | Decimal.D8 d => uint_value (10 * acc + 8) d
  | Decimal.D9 d => uint_value (10 * acc + 9) d
  end.

(** A text that the decoder skips as white space. *)
Definition blank (s : string) : Prop :=
  forall r, Json.skip_ws (s ++ r) = Json.skip_ws r.

(** A text on which skipping white space does nothing, and that does
    not start with a closing bracket. *)
Definition value_start (s : string) : bool :=
  match s with
  | String c _ =>
      negb (Json.is_ws c) && negb (Ascii.eqb c "]") && negb (Ascii.eqb c "}")
  | EmptyString => false
  end.

(** What follows a value in an encoded text: the end, a comma, a closing
    bracket or the line break before one. *)
Definition ends_value (rest : string) : bool :=
  match rest with
  | EmptyString => true
  | String c _ =>
      Ascii.eqb c "," || Ascii.eqb c "]" || Ascii.eqb c "}"
      || Nat.eqb (nat_of_ascii c) 10
  end.

(** The value that the decoder builds from the encoding of [v]: [v]
    itself, with the repeated keys of its dictionaries merged. *)
Fixpoint normalize (v : pyval) : pyval :=
  match v with
  | PList items => PList (map normalize items)
  | PDict entries =>
      PDict (Json.dict_of_pairs
               (map (fun kv => (fst kv, normalize (snd kv))) entries))
  | _ => v
  end.

(** The text after the first part of a bracket: the other parts, each
    after a separator, then the closing text. *)
Fixpoint parts_tail (sep closing_text : string) (parts : list string)
  : string :=
  match parts with
  | [] => closing_text
  | p :: ps => sep ++ p ++ parts_tail sep closing_text ps
  end.

(** The decoder [pv] reads the part as the value, whatever follows. *)
Definition reads (pv : string -> option (pyval * string))
           (part : string) (val : pyval) : Prop :=
  value_start part = true /\
  forall r, ends_value r = true -> pv (part ++ r) = Some (val, r).

Definition reads_member (pv : string -> option (pyval * string))
           (part : string) (kv : string * pyval) : Prop :=
  exists text,
    part = Json.quote (fst kv) ++ ": " ++ text /\ reads pv text (snd kv).

(** The encoding of [v] is read back, with enough fuel, as the normal
    form of [v], whatever follows it in the text. *)
Definition decodes (v : pyval) : Prop :=
  forall indent level enc,
    Json.encode indent level v = inr enc ->
    value_start enc = true /\
    forall rest fuel,
      ends_value rest = true -> (String.length enc <= fuel)%nat ->
      Json.value fuel (enc ++ rest) = Some (normalize v, rest).

(* ================================================================== *)
(** * The globals of [chroma_mcp.utils] *)
(* ================================================================== *)

(** [src/chroma_mcp/utils/__init__.py] keeps the main logger and the
    configuration of the server in two module-level variables.  The
    classes of the two objects are declared elsewhere ([logging.Logger],
    [chroma_mcp.types.ChromaClientConfig]); the setters only store them
    and Python does not enforce their annotations, so [None] can be
    stored as well. *)
Section Globals.
Variables Logger ChromaClientConfig : Type.

Record Globals : Type := mkGlobals
  { _main_logger_instance : option Logger;
    _global_client_config : option ChromaClientConfig }.

(** The state of the module once it is imported. *)
Definition initial_globals : Globals := mkGlobals None None.

Definition set_main_logger (logger : option Logger) (g : Globals) : Globals :=
  mkGlobals logger (_global_client_config g).

Definition set_server_config (config : option ChromaClientConfig)
           (g : Globals) : Globals :=
  mkGlobals (_main_logger_instance g) config.

Definition get_server_config (g : Globals) : PyResult ChromaClientConfig :=
  match _global_client_config g with
  | None =>
      Raise (McpError (mkErrorData INTERNAL_ERROR
                         "Server configuration not initialized"))
  | Some config => Return config
  end.

(** A call of one of the two setters. *)
Inductive Setter : Type :=
| main_logger_set (logger : option Logger)
| server_config_set (config : option ChromaClientConfig).

Definition apply_setter (g : Globals) (s : Setter) : Globals :=
  match s with
  | main_logger_set logger => set_main_logger logger g
  | server_config_set config => set_server_config config g
  end.

(** The argument of the last call of [set_server_config] among the
    calls, [None] when there is none. *)
Definition last_config (calls : list Setter) : option ChromaClientConfig :=
  fold_left (fun acc s =>
               match s with
               | server_config_set config => config
               | main_logger_set _ => acc
               end) calls None.

End Globals.

Arguments mkGlobals {Logger ChromaClientConfig}.
Arguments _main_logger_instance {Logger ChromaClientConfig}.
Arguments _global_client_config {Logger ChromaClientConfig}.
Arguments initial_globals {Logger ChromaClientConfig}.
Arguments set_main_logger {Logger ChromaClientConfig}.
Arguments set_server_config {Logger ChromaClientConfig}.
Arguments get_server_config {Logger ChromaClientConfig}.
Arguments main_logger_set {Logger ChromaClientConfig}.
Arguments server_config_set {Logger ChromaClientConfig}.
Arguments apply_setter {Logger ChromaClientConfig}.
Arguments last_config {Logger ChromaClientConfig}.

(* ================================================================== *)
(** * The helpers of the tests *)
(* ================================================================== *)

(** How a test helper ends: it returns, an assertion fails with its
    message (or [pytest.fail] is called with it), or another exception
    leaves it. *)
Inductive TestOutcome (A : Type) : Type :=
| test_passes (a : A)
| test_fails (assertion_message : string)
| test_errors (e : PyExc).
Arguments test_passes {A} a.
Arguments test_fails {A} assertion_message.
Arguments test_errors {A} e.

(** [with assert_raises_mcp_error(expected_message): body], from
    [tests/tools/test_collection_tools.py].  The context manager only
    has an [except McpError] clause: a body that returns ends the
    [with] statement normally, and any other exception goes through.
    The message looked at is the one of the [ErrorData]. *)
Definition assert_raises_mcp_error {A : Type} (expected_message : string)
           (body : PyResult A) : TestOutcome unit :=
  match body with
  | Return _ => test_passes tt
  | Raise (McpError error_data) =>
      let message := message error_data in
      if PyStr.contains expected_message message then test_passes tt
      else test_fails ("Expected error message containing '"
                       ++ expected_message ++ "' but got '" ++ message ++ "'")
  | Raise e => test_errors e
  end.

(** [str(type(v))] for the values that [json.loads] builds. *)
Definition type_of (v : pyval) : string :=
  match v with
  | PNone => "<class 'NoneType'>"
  | PBool _ => "<class 'bool'>"
  | PInt _ => "<class 'int'>"
  | PFloat _ => "<class 'float'>"
  | PStr _ => "<class 'str'>"
  | PList _ => "<class 'list'>"
  | PDict _ => "<class 'dict'>"
  | PObj t _ _ => "<class '" ++ t ++ "'>"
  end.

(** [assert_successful_json_result(result, expected_data)], from the
    same file.  The checks [isinstance(result, list)],
    [isinstance(content_item, TextContent)] and [text is not None] hold
    by the types of the model.  The comparison [==] of two dictionaries
    and their [str()] in the last message are the interpreter's: they
    are parameters, as [json.loads] is.  An exception of [json.loads]
    that is not a [JSONDecodeError] goes through. *)
Section JsonResult.
Context {runtime : Runtime}.
Variable py_eq : dict -> dict -> bool.
Variable py_str : dict -> string.

Definition assert_successful_json_result (result : list TextContent)
           (expected_data : option dict) : TestOutcome dict :=
  match result with
  | [] => test_fails "Result list cannot be empty for successful JSON result."
  | content_item :: _ =>
      if negb (String.eqb (type content_item) "text") then
        test_fails ("Expected content type 'text', got '"
                    ++ type content_item ++ "'")
      else
        let not_valid (e : string) : TestOutcome dict :=
          test_fails ("Result content is not valid JSON: " ++ e
                      ++ Json.newline ++ "Content: " ++ text content_item) in
        match json_loads (text content_item) with
        | Throws cls msg =>
            (* [except (json.JSONDecodeError, AssertionError)] *)
            if is_JSONDecodeError (Foreign cls msg) then not_valid msg
            else test_errors (Foreign cls msg)
        | Fails error => test_errors (McpError error)
        | Gives (PDict parsed_data) =>
            match expected_data with
            | Some expected =>
                if py_eq parsed_data expected then test_passes parsed_data
                else test_fails ("Parsed JSON data mismatch. Expected: "
                                 ++ py_str expected ++ ", Got: "
                                 ++ py_str parsed_data)
            | None => test_passes parsed_data
            end
        | Gives parsed_data =>
            not_valid ("Parsed JSON is not a dictionary, got "
                       ++ type_of parsed_data)
        end
  end.

End JsonResult.

(* ================================================================== *)
(** * Vocabulary of the further properties *)
(* ================================================================== *)

(** ** Reconstruction of the metadata *)

(** The keys that the reconstruction keeps away from the top level: the
    internal keys of Chroma and the raw settings. *)
Definition internal_key (k : string) : bool :=
  PyStr.startswith k "chroma:" || PyStr.startswith k "hnsw:".

(** The name under which a flattened setting comes back: every
    underscore of the original key has become a colon. *)
Definition restored_key (k : string) : string := PyStr.replace "_" ":" k.

Definition restored_settings (s : dict) : dict :=
  map (fun kv => (restored_key (fst kv), snd kv)) s.

(** Settings of the index, two of which have an underscore in their
    name. *)
Definition hnsw_defaults : dict :=
  [ ("hnsw:space", PStr "cosine");
    ("hnsw:construction_ef", PInt 100);
    ("hnsw:search_ef", PInt 10);
    ("hnsw:M", PInt 16) ].

(** Metadata with a description and a custom key. *)
Definition described : dict :=
  [("description", PStr "notes"); ("owner", PStr "ann")].

Definition described_json : string :=
  Eval vm_compute in
    match Json.dumps None (PDict described) with
    | Gives s => s
    | _ => EmptyString
    end.

(** ** Errors of the client and their classification *)

(** During a rename, the client raises either in [get_collection] or in
    the [modify] that follows it. *)
Definition renaming_raises (client : Client) (original_name new_name : string)
           (cls : ExcClass) (msg : string) : Prop :=
  get_collection client original_name ef_omitted = Throws cls msg \/
  exists c, get_collection client original_name ef_omitted = Gives c /\
            coll_modify c new_name = Throws cls msg.

(** The lowercased message of the client says that the new name is
    taken. *)
Definition says_new_name_exists {runtime : Runtime} (new_name msg : string)
  : bool :=
  PyStr.contains ("collection " ++ new_name ++ " already exists.")
                 (str_lower msg).

(** The error that a tool raises for an exception it has no clause
    for; [doing] is the wording of the tool. *)
Definition unexpected_error (doing name msg : string) : PyExc :=
  McpError (mkErrorData INTERNAL_ERROR
              ("Tool Error: An unexpected error occurred " ++ doing
               ++ " collection '" ++ name ++ "'. Details: " ++ msg)).

Definition invalid_params (msg : string) : PyExc :=
  McpError (mkErrorData INVALID_PARAMS msg).

(** An ASCII capital letter. *)
Definition is_upper (c : ascii) : bool :=
  let n := nat_of_ascii c in (Nat.leb 65 n && Nat.leb n 90)%bool.

Fixpoint has_upper (s : string) : bool :=
  match s with
  | EmptyString => false
  | String c s' => is_upper c || has_upper s'
  end.

(** ** The calls of a request *)

(** The calls that a request allows: on the collection it names, with
    the arguments that the tool derives from it and from the
    accessors. *)
Definition intended_call {runtime : Runtime} (env : Env) (t : ToolCall)
           (c : Call) : Prop :=
  match t, c with
  | create_collection_tool i, call_create_collection n m ef g =>
      n = CreateCollectionInput.collection_name i /\ g = false /\
      get_embedding_function env = Gives ef /\
      exists settings, get_collection_settings env = Gives settings /\
                       m = flatten_settings settings
  | create_collection_tool _, call_count => True
  | create_collection_with_metadata_tool i, call_create_collection n m ef g =>
      n = CreateCollectionWithMetadataInput.collection_name i /\ g = false /\
      get_embedding_function env = Gives ef /\
      json_loads (CreateCollectionWithMetadataInput.metadata i)
      = Gives (PDict m)
  | create_collection_with_metadata_tool _, call_count => True
  | list_collections_tool _, call_list_collections => True
  | get_collection_tool i, call_get_collection n k =>
      n = GetCollectionInput.collection_name i /\
      exists ef, get_embedding_function env = Gives ef /\ k = ef_given ef
  | get_collection_tool _, call_count => True
  | get_collection_tool _, call_peek l => l = 5
  | rename_collection_tool i, call_get_collection n k =>
      n = RenameCollectionInput.collection_name i /\ k = ef_omitted
  | rename_collection_tool i, call_modify n =>
      n = RenameCollectionInput.new_name i
  | delete_collection_tool i, call_delete_collection n =>
      n = DeleteCollectionInput.collection_name i
  | peek_collection_tool i, call_get_collection n k =>
      n = PeekCollectionInput.collection_name i /\ k = ef_omitted
  | peek_collection_tool i, call_peek l =>
      l = match PeekCollectionInput.limit i with Some l => l | None => 10 end
  | _, _ => False
  end.

(** The names that a tool gives to the validator, in the order of the
    calls. *)
Definition validated_names (t : ToolCall) : list string :=
  match t with
  | create_collection_tool i => [CreateCollectionInput.collection_name i]
  | create_collection_with_metadata_tool i =>
      [CreateCollectionWithMetadataInput.collection_name i]
  | list_collections_tool _ => []
  | get_collection_tool i => [GetCollectionInput.collection_name i]
  | rename_collection_tool i =>
      [RenameCollectionInput.collection_name i; RenameCollectionInput.new_name i]
  | delete_collection_tool i => [DeleteCollectionInput.collection_name i]
  | peek_collection_tool i => [PeekCollectionInput.collection_name i]
  end.

(** The two calls of a creation with the given metadata. *)
Definition create_with_metadata_calls (name : string) (metadata : dict)
           (ef : option EmbeddingFunction) : list Call :=
  [call_create_collection name metadata ef false; call_count].

(** The two calls of a creation with the default settings. *)
Definition create_calls (name : string) (settings : dict)
           (ef : option EmbeddingFunction) : list Call :=
  [ call_create_collection name (flatten_settings settings) ef false;
    call_count ].

(** The two calls of a peek collection that reaches its sampling. *)
Definition peek_calls (name : string) (limit : option Z) : list Call :=
  [ call_get_collection name ef_omitted;
    call_peek (match limit with Some l => l | None => 10 end) ].

(** ** The sample of peek collection *)

(** What the client may store under ["embeddings"] or ["distances"] for
    peek collection to succeed: [None], or something iterable whose
    items are serializable once converted. *)
Definition convertible (v : pyval) : bool :=
  match v with
  | PNone => true
  | _ =>
      match py_iter v with
      | Gives items => forallb (fun item => serializable (convert_item item)) items
      | _ => false
      end
  end.

(** An entry of the sample that peek collection can return, while the
    keys [pending] are still to be converted. *)
Definition peekable (pending : list string) (kv : string * pyval) : bool :=
  if existsb (String.eqb (fst kv)) pending then convertible (snd kv)
  else serializable (snd kv).

(** ** Further sample deployments *)

(** A deployment whose client cannot list its collections. *)
Definition unlisted_client : Client :=
  {| create_collection := fun _ _ _ _ => Gives docs;
     list_collections := Throws ValueError "Could not connect to tenant";
     get_collection := fun _ _ => Gives docs;
     delete_collection := fun _ => Gives tt |}.

Definition unlisted_env : Env :=
  {| validate_collection_name := fun _ => Gives tt;
     get_chroma_client := Gives unlisted_client;
     get_embedding_function := Gives None;
     get_collection_settings := Gives [("hnsw:space", PStr "cosine")] |}.
(** A client whose [modify] refuses a name that is taken and whose
    creation fails on the dimension of the embeddings. *)
Definition crowded : Collection :=
  {| coll_name := "docs";
     coll_id := "7f1d";
     coll_metadata := None;
     coll_count := Gives 0;
     coll_peek := fun _ => Throws OtherException "connection lost";
     coll_modify := fun name =>
       Throws ValueError ("Collection " ++ name ++ " already exists.") |}.

Definition crowded_client : Client :=
  {| create_collection := fun _ _ _ _ =>
       Throws InvalidDimensionException "Embedding dimension 3 does not match 4";
     list_collections := Gives ["docs"];
     get_collection := fun _ _ => Gives crowded;
     delete_collection := fun _ => Throws OtherException "connection lost" |}.

Definition crowded_env : Env :=
  {| validate_collection_name := fun _ => Gives tt;
     get_chroma_client := Gives crowded_client;
     get_embedding_function := Gives None;
     get_collection_settings := Gives [("hnsw:space", PStr "cosine")] |}.

(** A client that has lost its connection: every call fails. *)
Definition offline_client : Client :=
  {| create_collection := fun _ _ _ _ =>
       Throws OtherException "connection lost";
     list_collections := Throws OtherException "connection lost";
     get_collection := fun _ _ => Throws OtherException "connection lost";
     delete_collection := fun _ => Throws OtherException "connection lost" |}.

Definition offline_env : Env :=
  {| validate_collection_name := fun _ => Gives tt;
     get_chroma_client := Gives offline_client;
     get_embedding_function := Gives None;
     get_collection_settings := Gives [("hnsw:space", PStr "cosine")] |}.

(** A client without collections that accepts any name: lookups fail
    with the [ValueError] of the library, creations with the one for a
    malformed configuration. *)
Definition bare_client : Client :=
  {| create_collection := fun _ _ _ _ =>
       Throws ValueError "Expected metadata to be a non-empty dict";
     list_collections := Gives [];
     get_collection := fun name _ =>
       Throws ValueError ("Collection " ++ name ++ " does not exist.");
     delete_collection := fun name =>
       Throws ValueError ("Collection " ++ name ++ " does not exist.") |}.

Definition bare_env : Env :=
  {| validate_collection_name := fun _ => Gives tt;
     get_chroma_client := Gives bare_client;
     get_embedding_function := Gives None;
     get_collection_settings := Gives [("hnsw:space", PStr "cosine")] |}.

(** A client that creates what it is asked for: the new collection is
    empty and keeps the metadata it was created with. *)
Definition stored (name : string) (metadata : dict) : Collection :=
  {| coll_name := name;
     coll_id := "7f1d";
     coll_metadata := Some metadata;
     coll_count := Gives 0;
     coll_peek := fun _ => Gives None;
     coll_modify := fun _ => Gives tt |}.

Definition storing_client : Client :=
  {| create_collection := fun name metadata _ _ => Gives (stored name metadata);
     list_collections := Gives [];
     get_collection := fun name _ =>
       Throws ValueError ("Collection " ++ name ++ " does not exist.");
     delete_collection := fun name =>
       Throws ValueError ("Collection " ++ name ++ " does not exist.") |}.

Definition storing_env : Env :=
  {| validate_collection_name := fun _ => Gives tt;
     get_chroma_client := Gives storing_client;
     get_embedding_function := Gives None;
     get_collection_settings := Gives hnsw_defaults |}.

(** A collection without entries: [peek] has nothing to show. *)
Definition hollow : Collection :=
  {| coll_name := "docs";
     coll_id := "7f1d";
     coll_metadata := None;
     coll_count := Gives 0;
     coll_peek := fun _ => Gives None;
     coll_modify := fun _ => Gives tt |}.

Definition hollow_client : Client :=
  {| create_collection := fun _ _ _ _ => Gives hollow;
     list_collections := Gives ["docs"];
     get_collection := fun _ _ => Gives hollow;
     delete_collection := fun _ => Gives tt |}.

Definition hollow_env : Env :=
  {| validate_collection_name := fun _ => Gives tt;
     get_chroma_client := Gives hollow_client;
     get_embedding_function := Gives None;
     get_collection_settings := Gives [("hnsw:space", PStr "cosine")] |}.

(** The sample that [docs] gives to peek collection. *)
Definition docs_sample : dict :=
  [ ("ids", PList [PStr "a"]);
    ("embeddings", PList [PObj "ndarray" None (Some (PList [PInt 1]))]) ].

(** The text that peek collection returns for [docs]. *)
Definition docs_peek : string :=
  Eval vm_compute in
    returned_text
      (run (_peek_collection_impl (H:=validation_error_is_plain) docs_env
              (PeekCollectionInput.make "docs" None))).

(** A client behind a gateway that answers a creation with a protocol
    error of its own. *)
Definition quota_error : ErrorData := mkErrorData (-32000) "Quota exceeded".

Definition metered_client : Client :=
  {| create_collection := fun _ _ _ _ => Fails quota_error;
     list_collections := Gives ["docs"];
     get_collection := fun _ _ => Gives docs;
     delete_collection := fun _ => Gives tt |}.

Definition metered_env : Env :=
  {| validate_collection_name := fun _ => Gives tt;
     get_chroma_client := Gives metered_client;
     get_embedding_function := Gives None;
     get_collection_settings := Gives [("hnsw:space", PStr "cosine")] |}.

(** A collection whose metadata holds an object that [json] cannot
    serialize, and whose entries cannot be sampled. *)
Definition dated : Collection :=
  {| coll_name := "docs";
     coll_id := "7f1d";
     coll_metadata := Some [("created", PObj "datetime" None None)];
     coll_count := Gives 1;
     coll_peek := fun _ => Throws OtherException "connection lost";
     coll_modify := fun _ => Gives tt |}.

Definition dated_client : Client :=
  {| create_collection := fun _ _ _ _ => Gives dated;
     list_collections := Gives ["docs"];
     get_collection := fun _ _ => Gives dated;
     delete_collection := fun _ => Gives tt |}.

Definition dated_env : Env :=
  {| validate_collection_name := fun _ => Gives tt;
     get_chroma_client := Gives dated_client;
     get_embedding_function := Gives None;
     get_collection_settings := Gives [("hnsw:space", PStr "cosine")] |}.

(* ================================================================== *)
(** * Facts about strings and dictionaries *)
(* ================================================================== *)

Section StringFacts.

Lemma prefix_app (p s : string) : String.prefix p (p ++ s) = true.
Proof.
  induction p as [|c p IH]; simpl.
  - destruct s; reflexivity.
  - destruct (ascii_dec c c) as [_|n]; [exact IH | now elim n].
Qed.

Lemma drop_app (p s : string) : PyStr.drop (String.length p) (p ++ s) = s.
Proof. induction p as [|c p IH]; simpl; auto. Qed.

Lemma replace_back (k : string) :
  PyStr.has_char "_" k = false ->
  PyStr.replace "_" ":" (PyStr.replace ":" "_" k) = k.
Proof.
  induction k as [|c k IH]; simpl; intros Hk; [reflexivity|].
  apply orb_false_iff in Hk as [Hc Hk].
  rewrite (IH Hk). f_equal.
  destruct (Ascii.eqb c ":") eqn:E.
  - apply Ascii.eqb_eq in E. now subst c.
  - now rewrite Hc.
Qed.

Lemma append_nonempty (p s : string) : p <> "" -> p ++ s <> "".
Proof. destruct p; simpl; [congruence | discriminate]. Qed.

Lemma truthy_true (s : string) : s <> "" -> PyStr.truthy s = true.
Proof. destruct s; simpl; congruence. Qed.

End StringFacts.

Section DictFacts.

Lemma mem_keys (k : string) (d : dict) :
  PyDict.mem k d = false <-> ~ In k (PyDict.keys d).
Proof.
  induction d as [|[k' v] d IH]; simpl.
  - tauto.
  - rewrite orb_false_iff, IH, String.eqb_neq. tauto.
Qed.

Lemma set_fresh (d : dict) (k : string) (v : pyval) :
  PyDict.mem k d = false -> PyDict.set d k v = (d ++ [(k, v)])%list.
Proof.
  induction d as [|[k' v'] d IH]; simpl; intros Hm; [reflexivity|].
  apply orb_false_iff in Hm as [Hk Hd].
  now rewrite Hk, (IH Hd).
Qed.

Lemma keys_app (d1 d2 : dict) :
  PyDict.keys (d1 ++ d2)%list = (PyDict.keys d1 ++ PyDict.keys d2)%list.
Proof. apply map_app. Qed.

End DictFacts.

(* ================================================================== *)
(** * Flattening and reconstruction of the settings *)
(* ================================================================== *)

Section Settings.

Lemma flatten_key_inj (k1 k2 : string) :
  PyStr.has_char "_" k1 = false -> PyStr.has_char "_" k2 = false ->
  flatten_key k1 = flatten_key k2 -> k1 = k2.
Proof.
  unfold flatten_key. intros H1 H2 E.
  apply (f_equal (PyStr.drop (String.length "chroma:setting:"))) in E.
  rewrite !drop_app in E.
  rewrite <- (replace_back k1 H1), <- (replace_back k2 H2).
  now rewrite E.
Qed.

(** The dictionary comprehension adds the entries one after the other
    when no two keys collide. *)
Lemma map_keys_fresh (f : string -> string) (s acc : dict) :
  NoDup (PyDict.keys acc ++ map f (PyDict.keys s))%list ->
  fold_left (fun a kv => PyDict.set a (f (fst kv)) (snd kv)) s acc
  = (acc ++ map (fun kv => (f (fst kv), snd kv)) s)%list.
Proof.
  revert acc. induction s as [|[k v] s IH]; simpl; intros acc Hnd.
  - now rewrite app_nil_r.
  - rewrite set_fresh.
    + rewrite IH.
      * now rewrite <- app_assoc.
      * rewrite keys_app, <- app_assoc. exact Hnd.
    + apply mem_keys. intros Hin.
      apply NoDup_remove_2 in Hnd. apply Hnd.
      apply in_or_app. now left.
Qed.

Lemma flatten_settings_map (s : dict) :
  PyDict.wf s ->
  (forall k, In k (PyDict.keys s) -> PyStr.has_char "_" k = false) ->
  flatten_settings s = map (fun kv => (flatten_key (fst kv), snd kv)) s.
Proof.
  intros Hwf Hk. unfold flatten_settings, PyDict.map_keys.
  rewrite map_keys_fresh; [reflexivity|]. simpl.
  unfold PyDict.wf in Hwf.
  induction (PyDict.keys s) as [|k ks IH]; simpl; [constructor|].
  inversion Hwf as [|? ? Hnot Hnd]; subst.
  constructor.
  - intros Hin. apply in_map_iff in Hin as [k' [E Hin]].
    apply flatten_key_inj in E; [subst; contradiction| |];
      apply Hk; simpl; auto.
  - apply IH; [exact Hnd|]. intros k' Hin. apply Hk. now right.
Qed.

Lemma reconstruct_step_flat (r st : dict) (k : string) (v : pyval) :
  plain_key k ->
  reconstruct_step (r, st) (flatten_key k, v) = (r, PyDict.set st k v).
Proof.
  intros [Hne Hus]. unfold reconstruct_step, flatten_key, PyStr.startswith.
  rewrite prefix_app, drop_app, (replace_back k Hus).
  now rewrite (truthy_true k Hne).
Qed.

Lemma reconstruct_flat (s r st : dict) :
  NoDup (PyDict.keys st ++ PyDict.keys s)%list ->
  (forall k, In k (PyDict.keys s) -> plain_key k) ->
  fold_left reconstruct_step
    (map (fun kv => (flatten_key (fst kv), snd kv)) s) (r, st)
  = (r, (st ++ s)%list).
Proof.
  revert st.
  induction s as [|[k v] s IH]; cbn [fold_left map fst snd];
    intros st Hnd Hk.
  - now rewrite app_nil_r.
  - rewrite reconstruct_step_flat by (apply Hk; simpl; auto).
    rewrite set_fresh.
    + rewrite IH.
      * now rewrite <- app_assoc.
      * rewrite keys_app, <- app_assoc. exact Hnd.
      * intros k' Hin. apply Hk. now right.
    + apply mem_keys. intros Hin.
      apply NoDup_remove_2 in Hnd. apply Hnd.
      apply in_or_app. now left.
Qed.

Lemma reconstruct_nonempty (m : dict) :
  m <> [] ->
  _reconstruct_metadata (Some m)
  = (let '(reconstructed, settings) :=
       fold_left reconstruct_step m ([], []) in
     if PyDict.truthy settings
     then PyDict.set reconstructed "settings" (PDict settings)
     else reconstructed).
Proof. destruct m; [congruence | reflexivity]. Qed.

End Settings.

(** C9 (as amended): for every non-empty settings dictionary whose keys
    are non-empty and contain no underscore, reconstructing the metadata
    from the flattened form of the dictionary yields exactly the
    dictionary with the single key "settings" bound to the original
    settings. *)
Theorem reconstruct_flatten_roundtrip (s : dict) :
  s <> [] ->
  PyDict.wf s ->
  (forall k, In k (PyDict.keys s) -> plain_key k) ->
  _reconstruct_metadata (Some (flatten_settings s)) = [("settings", PDict s)].
Proof.
  intros Hne Hwf Hk.
  rewrite flatten_settings_map; [|exact Hwf|intros k Hin; apply (Hk k Hin)].
  rewrite reconstruct_nonempty by (destruct s; [congruence | discriminate]).
  pose proof (reconstruct_flat s [] [] Hwf Hk) as E.
  unfold dict in *. rewrite E.
  destruct s; [congruence | reflexivity].
Qed.

(* ================================================================== *)
(** * Serializable values *)
(* ================================================================== *)

Section Serializable.

Lemma encode_list (indent : option nat) (level : nat) (items : list pyval) :
  Json.encode indent level (PList items)
  = match encode_items indent level items with
    | inl t => inl t
    | inr parts => inr (Json.bracket indent level "[" "]" parts)
    end.
Proof. reflexivity. Qed.

Lemma encode_dict (indent : option nat) (level : nat) (entries : dict) :
  Json.encode indent level (PDict entries)
  = match encode_entries indent level entries with
    | inl t => inl t
    | inr parts => inr (Json.bracket indent level "{" "}" parts)
    end.
Proof. reflexivity. Qed.

(** The encoder accepts every serializable value. *)
Lemma encode_serializable (v : pyval) :
  serializable v = true ->
  forall indent level, exists s, Json.encode indent level v = inr s.
Proof.
  induction v as [| b | z | f | s | items IH | entries IH | t i l]
    using pyval_nested_ind; intros Hs indent level;
    try (eexists; reflexivity).
  - destruct b; eexists; reflexivity.
  - rewrite encode_list.
    assert (exists parts, encode_items indent level items = inr parts)
      as [parts ->].
    { simpl in Hs. induction IH as [|x l Hx _ IHl]; simpl.
      - eexists; reflexivity.
      - simpl in Hs. apply andb_true_iff in Hs as [Hx' Hl].
        destruct (Hx Hx' indent (S level)) as [s ->].
        destruct (IHl Hl) as [parts ->]. eexists; reflexivity. }
    eexists; reflexivity.
  - rewrite encode_dict.
    assert (exists parts, encode_entries indent level entries = inr parts)
      as [parts ->].
    { simpl in Hs. induction IH as [|[k x] l Hx _ IHl]; simpl.
      - eexists; reflexivity.
      - simpl in Hs, Hx. apply andb_true_iff in Hs as [Hx' Hl].
        destruct (Hx Hx' indent (S level)) as [s ->].
        destruct (IHl Hl) as [parts ->]. eexists; reflexivity. }
    eexists; reflexivity.
  - discriminate.
Qed.

Lemma dumps_serializable (indent : option nat) (v : pyval) :
  serializable v = true -> exists s, Json.dumps indent v = Gives s.
Proof.
  intros Hs. destruct (encode_serializable v Hs indent 0%nat) as [s E].
  exists s. unfold Json.dumps. now rewrite E.
Qed.

End Serializable.

(* ================================================================== *)
(** * Reading back what the encoder wrote *)
(* ================================================================== *)

(** ** Strings and numbers *)

Lemma str_app_assoc (a b c : string) : (a ++ b) ++ c = a ++ (b ++ c).
Proof. induction a as [|x a IH]; simpl; [reflexivity | now rewrite IH]. Qed.

Lemma string_body_escape_char (c : ascii) (r : string) :
  Json.string_body (Json.escape_char c ++ r)
  = match Json.string_body r with
    | Some (x, rest) => Some (String c x, rest)
    | None => None
    end.
Proof. destruct c as [[] [] [] [] [] [] [] []]; reflexivity. Qed.

Lemma string_body_escape (s rest : string) :
  Json.string_body (Json.escape s ++ String Json.dquote rest) = Some (s, rest).
Proof.
  induction s as [|c s IH]; [reflexivity|].
  cbn [Json.escape]. rewrite str_app_assoc, string_body_escape_char.
  now rewrite IH.
Qed.

Lemma ends_number_stops (rest : string) :
  ends_number rest = true -> stops_digits rest = true.
Proof.
  destruct rest as [|c r]; [reflexivity|]. cbn.
  intros E. repeat (apply andb_true_iff in E as [E _]). exact E.
Qed.

Lemma digits_stop (acc : Z) (len : nat) (rest : string) :
  stops_digits rest = true -> Json.digits acc len rest = (acc, len, rest).
Proof.
  destruct rest as [|c r]; [reflexivity|]. cbn [stops_digits Json.digits].
  intros E. apply negb_true_iff in E. now rewrite E.
Qed.

Lemma digits_uint (d : Decimal.uint) (acc : Z) (len : nat) (rest : string) :
  stops_digits rest = true ->
  Json.digits acc len (NilEmpty.string_of_uint d ++ rest)
  = (uint_value acc d, (len + Decimal.nb_digits d)%nat, rest).
Proof.
  intros Hr. revert acc len.
  induction d; intros acc len; cbn [NilEmpty.string_of_uint append uint_value Decimal.nb_digits];
    try (cbn [Json.digits]; change (Json.is_digit _) with true; cbv iota;
         rewrite IHd; f_equal; f_equal; try lia; 
         unfold Json.digit_val; simpl; f_equal; lia).
  rewrite digits_stop by assumption. f_equal. f_equal. lia.
Qed.

Lemma uint_value_pos (d : Decimal.uint) (acc : positive) :
  uint_value (Zpos acc) d = Zpos (Pos.of_uint_acc d acc).
Proof.
  revert acc. induction d; intros acc; cbn [uint_value Pos.of_uint_acc];
    try reflexivity;
    match goal with
    | |- uint_value ?z _ = _ =>
        match goal with
        | |- _ = Zpos (Pos.of_uint_acc _ ?p) =>
            replace z with (Zpos p) by lia
        end
    end; apply IHd.
Qed.

Lemma uint_value_of_uint (d : Decimal.uint) :
  uint_value 0 d = Z.of_N (Pos.of_uint d).
Proof.
  induction d; cbn [uint_value Pos.of_uint]; try reflexivity;
    try (change (10 * 0 + _) with (Zpos 1) || idtac);
    try exact IHd.
  all: match goal with
       | |- uint_value ?z _ = Z.of_N (N.pos (Pos.of_uint_acc _ ?p)) =>
           change z with (Zpos p); apply uint_value_pos
       end.
Qed.

Lemma to_uint_head (p : positive) :
  exists c r, NilEmpty.string_of_uint (Pos.to_uint p) = String c r /\
              Json.is_digit c = true /\ Ascii.eqb c "0" = false.
Proof.
  pose proof (DecimalPos.Unsigned.to_of (Pos.to_uint p)) as E.
  rewrite DecimalPos.Unsigned.of_to in E. cbn [N.to_uint] in E.
  pose proof (DecimalPos.Unsigned.to_uint_nonzero p) as Hz.
  destruct (Pos.to_uint p) as [|d|d|d|d|d|d|d|d|d|d] eqn:Hp;
    try (eexists; eexists; split; [reflexivity|split; reflexivity]).
  - now elim (DecimalPos.Unsigned.to_uint_nonnil p).
  - exfalso. rewrite DecimalFacts.unorm_D0 in E.
    unfold Decimal.unorm in E.
    pose proof (DecimalFacts.nb_digits_nzhead d) as Hn.
    destruct (Decimal.nzhead d) eqn:Hd; try discriminate E.
    + apply Hz. exact E.
    + inversion E; subst. cbn [Decimal.nb_digits] in Hn. lia.
Qed.

Lemma digit_is_no_sign (c : ascii) :
  Json.is_digit c = true ->
  Ascii.eqb c "-" = false /\ Ascii.eqb c "+" = false /\
  Ascii.eqb c Json.dquote = false /\ Ascii.eqb c "{" = false /\
  Ascii.eqb c "[" = false /\ Json.is_ws c = false /\
  Ascii.eqb c "]" = false /\ Ascii.eqb c "}" = false.
Proof.
  destruct c as [[] [] [] [] [] [] [] []]; try discriminate;
    intros _; repeat split; reflexivity.
Qed.

(** The decimal text of a natural number: it starts with a digit, it is
    read back as the number, and as [0] alone when it starts with [0]. *)
Lemma string_of_Z_nonneg (z : Z) :
  0 <= z ->
  exists c r,
    Json.string_of_Z z = String c r /\ Json.is_digit c = true /\
    (Ascii.eqb c "0" = true -> z = 0 /\ r = EmptyString) /\
    forall rest, stops_digits rest = true ->
      exists len, len <> O /\
        Json.digits 0 0 (Json.string_of_Z z ++ rest) = (z, len, rest).
Proof.
  intros Hz. destruct z as [|p|p]; [| |lia].
  - exists "0"%char, EmptyString.
    split; [reflexivity|]. split; [reflexivity|]. split; [auto|].
    intros rest Hr. exists 1%nat. split; [discriminate|].
    cbn. now rewrite digits_stop.
  - destruct (to_uint_head p) as [c [r [E [Hd H0]]]].
    assert (Es : Json.string_of_Z (Zpos p)
                 = NilEmpty.string_of_uint (Pos.to_uint p)).
    { unfold Json.string_of_Z. cbn [Z.to_int NilZero.string_of_int].
      unfold NilZero.string_of_uint.
      destruct (Pos.to_uint p) eqn:Hp; try reflexivity.
      now elim (DecimalPos.Unsigned.to_uint_nonnil p). }
    exists c, r. rewrite Es.
    split; [exact E|]. split; [exact Hd|]. split; [intros E0; congruence|].
    intros rest Hr. rewrite (digits_uint _ 0 0%nat rest Hr).
      rewrite uint_value_of_uint, DecimalPos.Unsigned.of_to.
    exists (Decimal.nb_digits (Pos.to_uint p)). split; [|reflexivity].
    destruct (Pos.to_uint p); try discriminate E; cbn; discriminate.
Qed.

Lemma string_of_Z_neg (p : positive) :
  Json.string_of_Z (Zneg p) = String "-" (Json.string_of_Z (Zpos p)).
Proof.
  unfold Json.string_of_Z. cbn [Z.to_int NilZero.string_of_int]. reflexivity.
Qed.

Lemma int_part_nonneg (z : Z) (rest : string) :
  0 <= z -> stops_digits rest = true ->
  Json.int_part (Json.string_of_Z z ++ rest) = Some (z, rest).
Proof.
  intros Hz Hr.
  destruct (string_of_Z_nonneg z Hz) as [c [r [E [Hd [H0 Hdig]]]]].
  destruct (Hdig rest Hr) as [len [_ Hl]].
  rewrite E in *. cbn [append Json.int_part].
  destruct (Ascii.eqb c "0") eqn:E0.
  - destruct (H0 eq_refl) as [-> ->]. reflexivity.
  - rewrite Hd. cbn [append] in Hl. now rewrite Hl.
Qed.

Lemma frac_part_end (i : Z) (rest : string) :
  ends_number rest = true -> Json.frac_part i rest = (i, O, rest).
Proof.
  destruct rest as [|c r]; [reflexivity|]. cbn [ends_number]. intros E.
  unfold Json.frac_part, Json.eat.
  apply andb_true_iff in E as [E _]. apply andb_true_iff in E as [E _].
  apply andb_true_iff in E as [_ E]. apply negb_true_iff in E. now rewrite E.
Qed.

Lemma exp_part_end (rest : string) :
  ends_number rest = true -> Json.exp_part rest = None.
Proof.
  destruct rest as [|c r]; [reflexivity|]. cbn [ends_number]. intros E.
  unfold Json.exp_part.
  apply andb_true_iff in E as [E E3]. apply andb_true_iff in E as [E E2].
  apply negb_true_iff in E2, E3. now rewrite E2, E3.
Qed.

(** Reading the decimal text of an integer, with its sign. *)
Lemma signed_int_part (z : Z) (rest : string) :
  stops_digits rest = true ->
  exists negative s1,
    (match Json.eat "-" (Json.string_of_Z z ++ rest) with
     | Some s' => (true, s')
     | None => (false, Json.string_of_Z z ++ rest)
     end) = (negative, s1) /\
    Json.int_part s1 = Some (Z.abs z, rest) /\
    (if negative then - Z.abs z else Z.abs z) = z.
Proof.
  intros Hr. destruct z as [|p|p].
  - exists false, ("0" ++ rest). repeat split.
  - destruct (string_of_Z_nonneg (Zpos p) ltac:(lia)) as [c [r [E [Hd _]]]].
    exists false, (Json.string_of_Z (Zpos p) ++ rest). split; [|split].
    + rewrite E. cbn [append Json.eat].
      destruct (digit_is_no_sign c Hd) as [-> _]. reflexivity.
    + now apply int_part_nonneg.
    + reflexivity.
  - exists true, (Json.string_of_Z (Zpos p) ++ rest). split; [|split].
    + rewrite string_of_Z_neg. reflexivity.
    + now apply (int_part_nonneg (Zpos p)).
    + reflexivity.
Qed.

Lemma number_int (z : Z) (rest : string) :
  ends_number rest = true ->
  Json.number (Json.string_of_Z z ++ rest) = Some (PInt z, rest).
Proof.
  intros Hr. unfold Json.number.
  destruct (signed_int_part z rest (ends_number_stops rest Hr))
    as [negative [s1 [-> [-> Hz]]]].
  rewrite frac_part_end, exp_part_end by assumption.
  cbn [Nat.eqb]. now rewrite Hz.
Qed.

Lemma exp_part_int (e : Z) (rest : string) :
  stops_digits rest = true ->
  Json.exp_part (String "e" (Json.string_of_Z e ++ rest)) = Some (e, rest).
Proof.
  intros Hr. cbn [Json.exp_part]. change (Ascii.eqb "e" "e") with true.
  cbn [orb].
  destruct e as [|p|p].
  - cbn. rewrite digits_stop by assumption. reflexivity.
  - destruct (string_of_Z_nonneg (Zpos p) ltac:(lia)) as [c [r [E [Hd [_ Hdig]]]]].
    destruct (Hdig rest Hr) as [len [Hlen Hl]].
    rewrite E in *. cbn [append Json.eat].
    destruct (digit_is_no_sign c Hd) as [-> [-> _]].
    cbn [append] in Hl. rewrite Hl.
    destruct len; [congruence|reflexivity].
  - rewrite string_of_Z_neg. cbn [append Json.eat].
    change (Ascii.eqb "-" "-") with true. cbv iota.
    destruct (string_of_Z_nonneg (Zpos p) ltac:(lia)) as [c [r [E [Hd [_ Hdig]]]]].
    destruct (Hdig rest Hr) as [len [Hlen Hl]].
    rewrite Hl. destruct len; [congruence|reflexivity].
Qed.

Lemma number_float (m e : Z) (rest : string) :
  stops_digits rest = true ->
  Json.number (Json.string_of_Z m ++ "e" ++ Json.string_of_Z e ++ rest)
  = Some (PFloat (FDec m e), rest).
Proof.
  intros Hr. unfold Json.number.
  destruct (signed_int_part m ("e" ++ Json.string_of_Z e ++ rest) eq_refl)
    as [negative [s1 [-> [-> Hz]]]].
  cbn [append]. unfold Json.frac_part. cbn [Json.eat].
  change (Ascii.eqb "e" ".") with false. cbv iota.
  rewrite exp_part_int by assumption.
  rewrite Hz. cbn [Z.of_nat]. now rewrite Z.sub_0_r.
Qed.

(** ** Shapes of the encoded text *)

Lemma ends_value_number (rest : string) :
  ends_value rest = true -> ends_number rest = true.
Proof.
  destruct rest as [|c r]; [reflexivity|]. cbn [ends_value ends_number].
  destruct c as [[] [] [] [] [] [] [] []]; try discriminate; reflexivity.
Qed.

Lemma blank_nil : blank "".
Proof. intros r. reflexivity. Qed.

Lemma blank_app (a b : string) : blank a -> blank b -> blank (a ++ b).
Proof. intros Ha Hb r. now rewrite str_app_assoc, Ha, Hb. Qed.

Lemma blank_space : blank " ".
Proof. intros r. reflexivity. Qed.

Lemma blank_newline : blank Json.newline.
Proof. intros r. reflexivity. Qed.

Lemma blank_spaces (n : nat) : blank (Json.spaces n).
Proof. induction n as [|n IH]; intros r; [reflexivity | exact (IH r)]. Qed.

Lemma skip_ws_start (s r : string) :
  value_start s = true -> Json.skip_ws (s ++ r) = s ++ r.
Proof.
  destruct s as [|c s]; [discriminate|]. cbn [value_start append Json.skip_ws].
  intros E. apply andb_true_iff in E as [E _]. apply andb_true_iff in E as [E _].
  apply negb_true_iff in E. now rewrite E.
Qed.

Lemma eat_start (s r : string) :
  value_start s = true ->
  Json.eat "]" (s ++ r) = None /\ Json.eat "}" (s ++ r) = None.
Proof.
  destruct s as [|c s]; [discriminate|]. cbn [value_start append Json.eat].
  intros E. apply andb_true_iff in E as [E E2]. apply andb_true_iff in E as [_ E1].
  apply negb_true_iff in E1, E2. now rewrite E1, E2.
Qed.

Lemma str_length_app (a b : string) :
  String.length (a ++ b) = (String.length a + String.length b)%nat.
Proof. induction a; simpl; auto. Qed.

Lemma length_join_part (sep p : string) (parts : list string) :
  In p parts -> (String.length p <= String.length (Json.join sep parts))%nat.
Proof.
  induction parts as [|q [|q' ps] IH]; [intros [] | |].
  - intros [<-|[]]. simpl. lia.
  - intros Hin. change (Json.join sep (q :: q' :: ps))
      with (q ++ sep ++ Json.join sep (q' :: ps)).
    rewrite !str_length_app. destruct Hin as [<-|Hin]; [lia|].
    specialize (IH Hin). lia.
Qed.

Lemma length_join_count (sep : string) (parts : list string) :
  (forall p, In p parts -> p <> "") ->
  (length parts <= String.length (Json.join sep parts))%nat.
Proof.
  induction parts as [|q [|q' ps] IH]; intros Hne; [simpl; lia | |].
  - assert (q <> "") by (apply Hne; now left).
    destruct q; [congruence | simpl; lia].
  - change (Json.join sep (q :: q' :: ps))
      with (q ++ sep ++ Json.join sep (q' :: ps)).
    rewrite !str_length_app.
    assert (q <> "") by (apply Hne; now left).
    assert (String.length q <> 0)%nat by (destruct q; [congruence|discriminate]).
    assert (IH' : (length (q' :: ps)
                   <= String.length (Json.join sep (q' :: ps)))%nat).
    { apply IH. intros p Hp. apply Hne. now right. }
    cbn [length] in *. lia.
Qed.

(** An opening bracket followed by at least one part is the opening, a
    blank, the parts separated by a comma and a blank, a blank and the
    closing; and the text after each part ends a value. *)
Lemma bracket_shape (indent : option nat) (level : nat)
      (opening closing : string) (p : string) (parts : list string) :
  exists pre sepws post,
    blank pre /\ blank sepws /\ blank post /\
    (forall r, ends_value (("," ++ sepws) ++ r) = true) /\
    (forall c r, ends_value (String c r) = true ->
                 ends_value (post ++ String c r) = true) /\
    Json.bracket indent level opening closing (p :: parts)
    = opening ++ pre ++ Json.join ("," ++ sepws) (p :: parts) ++ post ++ closing.
Proof.
  destruct indent as [n|].
  - exists (Json.newline ++ Json.spaces (n * S level)),
           (Json.newline ++ Json.spaces (n * S level)),
           (Json.newline ++ Json.spaces (n * level)).
    split; [apply blank_app; [apply blank_newline | apply blank_spaces]|].
    split; [apply blank_app; [apply blank_newline | apply blank_spaces]|].
    split; [apply blank_app; [apply blank_newline | apply blank_spaces]|].
    split; [reflexivity|]. split; [reflexivity|].
    unfold Json.bracket. now rewrite !str_app_assoc.
  - exists "", " ", "".
    split; [apply blank_nil|]. split; [apply blank_space|].
    split; [apply blank_nil|].
    split; [reflexivity|]. split; [intros c r E; exact E|].
    reflexivity.
Qed.

(** ** The loops over the parts of a bracket *)

Lemma join_tail (sep closing_text p : string) (ps : list string) :
  Json.join sep (p :: ps) ++ closing_text
  = p ++ parts_tail sep closing_text ps.
Proof.
  revert p. induction ps as [|q ps IH]; intros p; [reflexivity|].
  change (Json.join sep (p :: q :: ps)) with (p ++ sep ++ Json.join sep (q :: ps)).
  rewrite !str_app_assoc, IH. reflexivity.
Qed.

Lemma ends_value_tail (sepws closing_text : string) (ps : list string) :
  ends_value closing_text = true ->
  ends_value (parts_tail ("," ++ sepws) closing_text ps) = true.
Proof. destruct ps; [auto | reflexivity]. Qed.

Lemma elements_tail pv (sepws closing_text rest : string)
      (parts : list string) (vals : list pyval) :
  blank sepws ->
  Json.skip_ws closing_text = String "]" rest ->
  ends_value closing_text = true ->
  Forall2 (reads pv) parts vals ->
  forall fuel acc,
    (length parts < fuel)%nat ->
    Json.elements pv fuel acc (parts_tail ("," ++ sepws) closing_text parts)
    = Some (PList (List.rev acc ++ vals), rest).
Proof.
  intros Hsep Hclose Hend Hreads.
  induction Hreads as [|p val ps vals [Hstart Hp] _ IH]; intros fuel acc Hfuel.
  - destruct fuel as [|fuel]; [lia|]. cbn [parts_tail Json.elements].
    rewrite Hclose. cbn [Json.eat]. change (Ascii.eqb "]" "]") with true.
    cbv iota. now rewrite app_nil_r.
  - destruct fuel as [|fuel]; [cbn in Hfuel; lia|].
    cbn [parts_tail Json.elements].
    change (("," ++ sepws) ++ p ++ parts_tail ("," ++ sepws) closing_text ps)
      with (String "," (sepws ++ p ++ parts_tail ("," ++ sepws) closing_text ps)).
    cbn [Json.skip_ws Json.eat]. change (Json.is_ws ",") with false. cbv iota.
    cbn [Json.eat]. change (Ascii.eqb "," "]") with false.
    change (Ascii.eqb "," ",") with true. cbv iota.
    rewrite Hsep, skip_ws_start by assumption.
    rewrite Hp by (now apply ends_value_tail).
    rewrite IH by (cbn in Hfuel; lia).
    cbn [List.rev]. now rewrite <- app_assoc.
Qed.

Lemma member_reads pv (part : string) (kv : string * pyval) (r : string) :
  reads_member pv part kv -> ends_value r = true ->
  Json.member pv (part ++ r) = Some (fst kv, snd kv, r).
Proof.
  intros [text [-> [Hstart Hv]]] Hr. unfold Json.member, Json.quote.
  cbn [append Json.eat]. rewrite Ascii.eqb_refl.
  rewrite !str_app_assoc. cbn [append].
  rewrite string_body_escape.
  cbn [Json.skip_ws Json.eat]. change (Json.is_ws ":") with false. cbv iota.
  cbn [Json.eat]. change (Ascii.eqb ":" ":") with true. cbv iota.
  cbn [Json.skip_ws]. change (Json.is_ws " ") with true. cbv iota.
  rewrite skip_ws_start by assumption.
  now rewrite Hv.
Qed.

Lemma member_start (part : string) pv kv :
  reads_member pv part kv -> value_start part = true.
Proof. intros [text [-> _]]. reflexivity. Qed.

Lemma members_tail pv (sepws closing_text rest : string)
      (parts : list string) (vals : list (string * pyval)) :
  blank sepws ->
  Json.skip_ws closing_text = String "}" rest ->
  ends_value closing_text = true ->
  Forall2 (reads_member pv) parts vals ->
  forall fuel acc,
    (length parts < fuel)%nat ->
    Json.members pv fuel acc (parts_tail ("," ++ sepws) closing_text parts)
    = Some (PDict (Json.dict_of_pairs (List.rev acc ++ vals)), rest).
Proof.
  intros Hsep Hclose Hend Hreads.
  induction Hreads as [|p [k val] ps vals Hp _ IH]; intros fuel acc Hfuel.
  - destruct fuel as [|fuel]; [lia|]. cbn [parts_tail Json.members].
    rewrite Hclose. cbn [Json.eat]. change (Ascii.eqb "}" "}") with true.
    cbv iota. now rewrite app_nil_r.
  - destruct fuel as [|fuel]; [cbn in Hfuel; lia|].
    cbn [parts_tail Json.members].
    change (("," ++ sepws) ++ p ++ parts_tail ("," ++ sepws) closing_text ps)
      with (String "," (sepws ++ p ++ parts_tail ("," ++ sepws) closing_text ps)).
    cbn [Json.skip_ws Json.eat]. change (Json.is_ws ",") with false. cbv iota.
    cbn [Json.eat]. change (Ascii.eqb "," "}") with false.
    change (Ascii.eqb "," ",") with true. cbv iota.
    rewrite Hsep, skip_ws_start by (eapply member_start; eassumption).
    rewrite (member_reads pv p (k, val)) by (auto using ends_value_tail).
    cbn [fst snd].
    rewrite IH by (cbn in Hfuel; lia).
    cbn [List.rev]. now rewrite <- app_assoc.
Qed.

(** ** Every encoding is decoded *)

Lemma value_literal (fuel : nat) (c : ascii) (r : string) :
  Ascii.eqb c Json.dquote = false -> Ascii.eqb c "{" = false ->
  Ascii.eqb c "[" = false ->
  Json.value (S fuel) (String c r) = Json.literal (String c r).
Proof. intros H1 H2 H3. cbn [Json.value Json.eat]. now rewrite H1, H2, H3. Qed.

Lemma string_of_Z_head (z : Z) :
  exists c r, Json.string_of_Z z = String c r /\
              (Json.is_digit c = true \/ c = "-"%char).
Proof.
  destruct z as [|p|p].
  - exists "0"%char, EmptyString. split; [reflexivity | now left].
  - destruct (string_of_Z_nonneg (Zpos p) ltac:(lia)) as [c [r [E [Hd _]]]].
    exists c, r. split; [exact E | now left].
  - rewrite string_of_Z_neg. eexists; eexists. split; [reflexivity | now right].
Qed.

Lemma number_head_starts (c : ascii) :
  Json.is_digit c = true \/ c = "-"%char ->
  Ascii.eqb c Json.dquote = false /\ Ascii.eqb c "{" = false /\
  Ascii.eqb c "[" = false /\
  (forall r, value_start (String c r) = true).
Proof.
  intros [Hd | ->].
  - destruct (digit_is_no_sign c Hd) as [_ [_ [H1 [H2 [H3 [H4 [H5 H6]]]]]]].
    repeat split; try assumption. intros r. cbn [value_start].
    now rewrite H4, H5, H6.
  - repeat split.
Qed.

Lemma decodes_int (z : Z) : decodes (PInt z).
Proof.
  intros indent level enc E. inversion E; subst enc; clear E.
  destruct (string_of_Z_head z) as [c [r [Ez Hc]]].
  destruct (number_head_starts c Hc) as [H1 [H2 [H3 Hs]]].
  split; [rewrite Ez; apply Hs|].
  intros rest fuel Hr Hf.
  destruct fuel as [|fuel]; [rewrite Ez in Hf; cbn in Hf; lia|].
  pose proof (number_int z rest (ends_value_number rest Hr)) as Hn.
  rewrite Ez in *. cbn [append] in *.
  rewrite value_literal by assumption.
  unfold Json.literal. now rewrite Hn.
Qed.

Lemma ends_value_stops (rest : string) :
  ends_value rest = true -> stops_digits rest = true.
Proof.
  intros E. apply ends_number_stops. now apply ends_value_number.
Qed.

Lemma decodes_float (f : pyfloat) : decodes (PFloat f).
Proof.
  intros indent level enc E. inversion E; subst enc; clear E.
  destruct f as [| [|] | m e]; cbn [Json.string_of_float].
  - split; [reflexivity|]. intros rest [|fuel] Hr Hf; [cbn in Hf; lia|].
    reflexivity.
  - split; [reflexivity|]. intros rest [|fuel] Hr Hf; [cbn in Hf; lia|].
    reflexivity.
  - split; [reflexivity|]. intros rest [|fuel] Hr Hf; [cbn in Hf; lia|].
    reflexivity.
  - destruct (string_of_Z_head m) as [c [r [Ez Hc]]].
    destruct (number_head_starts c Hc) as [H1 [H2 [H3 Hs]]].
    split; [rewrite Ez; apply Hs|].
    intros rest fuel Hr Hf.
    destruct fuel as [|fuel]; [rewrite Ez in Hf; cbn in Hf; lia|].
    pose proof (number_float m e rest (ends_value_stops rest Hr)) as Hn.
    rewrite !str_app_assoc.
    rewrite Ez in *. cbn [append] in *.
    rewrite value_literal by assumption.
    unfold Json.literal. now rewrite Hn.
Qed.

Lemma decodes_str (s : string) : decodes (PStr s).
Proof.
  intros indent level enc E. inversion E; subst enc; clear E.
  split; [reflexivity|]. intros rest [|fuel] Hr Hf; [cbn in Hf; lia|].
  unfold Json.quote. cbn [append Json.value Json.eat].
  rewrite Ascii.eqb_refl. rewrite str_app_assoc. cbn [append].
  now rewrite string_body_escape.
Qed.

Lemma encode_items_parts (indent : option nat) (level : nat)
      (items : list pyval) (parts : list string) :
  encode_items indent level items = inr parts ->
  Forall2 (fun x p => Json.encode indent (S level) x = inr p) items parts.
Proof.
  revert parts. induction items as [|x items IH]; intros parts E.
  - inversion E. constructor.
  - cbn [encode_items] in E.
    destruct (Json.encode indent (S level) x) as [t|s] eqn:Ex; [discriminate|].
    fold (encode_items indent level items) in E.
    destruct (encode_items indent level items) as [t|ss]; [discriminate|].
    inversion E; subst. constructor; [exact Ex | now apply IH].
Qed.

Lemma encode_entries_parts (indent : option nat) (level : nat)
      (entries : dict) (parts : list string) :
  encode_entries indent level entries = inr parts ->
  Forall2 (fun kv p =>
             exists s, Json.encode indent (S level) (snd kv) = inr s /\
                       p = Json.quote (fst kv) ++ ": " ++ s)
          entries parts.
Proof.
  revert parts. induction entries as [|[k x] entries IH]; intros parts E.
  - inversion E. constructor.
  - cbn [encode_entries] in E.
    destruct (Json.encode indent (S level) x) as [t|s] eqn:Ex; [discriminate|].
    fold (encode_entries indent level entries) in E.
    destruct (encode_entries indent level entries) as [t|ss]; [discriminate|].
    inversion E; subst. constructor; [|now apply IH].
    exists s. split; [exact Ex | reflexivity].
Qed.

Lemma value_start_nonempty (s : string) : value_start s = true -> s <> "".
Proof. destruct s; [discriminate | discriminate]. Qed.

(** The parts of a bracket are read by the decoder at the level below. *)
Lemma parts_read (indent : option nat) (level fuel : nat)
      (items : list pyval) (parts : list string) :
  Forall decodes items ->
  Forall2 (fun x p => Json.encode indent (S level) x = inr p) items parts ->
  (forall p, In p parts -> (String.length p <= fuel)%nat) ->
  Forall2 (reads (Json.value fuel)) parts (map normalize items) /\
  (forall p, In p parts -> p <> "").
Proof.
  intros Hdec Henc. revert Hdec.
  induction Henc as [|x p items parts Ex _ IH]; intros Hdec Hlen.
  - split; [constructor | intros p []].
  - inversion Hdec as [|? ? Hx Hitems]; subst.
    destruct (Hx indent (S level) p Ex) as [Hstart Hread].
    destruct (IH Hitems) as [IH1 IH2].
    { intros q Hq. apply Hlen. now right. }
    split.
    + cbn [map]. constructor; [|exact IH1].
      split; [exact Hstart|]. intros r Hr. apply Hread; [exact Hr|].
      apply Hlen. now left.
    + intros q [<-|Hq]; [now apply value_start_nonempty | now apply IH2].
Qed.

Lemma decodes_list (items : list pyval) :
  Forall decodes items -> decodes (PList items).
Proof.
  intros Hitems indent level enc E. rewrite encode_list in E.
  destruct (encode_items indent level items) as [t|parts] eqn:Ep;
    [discriminate|].
  inversion E; subst enc; clear E.
  apply encode_items_parts in Ep.
  destruct Ep as [|x p items parts Ex Ep].
  - split; [reflexivity|]. intros rest [|fuel] Hr Hf; [cbn in Hf; lia|].
    reflexivity.
  - destruct (bracket_shape indent level "[" "]" p parts)
      as [pre [sepws [post [Hpre [Hsep [Hpost [Hcomma [Hpostend ->]]]]]]]].
    split; [reflexivity|]. intros rest fuel Hr Hf.
    destruct fuel as [|fuel]; [cbn in Hf; lia|].
    set (sep := "," ++ sepws) in *.
    cbn [append String.length] in Hf. rewrite !str_length_app in Hf.
    cbn [String.length] in Hf.
    destruct (parts_read indent level fuel (x :: items) (p :: parts) Hitems
                (Forall2_cons _ _ Ex Ep)) as [Hreads Hne].
    { intros q Hq. pose proof (length_join_part sep q (p :: parts) Hq). lia. }
    pose proof (length_join_count sep (p :: parts) Hne) as Hcount.
    cbn [map] in Hreads.
    inversion Hreads as [|? ? ? ? [Hstart Hp] Hrest]; subst.
    assert (Hclose : Json.skip_ws ((post ++ "]") ++ rest) = String "]" rest).
    { rewrite str_app_assoc, Hpost. reflexivity. }
    assert (Hend : ends_value ((post ++ "]") ++ rest) = true).
    { rewrite str_app_assoc. apply Hpostend. reflexivity. }
    cbn [append Json.value Json.eat].
    change (Ascii.eqb "[" Json.dquote) with false.
    change (Ascii.eqb "[" "{") with false.
    change (Ascii.eqb "[" "[") with true. cbv iota.
    rewrite !str_app_assoc.
    rewrite <- (str_app_assoc post "]" rest).
    rewrite join_tail. fold sep.
    rewrite Hpre, skip_ws_start by assumption.
    destruct (eat_start p (parts_tail sep ((post ++ "]") ++ rest) parts) Hstart)
      as [-> _].
    rewrite Hp by (now apply ends_value_tail).
    rewrite (elements_tail (Json.value fuel) sepws ((post ++ "]") ++ rest) rest
               parts (map normalize items) Hsep Hclose Hend Hrest)
      by (cbn [length] in Hcount; lia).
    reflexivity.
Qed.

Lemma members_read (indent : option nat) (level fuel : nat)
      (entries : dict) (parts : list string) :
  Forall (fun kv => decodes (snd kv)) entries ->
  Forall2 (fun kv p =>
             exists s, Json.encode indent (S level) (snd kv) = inr s /\
                       p = Json.quote (fst kv) ++ ": " ++ s)
          entries parts ->
  (forall p, In p parts -> (String.length p <= fuel)%nat) ->
  Forall2 (reads_member (Json.value fuel)) parts
          (map (fun kv => (fst kv, normalize (snd kv))) entries) /\
  (forall p, In p parts -> p <> "").
Proof.
  intros Hdec Henc. revert Hdec.
  induction Henc as [|[k x] p entries parts [s [Ex ->]] _ IH];
    intros Hdec Hlen.
  - split; [constructor | intros p []].
  - inversion Hdec as [|? ? Hx Hentries]; subst. cbn [fst snd] in *.
    destruct (Hx indent (S level) s Ex) as [Hstart Hread].
    destruct (IH Hentries) as [IH1 IH2].
    { intros q Hq. apply Hlen. now right. }
    split.
    + cbn [map fst snd]. constructor; [|exact IH1].
      exists s. split; [reflexivity|]. cbn [snd].
      split; [exact Hstart|]. intros r Hr. apply Hread; [exact Hr|].
      specialize (Hlen _ (or_introl eq_refl)).
      rewrite !str_length_app in Hlen. lia.
    + intros q [<-|Hq]; [discriminate | now apply IH2].
Qed.

Lemma decodes_dict (entries : dict) :
  Forall (fun kv => decodes (snd kv)) entries -> decodes (PDict entries).
Proof.
  intros Hentries indent level enc E. rewrite encode_dict in E.
  destruct (encode_entries indent level entries) as [t|parts] eqn:Ep;
    [discriminate|].
  inversion E; subst enc; clear E.
  apply encode_entries_parts in Ep.
  destruct Ep as [|kv p entries parts Ex Ep].
  - split; [reflexivity|]. intros rest [|fuel] Hr Hf; [cbn in Hf; lia|].
    reflexivity.
  - destruct (bracket_shape indent level "{" "}" p parts)
      as [pre [sepws [post [Hpre [Hsep [Hpost [Hcomma [Hpostend ->]]]]]]]].
    split; [reflexivity|]. intros rest fuel Hr Hf.
    destruct fuel as [|fuel]; [cbn in Hf; lia|].
    set (sep := "," ++ sepws) in *.
    cbn [append String.length] in Hf. rewrite !str_length_app in Hf.
    cbn [String.length] in Hf.
    destruct (members_read indent level fuel (kv :: entries) (p :: parts)
                Hentries (Forall2_cons _ _ Ex Ep)) as [Hreads Hne].
    { intros q Hq. pose proof (length_join_part sep q (p :: parts) Hq). lia. }
    pose proof (length_join_count sep (p :: parts) Hne) as Hcount.
    cbn [map] in Hreads.
    inversion Hreads as [|? ? ? ? Hp Hrest]; subst.
    assert (Hclose : Json.skip_ws ((post ++ "}") ++ rest) = String "}" rest).
    { rewrite str_app_assoc, Hpost. reflexivity. }
    assert (Hend : ends_value ((post ++ "}") ++ rest) = true).
    { rewrite str_app_assoc. apply Hpostend. reflexivity. }
    cbn [append Json.value Json.eat].
    change (Ascii.eqb "{" Json.dquote) with false.
    change (Ascii.eqb "{" "{") with true. cbv iota.
    rewrite !str_app_assoc.
    rewrite <- (str_app_assoc post "}" rest).
    rewrite join_tail. fold sep.
    rewrite Hpre, skip_ws_start by (eapply member_start; eassumption).
    destruct (eat_start p (parts_tail sep ((post ++ "}") ++ rest) parts)
                (member_start _ _ _ Hp)) as [_ ->].
    rewrite (member_reads _ _ _ _ Hp) by (now apply ends_value_tail).
    cbn [fst snd].
    rewrite (members_tail (Json.value fuel) sepws ((post ++ "}") ++ rest) rest
               parts _ Hsep Hclose Hend Hrest)
      by (cbn [length] in Hcount; lia).
    reflexivity.
Qed.

Lemma encode_decodes (v : pyval) : decodes v.
Proof.
  induction v as [| b | z | f | s | items IH | entries IH | t i l]
    using pyval_nested_ind.
  - intros indent level enc E. inversion E; subst enc.
    split; [reflexivity|]. intros rest [|fuel] Hr Hf; [cbn in Hf; lia|].
    reflexivity.
  - intros indent level enc E.
    destruct b; inversion E; subst enc;
      (split; [reflexivity|]; intros rest [|fuel] Hr Hf; [cbn in Hf; lia|];
       reflexivity).
  - apply decodes_int.
  - apply decodes_float.
  - apply decodes_str.
  - now apply decodes_list.
  - now apply decodes_dict.
  - intros indent level enc E. discriminate E.
Qed.

(** Whatever [json.dumps] produces, [json.loads] reads back. *)
Theorem loads_dumps (indent : option nat) (v : pyval) (s : string) :
  Json.dumps indent v = Gives s -> Json.decode s = Some (normalize v).
Proof.
  unfold Json.dumps. destruct (Json.encode indent 0 v) as [t|enc] eqn:E;
    [discriminate|].
  intros Es; inversion Es; subst s; clear Es.
  destruct (encode_decodes v indent 0%nat enc E) as [Hstart Hread].
  assert (Eapp : enc ++ "" = enc).
  { clear. induction enc as [|c enc IH]; simpl; [reflexivity | now rewrite IH]. }
  pose proof (Hread "" (S (String.length enc)) eq_refl (Nat.le_succ_diag_r _))
    as Hv.
  pose proof (skip_ws_start enc "" Hstart) as Hs.
  rewrite Eapp in Hv, Hs. unfold Json.decode. now rewrite Hs, Hv.
Qed.

(* ================================================================== *)
(** * Running the tools *)
(* ================================================================== *)

(** Unfolds the combinators of [Exec] in the goal; in a statement about
    the reference runtime, its three functions are named. *)
Ltac exec_unfold :=
  unfold run, try_except, bind, ask, call, ret, mcp_error, raise, answer;
  try change (@json_dumps reference_runtime) with Json.dumps;
  try change (@json_loads reference_runtime) with Json.loads;
  try change (@str_lower reference_runtime) with PyStr.lower.

(** Case analysis on the next call of a tool whose combinators are
    unfolded; the branches that raise end in a handler. *)
Ltac next_answer :=
  match goal with
  | |- context [match ?r with
                | Gives _ => _
                | Throws _ _ => _
                | Fails _ => _
                end] =>
      let R := fresh "R" in destruct r eqn:R; cbv beta iota zeta
  end.

Ltac handler_raises :=
  repeat match goal with
         | |- context [if ?b then _ else _] => destruct b
         end;
  intros; discriminate.

(* ================================================================== *)
(** * Listing collections *)
(* ================================================================== *)

Section Pages.

Lemma py_slice_page {A : Type} (xs : list A) (offset limit : option Z) :
  (forall o, offset = Some o -> 0 <= o) ->
  (forall l, limit = Some l -> 0 <= l) ->
  py_slice xs (match offset with Some o => o | None => 0 end)
    (match limit with
     | Some l => Some ((match offset with Some o => o | None => 0 end) + l)
     | None => None
     end)
  = page_of xs offset limit.
Proof.
  intros Ho Hl. unfold page_of.
  set (o := match offset with Some o => o | None => 0 end).
  assert (Hnn : 0 <= o) by (subst o; destruct offset; [now apply Ho | lia]).
  clearbody o. unfold py_slice, slice_index.
  set (len := Z.of_nat (length xs)).
  assert (Hlen : length xs = Z.to_nat len) by (subst len; lia).
  assert (Hlen0 : 0 <= len) by (subst len; lia).
  destruct (o <? 0) eqn:E; [apply Z.ltb_lt in E; lia|]. clear E.
  destruct (Z.le_gt_cases len o) as [Hbig | Hsmall].
  - (* the offset is beyond the end *)
    rewrite (Z.min_r o len) by lia.
    rewrite (skipn_all2 xs (n := Z.to_nat len)) by lia.
    rewrite (skipn_all2 xs (n := Z.to_nat o)) by lia.
    rewrite firstn_nil. destruct limit; [now rewrite firstn_nil | reflexivity].
  - rewrite (Z.min_l o len) by lia.
    assert (Hrest : length (skipn (Z.to_nat o) xs) = Z.to_nat (len - o))
      by (rewrite length_skipn; lia).
    destruct limit as [l|].
    + specialize (Hl l eq_refl).
      destruct (o + l <? 0) eqn:E; [apply Z.ltb_lt in E; lia|]. clear E.
      destruct (Z.le_gt_cases (o + l) len) as [Hin | Hout].
      * rewrite (Z.min_l (o + l) len) by lia. f_equal. lia.
      * rewrite (Z.min_r (o + l) len) by lia.
        rewrite !firstn_all2 by lia. reflexivity.
    + rewrite firstn_all2 by lia. reflexivity.
Qed.

Lemma page_of_length {A : Type} (xs : list A) (offset limit : option Z) :
  (length (page_of xs offset limit) <= length xs)%nat /\
  (forall l, limit = Some l ->
             (length (page_of xs offset limit) <= Z.to_nat l)%nat).
Proof.
  unfold page_of. split.
  - destruct limit; rewrite ?length_firstn, length_skipn; lia.
  - intros l ->. rewrite length_firstn. lia.
Qed.

Lemma page_of_in {A : Type} (xs : list A) (offset limit : option Z) (x : A) :
  In x (page_of xs offset limit) -> In x xs.
Proof.
  unfold page_of. intros Hin.
  set (n := Z.to_nat match offset with Some o => o | None => 0 end) in *.
  rewrite <- (firstn_skipn n xs). apply in_or_app. right.
  destruct limit as [l|]; [|exact Hin].
  rewrite <- (firstn_skipn (Z.to_nat l) (skipn n xs)).
  apply in_or_app. now left.
Qed.

End Pages.

Section Occurrences.

Lemma prefix_split (p s : string) :
  String.prefix p s = true <-> exists b, s = p ++ b.
Proof.
  revert s. induction p as [|c p IH]; intros s.
  - split; [intros _; now exists s | intros _; now destruct s].
  - destruct s as [|d s]; simpl.
    + split; [discriminate | intros [b Hb]; discriminate Hb].
    + destruct (ascii_dec c d) as [->|Hne].
      * rewrite IH. split; intros [b Hb]; exists b.
        -- now rewrite Hb.
        -- simpl in Hb. now inversion Hb.
      * split; [discriminate|]. intros [b Hb]. simpl in Hb.
        inversion Hb. congruence.
Qed.

(** The test [p in s] finds [p] exactly when it occurs in [s]. *)
Lemma contains_occurs (p s : string) :
  PyStr.contains p s = true <-> occurs_in p s.
Proof.
  unfold occurs_in. induction s as [|c s IH]; cbn [PyStr.contains].
  - rewrite orb_false_r, prefix_split. split.
    + intros [b Hb]. now exists "", b.
    + intros [a [b Hab]]. destruct a; [now exists b | discriminate Hab].
  - rewrite orb_true_iff, prefix_split, IH. split.
    + intros [[b Hb] | [a [b Hab]]].
      * now exists "", b.
      * exists (String c a), b. simpl. now rewrite Hab.
    + intros [a [b Hab]]. destruct a as [|c' a].
      * left. now exists b.
      * right. simpl in Hab. inversion Hab. now exists a, b.
Qed.

End Occurrences.

Section Listing.
Context {runtime : Runtime}.
Variable env : Env.

(** The filter of the code keeps what the specification says. *)
Lemma filtered_names_keeps (name_contains : option string)
      (names : list string) :
  keeps_matching name_contains names (filtered_names name_contains names).
Proof.
  destruct name_contains as [[|c nc]|]; [reflexivity | | reflexivity].
  cbn [keeps_matching filtered_names PyStr.truthy andb].
  exists (fun name =>
            PyStr.contains (str_lower (String c nc)) (str_lower name)).
  split; [|reflexivity].
  intros name. apply contains_occurs.
Qed.

(** The listing, once the client has answered: it returns what
    [json.dumps] makes of the page. *)
Lemma list_collections_run (input_data : ListCollectionsInput.t)
      (client : Client) (names : list string) :
  ListCollectionsInput.valid input_data ->
  get_chroma_client env = Gives client ->
  list_collections client = Gives names ->
  let limit := ListCollectionsInput.limit input_data in
  let offset := ListCollectionsInput.offset input_data in
  let filtered :=
    filtered_names (ListCollectionsInput.name_contains input_data) names in
  run (_list_collections_impl env input_data)
  = match json_dumps (Some 2%nat)
            (PDict (list_result_data (page_of filtered offset limit)
                      (length filtered) limit offset)) with
    | Gives result_json =>
        (Return (text_content result_json), [call_list_collections])
    | Throws _ msg =>
        (Raise (McpError
                  (mkErrorData INTERNAL_ERROR
                     ("Tool Error: Error listing collections. Details: "
                      ++ msg))),
         [call_list_collections])
    | Fails error =>
        (Raise (McpError
                  (mkErrorData INTERNAL_ERROR
                     ("Tool Error: Error listing collections. Details: "
                      ++ message error))),
         [call_list_collections])
    end.
Proof.
  intros [Hlim Hoff] Hclient Hnames limit offset filtered.
  unfold _list_collections_impl. exec_unfold.
  rewrite Hclient, Hnames. cbn [app].
  fold limit. fold offset.
  change (match ListCollectionsInput.name_contains input_data with
          | Some nc =>
              if PyStr.truthy nc
              then filter (fun name =>
                             PyStr.truthy nc &&
                             PyStr.contains (str_lower nc) (str_lower name))
                          names
              else names
          | None => names
          end) with filtered.
  assert (Hstart :
    (if (match offset with Some o => o | None => 0 end) <? 0 then 0
     else match offset with Some o => o | None => 0 end)
    = match offset with Some o => o | None => 0 end).
  { destruct offset as [o|] eqn:Eo; [|reflexivity].
    specialize (Hoff o Eo).
    destruct (o <? 0) eqn:E; [apply Z.ltb_lt in E; lia | reflexivity]. }
  rewrite Hstart, (py_slice_page filtered offset limit Hoff Hlim).
  unfold list_result_data.
  destruct (json_dumps _ _); reflexivity.
Qed.

End Listing.

(** C8: for every list of names that the client returns and every valid
    input, the listing makes the single call [list_collections] and
    passes to [json.dumps] the result in which [collection_names] is the
    page of the filtered list (skip [offset] names, keep at most
    [limit]: the slice [filtered[offset : offset + limit]], offset 0
    when absent, no upper end when the limit is absent), the filtered
    list keeps exactly the names, in order, whose lowercased form
    contains the lowercased [name_contains] (all names when it is absent
    or empty), and [total_count] is the length of the filtered list
    before pagination; it returns the text that [json.dumps] gives. *)
Theorem list_collections_page {runtime : Runtime} (env : Env)
        (input_data : ListCollectionsInput.t)
        (client : Client) (names : list string) :
  ListCollectionsInput.valid input_data ->
  get_chroma_client env = Gives client ->
  list_collections client = Gives names ->
  let limit := ListCollectionsInput.limit input_data in
  let offset := ListCollectionsInput.offset input_data in
  exists filtered,
    keeps_matching (ListCollectionsInput.name_contains input_data)
      names filtered /\
    forall result_json,
      json_dumps (Some 2%nat)
        (PDict [ ("collection_names",
                   PList (map PStr (page_of filtered offset limit)));
                 ("total_count", PInt (Z.of_nat (length filtered)));
                 ("limit", opt_int limit);
                 ("offset", opt_int offset) ])
      = Gives result_json ->
      run (_list_collections_impl env input_data)
      = (Return (text_content result_json), [call_list_collections]).
Proof.
  intros Hvalid Hclient Hnames limit offset.
  exists (filtered_names (ListCollectionsInput.name_contains input_data) names).
  split; [apply filtered_names_keeps|].
  intros result_json Hjson.
  rewrite (list_collections_run env input_data client names
             Hvalid Hclient Hnames).
  unfold list_result_data. fold limit. fold offset. now rewrite Hjson.
Qed.

(** The page of the repository's test: of [apple] and [apricot], the
    names that contain [ap], the second one. *)
Lemma list_collections_page_witness :
  (ListCollectionsInput.valid second_ap_page /\
   get_chroma_client fruit_env = Gives fruit_client /\
   list_collections fruit_client = Gives fruit_names) /\
  exists filtered,
    keeps_matching (Some "ap") fruit_names filtered /\
    forall result_json,
      json_dumps (Some 2%nat)
        (PDict [ ("collection_names",
                   PList (map PStr (page_of filtered (Some 1) (Some 2))));
                 ("total_count", PInt (Z.of_nat (length filtered)));
                 ("limit", PInt 2);
                 ("offset", PInt 1) ])
      = Gives result_json ->
      run (_list_collections_impl fruit_env second_ap_page)
      = (Return (text_content result_json), [call_list_collections]).
Proof.
  assert (Hvalid : ListCollectionsInput.valid second_ap_page).
  { split; intros x E; inversion E; lia. }
  split; [split; [exact Hvalid | split; reflexivity]|].
  apply (list_collections_page fruit_env second_ap_page fruit_client
           fruit_names Hvalid eq_refl eq_refl).
Defined.

Example second_ap_page_result :
  run (_list_collections_impl fruit_env second_ap_page)
  = (Return (text_content second_ap_page_text), [call_list_collections]) /\
  Json.decode second_ap_page_text
  = Some (PDict [ ("collection_names", PList [PStr "apricot"]);
                  ("total_count", PInt 2);
                  ("limit", PInt 2);
                  ("offset", PInt 1) ]).
Proof. split; vm_compute; reflexivity. Qed.
(* ================================================================== *)
(** * What a failing operation raises *)
(* ================================================================== *)

Section Failures.
Context `{ErrorClasses}.
Context {runtime : Runtime}.
Variable env : Env.

(** A handler that turns every exception into a protocol error makes
    the whole [try] statement safe, whatever its body does. *)
Lemma try_except_safe {A : Type} (body : Exec A)
      (handler : PyExc -> Exec A) (log : list Call) :
  (forall e log', returns_or_protocol_error (fst (handler e log'))) ->
  returns_or_protocol_error (fst (try_except body handler log)).
Proof.
  intros Hh. unfold try_except.
  destruct (body log) as [[a|e] log']; [exact I | apply Hh].
Qed.

Lemma mcp_error_safe {A : Type} (c : Z) (msg : string) (log : list Call) :
  c = INVALID_PARAMS \/ c = INTERNAL_ERROR -> msg <> "" ->
  returns_or_protocol_error (fst (mcp_error (A:=A) c msg log)).
Proof. intros Hc Hm. split; assumption. Qed.

(** Closes a goal about one [raise McpError(...)] of a handler. *)
Ltac handler_leaf :=
  apply mcp_error_safe;
  [ (left; reflexivity) || (right; reflexivity)
  | apply append_nonempty; discriminate ].

Ltac handler_cases :=
  repeat match goal with
         | |- context [if ?b then _ else _] => destruct b
         end;
  try handler_leaf.

Lemma create_collection_safe input_data :
  returns_or_protocol_error (fst (run (_create_collection_impl env input_data))).
Proof.
  unfold run, _create_collection_impl. apply try_except_safe.
  intros e log'. handler_cases.
Qed.

Lemma list_collections_safe input_data :
  returns_or_protocol_error (fst (run (_list_collections_impl env input_data))).
Proof.
  unfold run, _list_collections_impl. apply try_except_safe.
  intros e log'. handler_cases.
Qed.

Lemma get_collection_safe input_data :
  returns_or_protocol_error (fst (run (_get_collection_impl env input_data))).
Proof.
  unfold run, _get_collection_impl. apply try_except_safe.
  intros e log'. cbv zeta. handler_cases.
Qed.

Lemma rename_collection_safe input_data :
  returns_or_protocol_error (fst (run (_rename_collection_impl env input_data))).
Proof.
  unfold run, _rename_collection_impl. apply try_except_safe.
  intros e log'. cbv zeta. handler_cases.
Qed.

Lemma delete_collection_safe input_data :
  returns_or_protocol_error (fst (run (_delete_collection_impl env input_data))).
Proof.
  unfold run, _delete_collection_impl. apply try_except_safe.
  intros e log'. cbv zeta. handler_cases.
Qed.

Lemma peek_collection_safe input_data :
  returns_or_protocol_error (fst (run (_peek_collection_impl env input_data))).
Proof.
  unfold run, _peek_collection_impl. apply try_except_safe.
  intros e log'. cbv zeta. handler_cases.
Qed.

(** A protocol error is an [McpError]. *)
Lemma protocol_error_is_mcp_error {A : Type} (r : PyResult A) :
  returns_or_protocol_error r -> raises_only_mcp_errors r.
Proof. destruct r as [a | [cls msg | d]]; simpl; tauto. Qed.

(** Picks the case of [relayed] that the context proves. *)
Ltac relayed_case :=
  first [ solve [eauto 8] | left; solve [eauto 8] | right; relayed_case ].

(** Closes a goal about the outcome of create collection with metadata
    once the run has come to its end. *)
Ltac outcome_leaf :=
  repeat match goal with
         | cls : ExcClass |- _ => destruct cls
         end;
  repeat (cbv beta iota zeta;
          cbn [is_ValidationError is_JSONDecodeError is_ValueError
               is_McpError exc_str];
          match goal with
          | |- context [if ?b then _ else _] => destruct b
          end);
  cbv beta iota zeta;
  cbn [is_ValidationError is_JSONDecodeError is_ValueError is_McpError
       exc_str fst protocol_error_or_relayed];
  first
    [ exact I
    | left; split;
      [ (left; reflexivity) || (right; reflexivity)
      | (apply append_nonempty; discriminate) || discriminate ]
    | right; unfold relayed; cbn [code message]; relayed_case ].

Lemma create_collection_with_metadata_raises i :
  protocol_error_or_relayed env i
    (fst (run (_create_collection_with_metadata_impl env i))).
Proof.
  unfold _create_collection_with_metadata_impl. exec_unfold.
  destruct (json_loads (CreateCollectionWithMetadataInput.metadata i))
    as [v | cls msg | d0] eqn:L; cbv beta iota zeta.
  - destruct v; cbv beta iota zeta; try outcome_leaf.
    repeat (next_answer; [|outcome_leaf..]). outcome_leaf.
  - outcome_leaf.
  - outcome_leaf.
Qed.

(** No tool lets an exception of a foreign class out. *)
Lemma tool_raises_only_mcp_errors t :
  raises_only_mcp_errors (fst (run (tool_impl env t))).
Proof.
  destruct t as [i|i|i|i|i|i|i]; cbn [tool_impl].
  - apply protocol_error_is_mcp_error, create_collection_safe.
  - pose proof (create_collection_with_metadata_raises i) as Hr.
    destruct (fst (run (_create_collection_with_metadata_impl env i)))
      as [a | [cls msg | d]]; simpl in *; tauto.
  - apply protocol_error_is_mcp_error, list_collections_safe.
  - apply protocol_error_is_mcp_error, get_collection_safe.
  - apply protocol_error_is_mcp_error, rename_collection_safe.
  - apply protocol_error_is_mcp_error, delete_collection_safe.
  - apply protocol_error_is_mcp_error, peek_collection_safe.
Qed.

End Failures.

(** C1 (as amended): whatever the validator, the accessors, the client
    and [json] do, a tool operation that fails raises an [McpError]: no
    other exception leaves it.  For create collection, list collections,
    get collection, rename collection, delete collection and peek
    collection the [ErrorData] carries one of the two codes
    [INVALID_PARAMS] and [INTERNAL_ERROR] and a message that is not
    empty.  For create collection with metadata this holds of every
    error but those it relays: an [McpError] that [json], the validator,
    an accessor or the client raised while it ran is raised again as it
    is, and the message of a [ValueError] of [json.loads] becomes the
    message of the error. *)
Theorem failures_are_protocol_errors `{ErrorClasses} {runtime : Runtime}
        (env : Env) :
  (forall t, raises_only_mcp_errors (fst (run (tool_impl env t)))) /\
  (forall i, returns_or_protocol_error
               (fst (run (_create_collection_impl env i)))) /\
  (forall i, returns_or_protocol_error
               (fst (run (_list_collections_impl env i)))) /\
  (forall i, returns_or_protocol_error
               (fst (run (_get_collection_impl env i)))) /\
  (forall i, returns_or_protocol_error
               (fst (run (_rename_collection_impl env i)))) /\
  (forall i, returns_or_protocol_error
               (fst (run (_delete_collection_impl env i)))) /\
  (forall i, returns_or_protocol_error
               (fst (run (_peek_collection_impl env i)))) /\
  (forall i d,
      fst (run (_create_collection_with_metadata_impl env i))
      = Raise (McpError d) ->
      protocol_error d \/ relayed env i d).
Proof.
  split; [|repeat split].
  - intros t. apply tool_raises_only_mcp_errors.
  - intros i. apply create_collection_safe.
  - intros i. apply list_collections_safe.
  - intros i. apply get_collection_safe.
  - intros i. apply rename_collection_safe.
  - intros i. apply delete_collection_safe.
  - intros i. apply peek_collection_safe.
  - intros i d Hr.
    pose proof (create_collection_with_metadata_raises env i) as Hs.
    rewrite Hr in Hs. exact Hs.
Qed.

Lemma failures_are_protocol_errors_witness :
  raises_only_mcp_errors
    (fst (run (tool_impl (H:=validation_error_is_plain) metered_env
                 (create_collection_with_metadata_tool
                    (CreateCollectionWithMetadataInput.make "docs" "{}"))))) /\
  returns_or_protocol_error
    (fst (run (_create_collection_impl (H:=validation_error_is_plain)
                 metered_env (CreateCollectionInput.make "docs")))).
Proof.
  destruct (failures_are_protocol_errors (H:=validation_error_is_plain)
              metered_env) as [Hall [Hcreate _]].
  split; [apply Hall | apply Hcreate].
Defined.

(** The claim of C1 fails for create collection with metadata: an
    [McpError] that the client raises leaves the operation as it is,
    with a code that is neither [INVALID_PARAMS] nor [INTERNAL_ERROR];
    create collection reports the same failure as an internal error. *)
Lemma relayed_error_keeps_its_code :
  run (_create_collection_with_metadata_impl (H:=validation_error_is_plain)
         metered_env (CreateCollectionWithMetadataInput.make "docs" "{}"))
  = (Raise (McpError (mkErrorData (-32000) "Quota exceeded")),
     [call_create_collection "docs" [] None false]) /\
  ~ returns_or_protocol_error
      (fst (run (_create_collection_with_metadata_impl
                   (H:=validation_error_is_plain) metered_env
                   (CreateCollectionWithMetadataInput.make "docs" "{}")))) /\
  run (_create_collection_impl (H:=validation_error_is_plain) metered_env
         (CreateCollectionInput.make "docs"))
  = (Raise (McpError (mkErrorData INTERNAL_ERROR
       "Tool Error: An unexpected error occurred while creating collection 'docs'. Details: Quota exceeded")),
     [call_create_collection "docs"
        [("chroma:setting:hnsw_space", PStr "cosine")] None false]).
Proof.
  split; [vm_compute; reflexivity|]. split; [|vm_compute; reflexivity].
  vm_compute. intros [[E|E] _]; discriminate E.
Qed.

(* ================================================================== *)
(** * The calls made on the way to success *)
(* ================================================================== *)

Section Calls.
Context `{ErrorClasses}.
Variable env : Env.

Lemma convert_entry_log (key : string) (d : dict) (log : list Call) :
  snd (convert_entry key d log) = log.
Proof.
  unfold convert_entry.
  destruct (PyDict.get key d) as [[]|]; try reflexivity;
    exec_unfold; match goal with
                 | |- context [py_iter ?v] => destruct (py_iter v)
                 end; reflexivity.
Qed.

End Calls.

(* ================================================================== *)
(** * Rejected collection names *)
(* ================================================================== *)

Section InvalidNames.
Context `{ErrorClasses}.
Context {runtime : Runtime}.
Variable env : Env.

Lemma create_collection_invalid_name i msg :
  validate_collection_name env (CreateCollectionInput.collection_name i)
  = Throws ValidationError msg ->
  run (_create_collection_impl env i)
  = (Raise (McpError (mkErrorData INVALID_PARAMS
                        ("Validation Error: " ++ msg))), []).
Proof.
  intros Hv. unfold _create_collection_impl. exec_unfold.
  now rewrite Hv.
Qed.

Lemma rename_collection_invalid_name i msg :
  validate_collection_name env (RenameCollectionInput.collection_name i)
  = Throws ValidationError msg ->
  run (_rename_collection_impl env i)
  = (Raise (McpError (mkErrorData INVALID_PARAMS
                        ("Validation Error: " ++ msg))), []).
Proof.
  intros Hv. unfold _rename_collection_impl. exec_unfold.
  now rewrite Hv.
Qed.

Lemma rename_collection_invalid_new_name i msg :
  validate_collection_name env (RenameCollectionInput.collection_name i)
  = Gives tt ->
  validate_collection_name env (RenameCollectionInput.new_name i)
  = Throws ValidationError msg ->
  run (_rename_collection_impl env i)
  = (Raise (McpError (mkErrorData INVALID_PARAMS
                        ("Validation Error: " ++ msg))), []).
Proof.
  intros Hv Hn. unfold _rename_collection_impl. exec_unfold.
  rewrite Hv. cbv beta iota zeta. now rewrite Hn.
Qed.

(** Create collection with metadata reads its metadata before it
    validates the name: a rejected name is reported as such when the
    metadata is an object, and the metadata is refused with the same
    code when [json.loads] raises a [ValueError] or returns another
    value. *)
Lemma create_collection_with_metadata_rejected i msg :
  validate_collection_name env
    (CreateCollectionWithMetadataInput.collection_name i)
  = Throws ValidationError msg ->
  (forall cls m,
      json_loads (CreateCollectionWithMetadataInput.metadata i) = Throws cls m ->
      is_ValueError (Foreign cls m) = true) ->
  (forall error,
      json_loads (CreateCollectionWithMetadataInput.metadata i)
      <> Fails error) ->
  exists m,
    run (_create_collection_with_metadata_impl env i)
    = (Raise (McpError (mkErrorData INVALID_PARAMS m)), []).
Proof.
  intros Hv Hve Hnf. unfold _create_collection_with_metadata_impl.
  exec_unfold.
  destruct (json_loads (CreateCollectionWithMetadataInput.metadata i))
    as [v | cls m | error] eqn:L; cbv beta iota zeta.
  - destruct v; cbv beta iota zeta; try (eexists; reflexivity).
    rewrite Hv. cbv beta iota zeta. eexists; reflexivity.
  - rewrite (Hve cls m eq_refl).
    destruct (is_JSONDecodeError (Foreign cls m)); eexists; reflexivity.
  - now elim (Hnf error).
Qed.

Lemma get_collection_invalid_name i msg :
  validate_collection_name env (GetCollectionInput.collection_name i)
  = Throws ValidationError msg ->
  exists m,
    run (_get_collection_impl env i)
    = (Raise (McpError (mkErrorData unhandled_validation_code m)), []).
Proof.
  intros Hv. unfold _get_collection_impl, unhandled_validation_code.
  exec_unfold. rewrite Hv. cbv beta iota zeta. cbn [is_ValueError].
  destruct ValidationError_is_ValueError; [|eexists; reflexivity].
  match goal with |- context [if ?b then _ else _] => destruct b end;
    eexists; reflexivity.
Qed.

Lemma delete_collection_invalid_name i msg :
  validate_collection_name env (DeleteCollectionInput.collection_name i)
  = Throws ValidationError msg ->
  exists m,
    run (_delete_collection_impl env i)
    = (Raise (McpError (mkErrorData unhandled_validation_code m)), []).
Proof.
  intros Hv. unfold _delete_collection_impl, unhandled_validation_code.
  exec_unfold. rewrite Hv. cbv beta iota zeta. cbn [is_ValueError].
  destruct ValidationError_is_ValueError; [|eexists; reflexivity].
  match goal with |- context [if ?b then _ else _] => destruct b end;
    eexists; reflexivity.
Qed.

Lemma peek_collection_invalid_name i msg :
  validate_collection_name env (PeekCollectionInput.collection_name i)
  = Throws ValidationError msg ->
  exists m,
    run (_peek_collection_impl env i)
    = (Raise (McpError (mkErrorData unhandled_validation_code m)), []).
Proof.
  intros Hv. unfold _peek_collection_impl, unhandled_validation_code.
  exec_unfold. rewrite Hv. cbv beta iota zeta. cbn [is_ValueError].
  destruct ValidationError_is_ValueError; [|eexists; reflexivity].
  match goal with |- context [if ?b then _ else _] => destruct b end;
    eexists; reflexivity.
Qed.

End InvalidNames.

(* ================================================================== *)
(** * The metadata string of create-with-metadata *)
(* ================================================================== *)

Section MetadataString.
Context `{ErrorClasses}.
Context {runtime : Runtime}.
Variable env : Env.






End MetadataString.


(* ================================================================== *)
(** * A name that is already taken *)
(* ================================================================== *)

Section AlreadyExists.
Context `{ErrorClasses}.
Context {runtime : Runtime}.
Variable env : Env.

Lemma create_collection_taken i client ef settings cls msg :
  let name := CreateCollectionInput.collection_name i in
  validate_collection_name env name = Gives tt ->
  get_chroma_client env = Gives client ->
  get_embedding_function env = Gives ef ->
  get_collection_settings env = Gives settings ->
  creation_raises client name (flatten_settings settings) ef cls msg ->
  cls <> ValidationError ->
  is_ValueError (Foreign cls msg) = true ->
  says_already_exists name msg = true ->
  fst (run (_create_collection_impl env i)) = Raise (already_exists_error name).
Proof.
  intros name Hv Hc Hef Hs Hr Hcls Hve Hsays.
  unfold _create_collection_impl. exec_unfold. fold name.
  rewrite Hv, Hc, Hef, Hs. cbv beta iota zeta.
  assert (Hval : is_ValidationError (Foreign cls msg) = false)
    by (destruct cls; [congruence | reflexivity..]).
  unfold says_already_exists in Hsays.
  destruct Hr as [Hr | [c [Hr Hn]]]; rewrite Hr; cbv beta iota zeta.
  - cbn [exc_str fst]. now rewrite Hval, Hve, Hsays.
  - rewrite Hn. cbn [exc_str fst]. now rewrite Hval, Hve, Hsays.
Qed.

Lemma create_collection_with_metadata_taken i d client ef cls msg :
  let name := CreateCollectionWithMetadataInput.collection_name i in
  json_loads (CreateCollectionWithMetadataInput.metadata i) = Gives (PDict d) ->
  validate_collection_name env name = Gives tt ->
  get_embedding_function env = Gives ef ->
  get_chroma_client env = Gives client ->
  creation_raises client name d ef cls msg ->
  cls <> ValidationError ->
  says_already_exists name msg = true ->
  fst (run (_create_collection_with_metadata_impl env i))
  = Raise (already_exists_error name).
Proof.
  intros name Hd Hv Hef Hc Hr Hcls Hsays.
  unfold _create_collection_with_metadata_impl. exec_unfold. fold name.
  rewrite Hd. cbv beta iota zeta.
  rewrite Hv, Hef, Hc. cbv beta iota zeta.
  assert (Hval : is_ValidationError (Foreign cls msg) = false)
    by (destruct cls; [congruence | reflexivity..]).
  unfold says_already_exists in Hsays.
  destruct Hr as [Hr | [c [Hr Hn]]]; rewrite Hr; cbv beta iota zeta.
  - cbn [exc_str fst is_McpError]. now rewrite Hval, Hsays.
  - rewrite Hn. cbn [exc_str fst is_McpError]. now rewrite Hval, Hsays.
Qed.

(** An [McpError] of the client passes through create collection with
    metadata as it is. *)
Lemma create_collection_with_metadata_relays i d client ef error :
  let name := CreateCollectionWithMetadataInput.collection_name i in
  json_loads (CreateCollectionWithMetadataInput.metadata i) = Gives (PDict d) ->
  validate_collection_name env name = Gives tt ->
  get_embedding_function env = Gives ef ->
  get_chroma_client env = Gives client ->
  (create_collection client name d ef false = Fails error \/
   exists c, create_collection client name d ef false = Gives c /\
             coll_count c = Fails error) ->
  fst (run (_create_collection_with_metadata_impl env i))
  = Raise (McpError error).
Proof.
  intros name Hd Hv Hef Hc Hr.
  unfold _create_collection_with_metadata_impl. exec_unfold. fold name.
  rewrite Hd. cbv beta iota zeta.
  rewrite Hv, Hef, Hc. cbv beta iota zeta.
  destruct Hr as [Hr | [c [Hr Hn]]]; rewrite Hr; cbv beta iota zeta.
  - reflexivity.
  - rewrite Hn. reflexivity.
Qed.

(** In create collection, an [McpError] of the client is an unexpected
    error like any other. *)
Lemma create_collection_wraps i client ef settings error :
  let name := CreateCollectionInput.collection_name i in
  validate_collection_name env name = Gives tt ->
  get_chroma_client env = Gives client ->
  get_embedding_function env = Gives ef ->
  get_collection_settings env = Gives settings ->
  (create_collection client name (flatten_settings settings) ef false
   = Fails error \/
   exists c, create_collection client name (flatten_settings settings) ef false
             = Gives c /\
             coll_count c = Fails error) ->
  exists m,
    fst (run (_create_collection_impl env i))
    = Raise (McpError (mkErrorData INTERNAL_ERROR m)).
Proof.
  intros name Hv Hc Hef Hs Hr.
  unfold _create_collection_impl. exec_unfold. fold name.
  rewrite Hv, Hc, Hef, Hs. cbv beta iota zeta.
  destruct Hr as [Hr | [c [Hr Hn]]]; rewrite Hr; cbv beta iota zeta.
  - eexists; reflexivity.
  - rewrite Hn. eexists; reflexivity.
Qed.

End AlreadyExists.

(** C4 (as amended): when the external client raises, during a creation,
    an exception whose message contains "Collection NAME already exists."
    for the requested name, the operation raises [McpError] with code
    [INVALID_PARAMS] and message "Tool Error: Collection 'NAME' already
    exists." provided that, for create collection, the exception is a
    [ValueError] and not a [ValidationError], and, for create collection
    with metadata, it is any exception but a [ValidationError] or an
    [McpError].  An [McpError] of the client, whatever its message, is
    raised again as it is by create collection with metadata. *)
Theorem already_exists_is_invalid_params `{ErrorClasses} {runtime : Runtime}
        (env : Env) (name : string) (client : Client)
        (ef : option EmbeddingFunction) (cls : ExcClass) (msg : string) :
  validate_collection_name env name = Gives tt ->
  get_chroma_client env = Gives client ->
  get_embedding_function env = Gives ef ->
  cls <> ValidationError ->
  says_already_exists name msg = true ->
  (forall settings,
      get_collection_settings env = Gives settings ->
      creation_raises client name (flatten_settings settings) ef cls msg ->
      is_ValueError (Foreign cls msg) = true ->
      fst (run (_create_collection_impl env (CreateCollectionInput.make name)))
      = Raise (already_exists_error name)) /\
  (forall metadata d,
      json_loads metadata = Gives (PDict d) ->
      creation_raises client name d ef cls msg ->
      fst (run (_create_collection_with_metadata_impl env
                  (CreateCollectionWithMetadataInput.make name metadata)))
      = Raise (already_exists_error name)) /\
  (forall metadata d error,
      json_loads metadata = Gives (PDict d) ->
      (create_collection client name d ef false = Fails error \/
       exists c, create_collection client name d ef false = Gives c /\
                 coll_count c = Fails error) ->
      fst (run (_create_collection_with_metadata_impl env
                  (CreateCollectionWithMetadataInput.make name metadata)))
      = Raise (McpError error)).
Proof.
  intros Hv Hc Hef Hcls Hsays. split; [|split].
  - intros settings Hs Hr Hve.
    now apply (create_collection_taken env (CreateCollectionInput.make name)
                 client ef settings cls msg).
  - intros metadata d Hd Hr.
    now apply (create_collection_with_metadata_taken env
                 (CreateCollectionWithMetadataInput.make name metadata)
                 d client ef cls msg).
  - intros metadata d error Hd Hr.
    now apply (create_collection_with_metadata_relays env
                 (CreateCollectionWithMetadataInput.make name metadata)
                 d client ef error).
Qed.

Lemma already_exists_is_invalid_params_witness :
  (validate_collection_name (taken_env ValueError) "docs" = Gives tt /\
   get_chroma_client (taken_env ValueError) = Gives (taken_client ValueError) /\
   get_embedding_function (taken_env ValueError) = Gives None /\
   ValueError <> ValidationError /\
   says_already_exists "docs" "Collection docs already exists." = true) /\
  fst (run (_create_collection_impl (H:=validation_error_is_plain)
              (taken_env ValueError) (CreateCollectionInput.make "docs")))
  = Raise (already_exists_error "docs") /\
  fst (run (_create_collection_with_metadata_impl
              (H:=validation_error_is_plain) (taken_env ValueError)
              (CreateCollectionWithMetadataInput.make "docs" "{}")))
  = Raise (already_exists_error "docs").
Proof.
  assert (Hne : ValueError <> ValidationError) by discriminate.
  destruct (already_exists_is_invalid_params (H:=validation_error_is_plain)
              (taken_env ValueError) "docs" (taken_client ValueError) None
              ValueError "Collection docs already exists."
              eq_refl eq_refl eq_refl Hne eq_refl) as [Hcreate [Hmeta _]].
  split; [repeat split; (reflexivity || exact Hne)|]. split.
  - apply (Hcreate [("hnsw:space", PStr "cosine")]);
      [reflexivity | left; reflexivity | reflexivity].
  - apply (Hmeta "{}" []); [reflexivity | left; reflexivity].
Defined.

(** The claim of C4 fails for create collection: an exception that is
    not a [ValueError] and says that the name is taken is reported as an
    internal error. *)
Lemma taken_name_is_internal_error :
  says_already_exists "docs" "Collection docs already exists." = true /\
  run (_create_collection_impl (H:=validation_error_is_plain)
         (taken_env OtherException) (CreateCollectionInput.make "docs"))
  = (Raise (McpError (mkErrorData INTERNAL_ERROR
       "Tool Error: An unexpected error occurred while creating collection 'docs'. Details: Collection docs already exists.")),
     [call_create_collection "docs"
        [("chroma:setting:hnsw_space", PStr "cosine")] None false]).
Proof. split; vm_compute; reflexivity. Qed.

(* ================================================================== *)
(** * A collection that does not exist *)
(* ================================================================== *)

Section NotFound.
Context `{ErrorClasses}.
Context {runtime : Runtime}.
Variable env : Env.

(** Closes the goal once the exception has reached the handler. *)
Ltac not_found_handler Hve :=
  cbn [exc_str fst]; rewrite Hve;
  unfold says_not_found, says_not_found_on_delete, not_found_message;
  match goal with
  | |- context [if ?b then _ else _] => destruct b
  end;
  eexists; (split; [reflexivity | intros; (reflexivity || discriminate)]).

Lemma get_collection_value_error i client ef cls msg :
  let name := GetCollectionInput.collection_name i in
  validate_collection_name env name = Gives tt ->
  get_chroma_client env = Gives client ->
  get_embedding_function env = Gives ef ->
  lookup_raises client name ef cls msg ->
  is_ValueError (Foreign cls msg) = true ->
  invalid_params_not_found (fst (run (_get_collection_impl env i)))
                           (says_not_found name msg) name.
Proof.
  intros name Hv Hc Hef Hr Hve. unfold invalid_params_not_found.
  unfold _get_collection_impl. exec_unfold. fold name.
  rewrite Hv, Hc, Hef. cbv beta iota zeta.
  destruct Hr as [Hr | [c [Hr Hn]]]; rewrite Hr; cbv beta iota zeta;
    [|rewrite Hn; cbv beta iota zeta]; not_found_handler Hve.
Qed.

Lemma delete_collection_value_error i client cls msg :
  let name := DeleteCollectionInput.collection_name i in
  validate_collection_name env name = Gives tt ->
  get_chroma_client env = Gives client ->
  delete_collection client name = Throws cls msg ->
  is_ValueError (Foreign cls msg) = true ->
  invalid_params_not_found (fst (run (_delete_collection_impl env i)))
                           (says_not_found_on_delete name msg) name.
Proof.
  intros name Hv Hc Hr Hve. unfold invalid_params_not_found.
  unfold _delete_collection_impl. exec_unfold. fold name.
  rewrite Hv, Hc, Hr. cbv beta iota zeta. not_found_handler Hve.
Qed.

Lemma peek_collection_value_error i client cls msg :
  let name := PeekCollectionInput.collection_name i in
  let limit := match PeekCollectionInput.limit i with
               | Some l => l
               | None => 10
               end in
  validate_collection_name env name = Gives tt ->
  get_chroma_client env = Gives client ->
  sampling_raises client name limit cls msg ->
  is_ValueError (Foreign cls msg) = true ->
  invalid_params_not_found (fst (run (_peek_collection_impl env i)))
                           (says_not_found name msg) name.
Proof.
  intros name limit Hv Hc Hr Hve. unfold invalid_params_not_found.
  unfold _peek_collection_impl. exec_unfold. fold name. fold limit.
  rewrite Hv, Hc. cbv beta iota zeta.
  destruct Hr as [Hr | [c [Hr Hn]]]; rewrite Hr; cbv beta iota zeta;
    [|fold limit; rewrite Hn; cbv beta iota zeta]; not_found_handler Hve.
Qed.

End NotFound.

(* ================================================================== *)
(** * Sampling inside get collection *)
(* ================================================================== *)

Section Sampling.
Context `{ErrorClasses}.
Context {runtime : Runtime}.
Variable env : Env.

Lemma mem_del (k : string) (d : dict) : PyDict.mem k (PyDict.del d k) = false.
Proof.
  induction d as [|[k' v] d IH]; simpl; [reflexivity|].
  destruct (String.eqb k' k) eqn:E; simpl; [exact IH|].
  now rewrite E.
Qed.

(** A sample that [peek] returned is stored without its embeddings. *)
Lemma sample_has_no_embeddings (c : Collection) (sample : option dict) :
  coll_peek c 5 = Gives sample -> no_embeddings (sample_entries c).
Proof.
  intros Hp. unfold sample_entries, answer. rewrite Hp.
  destruct sample as [d|]; [|exact I]. cbn [no_embeddings].
  destruct (PyDict.truthy d && PyDict.mem "embeddings" d) eqn:E;
    cbn [no_embeddings].
  - apply mem_del.
  - destruct d as [|kv d]; [reflexivity|].
    cbn [PyDict.truthy andb] in E. exact E.
Qed.

(** Once the collection is found and counted, get collection depends
    on the sampling only through what it stores under
    ["sample_entries"], and on [json.dumps] for its success. *)
Lemma get_collection_after_count i client ef c n :
  let name := GetCollectionInput.collection_name i in
  validate_collection_name env name = Gives tt ->
  get_chroma_client env = Gives client ->
  get_embedding_function env = Gives ef ->
  get_collection client name (ef_given ef) = Gives c ->
  coll_count c = Gives n ->
  match json_dumps (Some 2%nat)
          (PDict (get_result_data c n (sample_entries c))) with
  | Gives s =>
      run (_get_collection_impl env i)
      = (Return (text_content s), get_calls name ef)
  | _ =>
      exists d,
        run (_get_collection_impl env i)
        = (Raise (McpError d), get_calls name ef)
  end.
Proof.
  intros name Hv Hc Hef Hg Hn.
  unfold _get_collection_impl. exec_unfold. fold name.
  rewrite Hv, Hc, Hef, Hg, Hn. cbv beta iota zeta.
  unfold get_result_data, sample_entries, could_not_peek, get_calls, answer.
  destruct (coll_peek c 5) as [[d|]|cls msg|error]; cbv beta iota zeta;
    cbn [exc_str app opt_dict];
    match goal with
    | |- context [json_dumps ?i ?v] => destruct (json_dumps i v)
    end;
    cbv beta iota zeta; try reflexivity;
    repeat match goal with
           | |- context [if ?b then _ else _] => destruct b
           end;
    eexists; reflexivity.
Qed.

End Sampling.

(** C5 (as amended): in get collection, delete collection and peek
    collection, a [ValueError] that the external client raises in
    [get_collection] or [count] (get), in [delete_collection] (delete),
    in [get_collection] or [peek] (peek) makes the operation raise
    [McpError] with code [INVALID_PARAMS]; its message is "Tool Error:
    Collection 'NAME' not found." when the lowercased message of the
    client contains "collection NAME does not exist." or, for get and
    peek, "collection NAME not found" or, for delete, "collection named
    NAME does not exist".  The sampling [peek] inside get collection is
    not concerned: what it raises never reaches this classification;
    its message is stored under "sample_entries", and get collection
    returns the text of that result whenever [json.dumps] gives one. *)
Theorem value_errors_are_invalid_params `{ErrorClasses} {runtime : Runtime}
        (env : Env) (name : string) (client : Client) (cls : ExcClass)
        (msg : string) :
  validate_collection_name env name = Gives tt ->
  get_chroma_client env = Gives client ->
  is_ValueError (Foreign cls msg) = true ->
  (forall ef,
      get_embedding_function env = Gives ef ->
      lookup_raises client name ef cls msg ->
      invalid_params_not_found
        (fst (run (_get_collection_impl env (GetCollectionInput.make name))))
        (says_not_found name msg) name) /\
  (delete_collection client name = Throws cls msg ->
   invalid_params_not_found
     (fst (run (_delete_collection_impl env (DeleteCollectionInput.make name))))
     (says_not_found_on_delete name msg) name) /\
  (forall limit,
      sampling_raises client name
        (match limit with Some l => l | None => 10 end) cls msg ->
      invalid_params_not_found
        (fst (run (_peek_collection_impl env
                     (PeekCollectionInput.make name limit))))
        (says_not_found name msg) name) /\
  (forall ef c n result_json,
      get_embedding_function env = Gives ef ->
      get_collection client name (ef_given ef) = Gives c ->
      coll_count c = Gives n ->
      coll_peek c 5 = Throws cls msg ->
      json_dumps (Some 2%nat)
        (PDict (get_result_data c n (Some (could_not_peek msg))))
      = Gives result_json ->
      run (_get_collection_impl env (GetCollectionInput.make name))
      = (Return (text_content result_json), get_calls name ef)).
Proof.
  intros Hv Hc Hve. split; [|split; [|split]].
  - intros ef Hef Hr.
    now apply (get_collection_value_error env (GetCollectionInput.make name)
                 client ef cls msg).
  - intros Hr.
    now apply (delete_collection_value_error env
                 (DeleteCollectionInput.make name) client cls msg).
  - intros limit Hr.
    now apply (peek_collection_value_error env
                 (PeekCollectionInput.make name limit) client cls msg).
  - intros ef c n result_json Hef Hg Hn Hp Hj.
    pose proof (get_collection_after_count env (GetCollectionInput.make name)
                  client ef c n Hv Hc Hef Hg Hn) as Hrun.
    unfold sample_entries, answer in Hrun. rewrite Hp in Hrun.
    cbn [exc_str] in Hrun. rewrite Hj in Hrun. exact Hrun.
Qed.

Lemma value_errors_are_invalid_params_witness :
  (validate_collection_name empty_env "docs" = Gives tt /\
   get_chroma_client empty_env = Gives empty_client /\
   is_ValueError (H:=validation_error_is_plain)
     (Foreign ValueError "Collection docs does not exist.") = true) /\
  invalid_params_not_found
    (fst (run (_get_collection_impl (H:=validation_error_is_plain) empty_env
                 (GetCollectionInput.make "docs"))))
    (says_not_found "docs" "Collection docs does not exist.") "docs" /\
  invalid_params_not_found
    (fst (run (_delete_collection_impl (H:=validation_error_is_plain) empty_env
                 (DeleteCollectionInput.make "docs"))))
    (says_not_found_on_delete "docs" "Collection docs does not exist.") "docs" /\
  invalid_params_not_found
    (fst (run (_peek_collection_impl (H:=validation_error_is_plain) empty_env
                 (PeekCollectionInput.make "docs" None))))
    (says_not_found "docs" "Collection docs does not exist.") "docs".
Proof.
  destruct (value_errors_are_invalid_params (H:=validation_error_is_plain)
              empty_env "docs" empty_client ValueError
              "Collection docs does not exist." eq_refl eq_refl eq_refl)
    as [Hget [Hdelete [Hpeek _]]].
  split; [repeat split|]. split; [|split].
  - apply (Hget None); [reflexivity | left; reflexivity].
  - apply Hdelete. reflexivity.
  - apply (Hpeek None). left; reflexivity.
Defined.

(** The claim of C5 fails inside get collection: a [ValueError] that the
    client raises in the sampling [peek], with a message that says the
    collection is not found, does not make the operation raise. *)
Lemma sampling_value_error_is_swallowed :
  coll_peek sealed 5 = Throws ValueError "Collection docs not found" /\
  says_not_found "docs" "Collection docs not found" = true /\
  exists texts,
    run (_get_collection_impl (H:=validation_error_is_plain) sealed_env
           (GetCollectionInput.make "docs"))
    = (Return texts, get_calls "docs" None).
Proof.
  split; [reflexivity|]. split; [vm_compute; reflexivity|].
  eexists. vm_compute. reflexivity.
Qed.

(** C10 (as amended): once [get_collection] has returned a collection
    and its count is known, a sampling [peek] that raises any exception
    does not stop get collection by itself: the exception is caught and
    the result dictionary has, under "sample_entries", the dictionary
    with the single key "error" bound to "Could not peek: " followed by
    the message of the exception.  The operation then returns the text
    that [json.dumps] gives for this result dictionary; when
    [json.dumps] gives none, the operation raises an [McpError] after
    all.  Whenever [peek] succeeds and the operation returns, its text
    is what [json.dumps] gave for the result dictionary, and what this
    dictionary holds under "sample_entries" has no "embeddings" key. *)
Theorem get_collection_tolerates_peek_failure `{ErrorClasses}
        {runtime : Runtime} (env : Env) (name : string) (client : Client)
        (ef : option EmbeddingFunction) (c : Collection) (n : Z) :
  validate_collection_name env name = Gives tt ->
  get_chroma_client env = Gives client ->
  get_embedding_function env = Gives ef ->
  get_collection client name (ef_given ef) = Gives c ->
  coll_count c = Gives n ->
  let outcome := run (_get_collection_impl env (GetCollectionInput.make name)) in
  (forall e result_json,
      answer (coll_peek c 5) = Raise e ->
      json_dumps (Some 2%nat)
        (PDict (get_result_data c n (Some (could_not_peek (exc_str e)))))
      = Gives result_json ->
      outcome = (Return (text_content result_json), get_calls name ef)) /\
  (forall e,
      answer (coll_peek c 5) = Raise e ->
      (forall result_json,
          json_dumps (Some 2%nat)
            (PDict (get_result_data c n (Some (could_not_peek (exc_str e)))))
          <> Gives result_json) ->
      exists error,
        outcome = (Raise (McpError error), get_calls name ef)) /\
  (forall sample texts log,
      coll_peek c 5 = Gives sample ->
      outcome = (Return texts, log) ->
      no_embeddings (sample_entries c) /\
      exists result_json,
        json_dumps (Some 2%nat)
          (PDict (get_result_data c n (sample_entries c)))
        = Gives result_json /\
        texts = text_content result_json).
Proof.
  intros Hv Hc Hef Hg Hn outcome. subst outcome.
  pose proof (get_collection_after_count env (GetCollectionInput.make name)
                client ef c n Hv Hc Hef Hg Hn) as Hrun.
  cbn [GetCollectionInput.collection_name] in Hrun.
  split; [|split].
  - intros e result_json Hp Hj.
    assert (He : sample_entries c = Some (could_not_peek (exc_str e)))
      by (unfold sample_entries; now rewrite Hp).
    rewrite He, Hj in Hrun. exact Hrun.
  - intros e Hp Hj.
    assert (He : sample_entries c = Some (could_not_peek (exc_str e)))
      by (unfold sample_entries; now rewrite Hp).
    rewrite He in Hrun.
    destruct (json_dumps _ _) as [s|cls msg|error] eqn:D;
      [now elim (Hj s) | exact Hrun..].
  - intros sample texts log Hp.
    pose proof (sample_has_no_embeddings c sample Hp) as Hno.
    destruct (json_dumps _ _) as [s|cls msg|error] eqn:D.
    + rewrite Hrun. intros E; inversion E; subst.
      split; [exact Hno|]. exists s. auto.
    + destruct Hrun as [d ->]. discriminate.
    + destruct Hrun as [d ->]. discriminate.
Qed.

Lemma get_collection_tolerates_peek_failure_witness :
  (validate_collection_name sealed_env "docs" = Gives tt /\
   get_chroma_client sealed_env = Gives sealed_client /\
   get_embedding_function sealed_env = Gives None /\
   get_collection sealed_client "docs" (ef_given None) = Gives sealed /\
   coll_count sealed = Gives 1 /\
   answer (coll_peek sealed 5)
   = Raise (Foreign ValueError "Collection docs not found") /\
   json_dumps (Some 2%nat)
     (PDict (get_result_data sealed 1
               (Some (could_not_peek "Collection docs not found"))))
   = Gives sealed_summary) /\
  run (_get_collection_impl (H:=validation_error_is_plain) sealed_env
         (GetCollectionInput.make "docs"))
  = (Return (text_content sealed_summary), get_calls "docs" None).
Proof.
  split; [repeat split|].
  destruct (get_collection_tolerates_peek_failure
              (H:=validation_error_is_plain) sealed_env "docs" sealed_client
              None sealed 1 eq_refl eq_refl eq_refl eq_refl eq_refl)
    as [Hfail _].
  exact (Hfail (Foreign ValueError "Collection docs not found")
               sealed_summary eq_refl eq_refl).
Defined.

(** The claim of C10 fails for a collection whose metadata [json]
    cannot serialize: the sampling raises, its exception is caught, and
    get collection raises an [McpError] all the same. *)
Lemma peek_failure_is_not_always_tolerated :
  (validate_collection_name dated_env "docs" = Gives tt /\
   get_chroma_client dated_env = Gives dated_client /\
   get_collection dated_client "docs" (ef_given None) = Gives dated /\
   coll_count dated = Gives 1 /\
   coll_peek dated 5 = Throws OtherException "connection lost") /\
  run (_get_collection_impl (H:=validation_error_is_plain) dated_env
         (GetCollectionInput.make "docs"))
  = (Raise (McpError (mkErrorData INTERNAL_ERROR
       "Tool Error: An unexpected error occurred while getting collection 'docs'. Details: Object of type datetime is not JSON serializable")),
     get_calls "docs" None).
Proof. split; [repeat split | vm_compute; reflexivity]. Qed.

(** The sample of [docs] that get collection returns has lost the
    embeddings that the client's [peek] gave. *)
Example docs_sample_has_no_embeddings :
  PyDict.mem "embeddings"
    (match coll_peek docs 5 with
     | Gives (Some d) => d
     | _ => []
     end) = true /\
  PyStr.contains "embeddings" docs_summary = false.
Proof. split; vm_compute; reflexivity. Qed.

(* ================================================================== *)
(** * The text of a successful call *)
(* ================================================================== *)

Section SuccessText.

(** No text that starts with the word [Collection] is JSON. *)
Lemma sentence_is_not_json (rest : string) :
  ~ parses_as_json ("Collection '" ++ rest).
Proof. intros [v Hv]. discriminate Hv. Qed.

(** The reference codec reads what it writes. *)
Lemma reference_reads_what_it_writes :
  reads_what_it_writes (runtime:=reference_runtime).
Proof.
  intros indent v s E. exists (normalize v).
  cbn [json_loads reference_runtime]. unfold Json.loads.
  cbn [json_dumps reference_runtime] in E.
  now rewrite (loads_dumps indent v s E).
Qed.

End SuccessText.

(** Splits the description of a result dictionary into its equations
    and closes them with the answers met on the way. *)
Ltac result_found :=
  repeat match goal with
         | |- exists _, _ => eexists
         | |- _ /\ _ => split
         end;
  try eassumption; try reflexivity.

(** The text of a tool that returned. *)
Lemma tool_success_text `{ErrorClasses} {runtime : Runtime} (env : Env)
      (t : ToolCall) (texts : list TextContent) (log : list Call) :
  run (tool_impl env t) = (Return texts, log) ->
  exists s, texts = [mkTextContent "text" s] /\ text_of_success env t s.
Proof.
  destruct t as [i|i|i|i|i|i|i];
    cbn [tool_impl text_of_success result_dictionary indent_of].
  - unfold _create_collection_impl. exec_unfold.
    repeat (next_answer; [|handler_raises..]).
    intros E; inversion E. eexists; split; [reflexivity|].
    result_found.
  - unfold _create_collection_with_metadata_impl. exec_unfold.
    next_answer; [|handler_raises..].
    destruct a; cbv beta iota zeta; try handler_raises.
    repeat (next_answer; [|handler_raises..]).
    intros E; inversion E. eexists; split; [reflexivity|].
    result_found.
  - unfold _list_collections_impl. exec_unfold.
    repeat (next_answer; [|handler_raises..]).
    intros E; inversion E. eexists; split; [reflexivity|].
    result_found.
  - unfold _get_collection_impl. exec_unfold.
    do 5 (next_answer; [|handler_raises..]).
    unfold sample_entries, answer.
    next_answer; (next_answer; [|handler_raises..]);
      intros E; inversion E; (eexists; split; [reflexivity|]);
      result_found;
      match goal with
      | R : coll_peek _ 5 = _ |- _ => rewrite R; reflexivity
      end.
  - unfold _rename_collection_impl. exec_unfold.
    repeat (next_answer; [|handler_raises..]).
    intros E; inversion E. eexists; split; [reflexivity|].
    split; [reflexivity | apply sentence_is_not_json].
  - unfold _delete_collection_impl. exec_unfold.
    repeat (next_answer; [|handler_raises..]).
    intros E; inversion E. eexists; split; [reflexivity|].
    split; [reflexivity | apply sentence_is_not_json].
  - unfold _peek_collection_impl. exec_unfold.
    do 4 (next_answer; [|handler_raises..]).
    match goal with
    | |- context [convert_entry "embeddings" ?d ?l] =>
        pose proof (convert_entry_log "embeddings" d l) as L1;
        destruct (convert_entry "embeddings" d l) as [[d1|e1] l1] eqn:E1
    end; cbn [snd] in L1; subst l1; [|handler_raises].
    match goal with
    | |- context [convert_entry "distances" ?d ?l] =>
        pose proof (convert_entry_log "distances" d l) as L2;
        destruct (convert_entry "distances" d l) as [[d2|e2] l2] eqn:E2
    end; cbn [snd] in L2; subst l2; [|handler_raises].
    next_answer; [|handler_raises..].
    intros E; inversion E. eexists; split; [reflexivity|].
    result_found.
Qed.

(* ================================================================== *)
(** * The text and the calls of a successful operation *)
(* ================================================================== *)

(** C2 (as amended): every tool operation that succeeds returns a list of
    exactly one [TextContent] of type "text".  For create collection,
    create collection with metadata, list collections, get collection
    and peek collection its text is the string that [json.dumps]
    returned for the result dictionary, which the tool builds from the
    answers of the client; wherever [json.loads] reads what [json.dumps]
    writes, this text parses as JSON.  For rename collection and delete
    collection the text is the plain confirmation sentence, which does
    not parse as JSON. *)
Theorem success_returns_one_text `{ErrorClasses} {runtime : Runtime}
        (env : Env) (t : ToolCall) (texts : list TextContent)
        (log : list Call) :
  run (tool_impl env t) = (Return texts, log) ->
  exists s,
    texts = [mkTextContent "text" s] /\
    text_of_success env t s /\
    (reads_what_it_writes -> serializes_a_dictionary t = true ->
     exists v, json_loads s = Gives v).
Proof.
  intros Hrun.
  destruct (tool_success_text env t texts log Hrun) as [s [Hs Ht]].
  exists s. split; [exact Hs|].
  split; [exact Ht|]. intros Hcodec Hdict.
  destruct t as [i|i|i|i|i|i|i]; try discriminate Hdict;
    cbn [text_of_success] in Ht; destruct Ht as [data [_ Hj]];
    exact (Hcodec _ _ _ Hj).
Qed.

Lemma success_returns_one_text_witness :
  run (tool_impl (H:=validation_error_is_plain) docs_env get_docs)
  = (Return (text_content docs_summary), get_calls "docs" None) /\
  exists s,
    text_content docs_summary = [mkTextContent "text" s] /\
    text_of_success docs_env get_docs s /\
    (reads_what_it_writes -> serializes_a_dictionary get_docs = true ->
     exists v, json_loads s = Gives v).
Proof.
  split; [vm_compute; reflexivity|].
  apply (success_returns_one_text (H:=validation_error_is_plain) docs_env
           get_docs (text_content docs_summary) (get_calls "docs" None)).
  vm_compute; reflexivity.
Defined.

(** The claim of C2 fails for delete collection: the call succeeds and
    its text is a sentence that is not JSON. *)
Lemma deleted_text_is_not_json :
  run (tool_impl (H:=validation_error_is_plain) docs_env delete_docs)
  = (Return [mkTextContent "text" "Collection 'docs' deleted successfully."],
     [call_delete_collection "docs"]) /\
  Json.decode "Collection 'docs' deleted successfully." = None.
Proof. split; vm_compute; reflexivity. Qed.

(** C3 (as amended): on the success path, the calls into the external
    library (on the client object and on the collection objects it
    returns) are, in this order: [create_collection] and [count] for the
    two creations, [list_collections] for the listing, [get_collection],
    [count] and [peek] for get collection, [get_collection] and [modify]
    for rename, [delete_collection] for delete, [get_collection] and
    [peek] for peek collection.  Only list and delete make a single
    call. *)
Theorem calls_on_success_path `{ErrorClasses} {runtime : Runtime}
        (env : Env) (t : ToolCall) (texts : list TextContent)
        (log : list Call) :
  run (tool_impl env t) = (Return texts, log) ->
  map method log = calls_on_success t.
Proof.
  destruct t as [i|i|i|i|i|i|i]; cbn [tool_impl calls_on_success].
  - unfold _create_collection_impl. exec_unfold.
    repeat (next_answer; [|handler_raises..]).
    intros E; inversion E; reflexivity.
  - unfold _create_collection_with_metadata_impl. exec_unfold.
    next_answer; [|handler_raises..].
    destruct a; cbv beta iota zeta; try handler_raises.
    repeat (next_answer; [|handler_raises..]).
    intros E; inversion E; reflexivity.
  - unfold _list_collections_impl. exec_unfold.
    repeat (next_answer; [|handler_raises..]).
    intros E; inversion E; reflexivity.
  - unfold _get_collection_impl. exec_unfold.
    do 5 (next_answer; [|handler_raises..]).
    next_answer; (next_answer; [|handler_raises..]);
      intros E; inversion E; reflexivity.
  - unfold _rename_collection_impl. exec_unfold.
    repeat (next_answer; [|handler_raises..]).
    intros E; inversion E; reflexivity.
  - unfold _delete_collection_impl. exec_unfold.
    repeat (next_answer; [|handler_raises..]).
    intros E; inversion E; reflexivity.
  - unfold _peek_collection_impl. exec_unfold.
    do 4 (next_answer; [|handler_raises..]).
    match goal with
    | |- context [convert_entry "embeddings" ?d ?l] =>
        pose proof (convert_entry_log "embeddings" d l) as L1;
        destruct (convert_entry "embeddings" d l) as [[d1|e1] l1]
    end; cbn [snd] in L1; subst; [|handler_raises].
    match goal with
    | |- context [convert_entry "distances" ?d ?l] =>
        pose proof (convert_entry_log "distances" d l) as L2;
        destruct (convert_entry "distances" d l) as [[d2|e2] l2]
    end; cbn [snd] in L2; subst; [|handler_raises].
    next_answer; [|handler_raises..].
    intros E; inversion E; reflexivity.
Qed.

Lemma calls_on_success_path_witness :
  run (tool_impl (H:=validation_error_is_plain) docs_env rename_docs)
  = (Return [mkTextContent "text"
               "Collection 'docs' successfully renamed to 'notes'."],
     [call_get_collection "docs" ef_omitted; call_modify "notes"]) /\
  map method [call_get_collection "docs" ef_omitted; call_modify "notes"]
  = calls_on_success rename_docs.
Proof.
  split; [vm_compute; reflexivity|].
  apply (calls_on_success_path (H:=validation_error_is_plain) docs_env
           rename_docs
           [mkTextContent "text"
              "Collection 'docs' successfully renamed to 'notes'."]).
  vm_compute; reflexivity.
Defined.

(** The claim of C3 fails for get collection: a successful call makes
    three calls into the external library, not one. *)
Lemma get_collection_makes_three_calls :
  run (tool_impl (H:=validation_error_is_plain) docs_env get_docs)
  = (Return (text_content docs_summary),
     [call_get_collection "docs" (ef_given None); call_count; call_peek 5]) /\
  length [call_get_collection "docs" (ef_given None); call_count; call_peek 5]
  <> 1%nat.
Proof. split; [vm_compute; reflexivity | discriminate]. Qed.

(* ================================================================== *)
(** * Validation of the name *)
(* ================================================================== *)

(** The three tools with a clause for [ValidationError] answer
    [INVALID_PARAMS] (create collection with metadata where
    [json.loads] returns or raises a [ValueError], as it does on text
    that is not JSON); the three without one answer with the code of
    the clause that catches it.  None of them has called the client. *)
Lemma invalid_names_are_rejected `{ErrorClasses} {runtime : Runtime}
      (env : Env) (name msg : string) :
  validate_collection_name env name = Throws ValidationError msg ->
  let rejected (r : PyResult (list TextContent) * list Call) (c : Z) :=
    exists m, r = (Raise (McpError (mkErrorData c m)), []) in
  rejected (run (_create_collection_impl env (CreateCollectionInput.make name)))
           INVALID_PARAMS /\
  (forall metadata,
      (forall cls m, json_loads metadata = Throws cls m ->
                     is_ValueError (Foreign cls m) = true) ->
      (forall error, json_loads metadata <> Fails error) ->
      rejected (run (_create_collection_with_metadata_impl env
                       (CreateCollectionWithMetadataInput.make name metadata)))
               INVALID_PARAMS) /\
  (forall new_name,
      rejected (run (_rename_collection_impl env
                       (RenameCollectionInput.make name new_name)))
               INVALID_PARAMS) /\
  (forall old_name,
      validate_collection_name env old_name = Gives tt ->
      rejected (run (_rename_collection_impl env
                       (RenameCollectionInput.make old_name name)))
               INVALID_PARAMS) /\
  rejected (run (_get_collection_impl env (GetCollectionInput.make name)))
           unhandled_validation_code /\
  rejected (run (_delete_collection_impl env (DeleteCollectionInput.make name)))
           unhandled_validation_code /\
  (forall limit,
      rejected (run (_peek_collection_impl env
                       (PeekCollectionInput.make name limit)))
               unhandled_validation_code).
Proof.
  intros Hv rejected. subst rejected. cbv beta. repeat split.
  - eexists.
    apply (create_collection_invalid_name env
             (CreateCollectionInput.make name) msg Hv).
  - intros metadata Hve Hnf.
    apply (create_collection_with_metadata_rejected env
             (CreateCollectionWithMetadataInput.make name metadata) msg
             Hv Hve Hnf).
  - intros new_name. eexists.
    apply (rename_collection_invalid_name env
             (RenameCollectionInput.make name new_name) msg Hv).
  - intros old_name Hold. eexists.
    apply (rename_collection_invalid_new_name env
             (RenameCollectionInput.make old_name name) msg Hold Hv).
  - apply (get_collection_invalid_name env (GetCollectionInput.make name) msg Hv).
  - apply (delete_collection_invalid_name env
             (DeleteCollectionInput.make name) msg Hv).
  - intros limit.
    apply (peek_collection_invalid_name env
             (PeekCollectionInput.make name limit) msg Hv).
Qed.

(** C6, at the input where the code departs from it: with a
    [ValidationError] that is not a [ValueError], get collection on a
    name that the validator rejects raises [McpError] with code
    [INTERNAL_ERROR], not [INVALID_PARAMS]; no call into the external
    client has been made.  Delete and peek collection do the same. *)
Theorem rejected_name_is_internal_error :
  validate_collection_name strict_env "ab"
  = Throws ValidationError "Collection name must be at least 3 characters" /\
  run (_get_collection_impl (H:=validation_error_is_plain) strict_env
         (GetCollectionInput.make "ab"))
  = (Raise (McpError (mkErrorData INTERNAL_ERROR
       "Tool Error: An unexpected error occurred while getting collection 'ab'. Details: Collection name must be at least 3 characters")),
     []) /\
  run (_delete_collection_impl (H:=validation_error_is_plain) strict_env
         (DeleteCollectionInput.make "ab"))
  = (Raise (McpError (mkErrorData INTERNAL_ERROR
       "Tool Error: An unexpected error occurred deleting collection 'ab'. Details: Collection name must be at least 3 characters")),
     []) /\
  run (_peek_collection_impl (H:=validation_error_is_plain) strict_env
         (PeekCollectionInput.make "ab" None))
  = (Raise (McpError (mkErrorData INTERNAL_ERROR
       "Tool Error: An unexpected error occurred peeking collection 'ab'. Details: Collection name must be at least 3 characters")),
     []).
Proof. repeat split; vm_compute; reflexivity. Qed.

(** The sibling path: create collection reports the same rejection as
    invalid parameters. *)
Example rejected_name_in_create :
  run (_create_collection_impl (H:=validation_error_is_plain) strict_env
         (CreateCollectionInput.make "ab"))
  = (Raise (McpError (mkErrorData INVALID_PARAMS
       "Validation Error: Collection name must be at least 3 characters")),
     []).
Proof. vm_compute; reflexivity. Qed.

(** Were [ValidationError] declared as a [ValueError], get collection
    would report the rejection through its clause for [ValueError]. *)
Example rejected_name_as_value_error :
  run (_get_collection_impl (H:=validation_error_is_value_error) strict_env
         (GetCollectionInput.make "ab"))
  = (Raise (McpError (mkErrorData INVALID_PARAMS
       "Tool Error: Invalid parameter getting collection. Details: Collection name must be at least 3 characters")),
     []).
Proof. vm_compute; reflexivity. Qed.

(* ================================================================== *)
(** * Runs on the sample deployments *)
(* ================================================================== *)

(** A metadata string that is a JSON array is refused before any call. *)
Example metadata_array_is_refused :
  run (_create_collection_with_metadata_impl (H:=validation_error_is_plain)
         docs_env (CreateCollectionWithMetadataInput.make "docs" "[1, 2]"))
  = (Raise (McpError (mkErrorData INVALID_PARAMS
       "Metadata string must decode to a JSON object (dictionary).")), []).
Proof. vm_compute; reflexivity. Qed.

(** A metadata string that is cut short is refused before any call. *)
Example metadata_cut_short_is_refused :
  run (_create_collection_with_metadata_impl (H:=validation_error_is_plain)
         docs_env (CreateCollectionWithMetadataInput.make "docs" "{"))
  = (Raise (McpError (mkErrorData INVALID_PARAMS
       "Invalid JSON format for metadata field: Expecting value")), []).
Proof. vm_compute; reflexivity. Qed.

(** The empty object is passed on as the empty dictionary. *)
Example metadata_object_is_passed :
  snd (run (_create_collection_with_metadata_impl
              (H:=validation_error_is_plain) docs_env
              (CreateCollectionWithMetadataInput.make "docs" "{ }")))
  = [call_create_collection "docs" [] None false; call_count].
Proof. vm_compute; reflexivity. Qed.

Lemma reconstruct_flatten_roundtrip_witness :
  ([("hnsw:space", PStr "cosine")] <> [] /\
   PyDict.wf [("hnsw:space", PStr "cosine")] /\
   (forall k, In k (PyDict.keys [("hnsw:space", PStr "cosine")]) ->
              plain_key k)) /\
  _reconstruct_metadata (Some (flatten_settings [("hnsw:space", PStr "cosine")]))
  = [("settings", PDict [("hnsw:space", PStr "cosine")])].
Proof.
  assert (Hne : [("hnsw:space", PStr "cosine")] <> ([] : dict)) by discriminate.
  assert (Hwf : PyDict.wf [("hnsw:space", PStr "cosine")]).
  { repeat constructor. intros []. }
  assert (Hk : forall k, In k (PyDict.keys [("hnsw:space", PStr "cosine")]) ->
                         plain_key k).
  { intros k [<-|[]]. split; [discriminate | reflexivity]. }
  split; [split; [exact Hne | split; [exact Hwf | exact Hk]]|].
  exact (reconstruct_flatten_roundtrip _ Hne Hwf Hk).
Defined.

(** The claim of C9 fails for a settings dictionary whose only key is
    the empty string: the key contains no underscore, and the
    reconstruction of the flattened dictionary is empty. *)
Lemma empty_setting_key_is_lost :
  ([("", PStr "cosine")] <> ([] : dict) /\
   PyDict.wf [("", PStr "cosine")] /\
   (forall k, In k (PyDict.keys [("", PStr "cosine")]) ->
              PyStr.has_char "_" k = false)) /\
  flatten_settings [("", PStr "cosine")]
  = [("chroma:setting:", PStr "cosine")] /\
  _reconstruct_metadata (Some (flatten_settings [("", PStr "cosine")])) = [] /\
  _reconstruct_metadata (Some (flatten_settings [("", PStr "cosine")]))
  <> [("settings", PDict [("", PStr "cosine")])].
Proof.
  split; [|repeat split; (reflexivity || discriminate)].
  split; [discriminate|]. split.
  - repeat constructor. intros [].
  - intros k [<-|[]]. reflexivity.
Qed.

(* ================================================================== *)
(** * Further properties of the code *)
(* ================================================================== *)

(* ================================================================== *)
(** * Invariants of the metadata reconstruction *)
(* ================================================================== *)

Section Reconstruction.

Lemma keys_set (d : dict) (k k' : string) (v : pyval) :
  In k (PyDict.keys (PyDict.set d k' v)) <-> k = k' \/ In k (PyDict.keys d).
Proof.
  induction d as [|[k0 v0] d IH]; simpl.
  - intuition congruence.
  - destruct (String.eqb k0 k') eqn:E; simpl.
    + apply String.eqb_eq in E. subst. intuition congruence.
    + rewrite IH. intuition congruence.
Qed.

Lemma set_wf (d : dict) (k : string) (v : pyval) :
  PyDict.wf d -> PyDict.wf (PyDict.set d k v).
Proof.
  unfold PyDict.wf. induction d as [|[k0 v0] d IH]; simpl; intros Hwf.
  - constructor; [intros [] | constructor].
  - inversion Hwf as [|? ? Hnot Hd]; subst.
    destruct (String.eqb k0 k) eqn:E; simpl.
    + constructor; assumption.
    + constructor; [|now apply IH].
      intros Hin. apply (keys_set d k0 k v) in Hin as [->|Hin];
        [now rewrite String.eqb_refl in E | contradiction].
Qed.

Lemma prefix_weaken (p q s : string) :
  String.prefix (p ++ q) s = true -> String.prefix p s = true.
Proof.
  revert s. induction p as [|c p IH]; intros s; simpl.
  - now destruct s.
  - destruct s as [|a s]; [discriminate|]. simpl.
    destruct (ascii_dec c a); [apply IH | discriminate].
Qed.

(** What one turn of the loop does to the two dictionaries. *)
Lemma reconstruct_step_cases (r st : dict) (key : string) (value : pyval) :
  (exists k, k <> "" /\ reconstruct_step (r, st) (key, value)
                        = (r, PyDict.set st k value)) \/
  (internal_key key = false /\
   reconstruct_step (r, st) (key, value) = (PyDict.set r key value, st)) \/
  reconstruct_step (r, st) (key, value) = (r, st).
Proof.
  unfold reconstruct_step, internal_key.
  destruct (PyStr.startswith key "chroma:setting:") eqn:E1.
  - destruct (PyStr.replace "_" ":" _) as [|c k] eqn:Ek; cbn [PyStr.truthy].
    + assert (E2 : PyStr.startswith key "chroma:" = true)
        by (apply (prefix_weaken "chroma:" "setting:"); exact E1).
      assert (E3 : String.eqb key "description" = false).
      { apply String.eqb_neq. intros ->. discriminate E1. }
      rewrite E2, E3. right; right. reflexivity.
    + left. exists (String c k). split; [discriminate | reflexivity].
  - destruct (PyStr.startswith key "hnsw:") eqn:E2.
    + left. exists key. split; [intros ->; discriminate E2|].
      destruct key; [discriminate E2 | reflexivity].
    + destruct (String.eqb key "description") eqn:E3.
      * right; left. apply String.eqb_eq in E3. subst key.
        split; reflexivity.
      * destruct (PyStr.startswith key "chroma:") eqn:E4; cbn [negb].
        -- right; right. reflexivity.
        -- right; left. split; reflexivity.
Qed.

Lemma reconstruct_fold_wf (m : dict) (acc : dict * dict) :
  PyDict.wf (fst acc) -> PyDict.wf (snd acc) ->
  PyDict.wf (fst (fold_left reconstruct_step m acc)) /\
  PyDict.wf (snd (fold_left reconstruct_step m acc)).
Proof.
  revert acc. induction m as [|[key value] m IH]; intros [r st] Hr Hst;
    cbn [fold_left]; [now split|].
  apply IH;
    destruct (reconstruct_step_cases r st key value)
      as [[k [_ ->]] | [[_ ->] | ->]]; cbn [fst snd];
    auto using set_wf.
Qed.

Lemma reconstruct_fold_keys (m : dict) (acc : dict * dict) (k : string) :
  In k (PyDict.keys (fst (fold_left reconstruct_step m acc))) ->
  In k (PyDict.keys (fst acc)) \/
  (internal_key k = false /\ In k (PyDict.keys m)).
Proof.
  revert acc. induction m as [|[key value] m IH]; intros [r st] Hin;
    cbn [fold_left] in Hin; [now left|].
  apply IH in Hin as [Hin | [Hk Hin]]; [|right; split; [exact Hk | now right]].
  destruct (reconstruct_step_cases r st key value)
    as [[k0 [_ E]] | [[Hkey E] | E]]; rewrite E in Hin; cbn [fst] in Hin.
  - now left.
  - apply keys_set in Hin as [->|Hin]; [|now left].
    right. split; [exact Hkey | now left].
  - now left.
Qed.

Lemma reconstruct_wf (metadata : option dict) :
  PyDict.wf (_reconstruct_metadata metadata).
Proof.
  destruct metadata as [[|kv m]|]; try (constructor; fail).
  rewrite reconstruct_nonempty by discriminate.
  destruct (reconstruct_fold_wf (kv :: m) ([], [])) as [Hr Hst];
    try (constructor; fail).
  destruct (fold_left reconstruct_step (kv :: m) ([], [])) as [r st].
  cbn [fst snd] in *.
  destruct (PyDict.truthy st); [now apply set_wf | exact Hr].
Qed.

Lemma reconstruct_top_keys (metadata : option dict) (k : string) :
  In k (PyDict.keys (_reconstruct_metadata metadata)) ->
  k = "settings" \/
  (internal_key k = false /\
   exists m, metadata = Some m /\ In k (PyDict.keys m)).
Proof.
  destruct metadata as [[|kv m]|]; try (intros []; fail).
  rewrite reconstruct_nonempty by discriminate.
  pose proof (reconstruct_fold_keys (kv :: m) ([], []) k) as Hkeys.
  destruct (fold_left reconstruct_step (kv :: m) ([], [])) as [r st].
  cbn [fst] in Hkeys. intros Hin.
  assert (Hr : In k (PyDict.keys r) ->
               internal_key k = false /\
               exists m0, Some (kv :: m) = Some m0 /\ In k (PyDict.keys m0)).
  { intros Hk. destruct (Hkeys Hk) as [[]|[Hi Hm]].
    split; [exact Hi|]. exists (kv :: m). now split. }
  destruct (PyDict.truthy st).
  - apply keys_set in Hin as [->|Hin]; [now left | right; now apply Hr].
  - right. now apply Hr.
Qed.

Lemma reconstruct_step_custom (r st : dict) (key : string) (value : pyval) :
  internal_key key = false ->
  reconstruct_step (r, st) (key, value) = (PyDict.set r key value, st).
Proof.
  unfold internal_key. intros Hk.
  apply orb_false_iff in Hk as [Hc Hh].
  assert (Hs : PyStr.startswith key "chroma:setting:" = false).
  { destruct (PyStr.startswith key "chroma:setting:") eqn:E; [|reflexivity].
    apply (prefix_weaken "chroma:" "setting:") in E.
    unfold PyStr.startswith in Hc. congruence. }
  unfold reconstruct_step. rewrite Hs, Hh, Hc.
  now destruct (String.eqb key "description").
Qed.

Lemma reconstruct_fold_custom (m r : dict) :
  NoDup (PyDict.keys r ++ PyDict.keys m)%list ->
  (forall k, In k (PyDict.keys m) -> internal_key k = false) ->
  fold_left reconstruct_step m (r, []) = ((r ++ m)%list, []).
Proof.
  revert r. induction m as [|[k v] m IH]; cbn [fold_left]; intros r Hnd Hk.
  - now rewrite app_nil_r.
  - rewrite reconstruct_step_custom by (apply Hk; simpl; auto).
    rewrite set_fresh.
    + rewrite IH.
      * now rewrite <- app_assoc.
      * rewrite keys_app, <- app_assoc. exact Hnd.
      * intros k' Hin. apply Hk. now right.
    + apply mem_keys. intros Hin.
      apply NoDup_remove_2 in Hnd. apply Hnd.
      apply in_or_app. now left.
Qed.

Lemma reconstruct_custom (m : dict) :
  PyDict.wf m ->
  (forall k, In k (PyDict.keys m) -> internal_key k = false) ->
  _reconstruct_metadata (Some m) = m.
Proof.
  intros Hwf Hk. destruct m as [|kv m]; [reflexivity|].
  rewrite reconstruct_nonempty by discriminate.
  pose proof (reconstruct_fold_custom (kv :: m) [] Hwf Hk) as E.
  unfold dict in *. rewrite E. reflexivity.
Qed.

Lemma replace_twice (a b : ascii) (k : string) :
  PyStr.replace a b (PyStr.replace b a k) = PyStr.replace a b k.
Proof.
  induction k as [|c k IH]; simpl; [reflexivity|]. rewrite IH. f_equal.
  destruct (Ascii.eqb c b) eqn:Eb.
  - rewrite Ascii.eqb_refl. apply Ascii.eqb_eq in Eb. subst c.
    now destruct (Ascii.eqb b a).
  - reflexivity.
Qed.

Lemma NoDup_map_factor {A B C : Type} (f : A -> B) (h : A -> C) (l : list A) :
  (forall a b, h a = h b -> f a = f b) ->
  NoDup (map f l) -> NoDup (map h l).
Proof.
  intros Hfh. induction l as [|a l IH]; simpl; intros Hnd; [constructor|].
  inversion Hnd as [|? ? Hnot Hl]; subst. constructor; [|now apply IH].
  intros Hin. apply in_map_iff in Hin as [b [E Hb]].
  apply Hnot. apply in_map_iff. exists b. split; [|exact Hb].
  now apply Hfh.
Qed.

Lemma restored_flatten (k1 k2 : string) :
  restored_key k1 = restored_key k2 -> flatten_key k1 = flatten_key k2.
Proof.
  unfold restored_key, flatten_key. intros E. f_equal.
  rewrite <- (replace_twice ":" "_" k1), <- (replace_twice ":" "_" k2).
  now rewrite E.
Qed.

Lemma reconstruct_step_flattened (r st : dict) (k : string) (v : pyval) :
  k <> "" ->
  reconstruct_step (r, st) (flatten_key k, v)
  = (r, PyDict.set st (restored_key k) v).
Proof.
  intros Hne. unfold reconstruct_step, flatten_key, PyStr.startswith.
  rewrite prefix_app, drop_app, replace_twice.
  unfold restored_key. destruct k; [congruence | reflexivity].
Qed.

Lemma reconstruct_flattened (s r st : dict) :
  NoDup (PyDict.keys st ++ map restored_key (PyDict.keys s))%list ->
  (forall k, In k (PyDict.keys s) -> k <> "") ->
  fold_left reconstruct_step
    (map (fun kv => (flatten_key (fst kv), snd kv)) s) (r, st)
  = (r, (st ++ restored_settings s)%list).
Proof.
  revert st.
  induction s as [|[k v] s IH]; cbn [fold_left map fst snd restored_settings];
    intros st Hnd Hk.
  - now rewrite app_nil_r.
  - rewrite reconstruct_step_flattened by (apply Hk; simpl; auto).
    rewrite set_fresh.
    + rewrite IH.
      * now rewrite <- app_assoc.
      * rewrite keys_app, <- app_assoc. exact Hnd.
      * intros k' Hin. apply Hk. now right.
    + apply mem_keys. intros Hin.
      apply NoDup_remove_2 in Hnd. apply Hnd.
      apply in_or_app. now left.
Qed.

Lemma reconstruct_flatten (s : dict) :
  s <> [] ->
  (forall k, In k (PyDict.keys s) -> k <> "") ->
  NoDup (map flatten_key (PyDict.keys s)) ->
  _reconstruct_metadata (Some (flatten_settings s))
  = [("settings", PDict (restored_settings s))].
Proof.
  intros Hne Hk Hnd.
  unfold flatten_settings, PyDict.map_keys.
  rewrite map_keys_fresh by exact Hnd. cbn [app].
  rewrite reconstruct_nonempty by (destruct s; [congruence | discriminate]).
  assert (Hr : NoDup (PyDict.keys [] ++ map restored_key (PyDict.keys s))%list).
  { cbn [PyDict.keys map app].
    apply (NoDup_map_factor flatten_key restored_key);
      [exact restored_flatten | exact Hnd]. }
  pose proof (reconstruct_flattened s [] [] Hr Hk) as E.
  unfold dict in *. rewrite E.
  destruct s; [congruence | reflexivity].
Qed.

End Reconstruction.

(** X2: a key at the top level of the reconstructed dictionary is either
    "settings" or a key of the metadata that starts neither with
    "chroma:" nor with "hnsw:": the internal keys of Chroma never show,
    and the raw settings never stay at the top. *)
Theorem reconstruct_hides_internal_keys (metadata : option dict) (k : string) :
  In k (PyDict.keys (_reconstruct_metadata metadata)) ->
  k = "settings" \/
  (internal_key k = false /\
   exists m, metadata = Some m /\ In k (PyDict.keys m)).
Proof. exact (reconstruct_top_keys metadata k). Qed.

Lemma reconstruct_hides_internal_keys_witness :
  In "owner"
     (PyDict.keys
        (_reconstruct_metadata
           (Some [ ("chroma:setting:hnsw_space", PStr "cosine");
                   ("chroma:version", PInt 2);
                   ("owner", PStr "ann") ]))) /\
  ("owner" = "settings" \/
   (internal_key "owner" = false /\
    exists m,
      Some [ ("chroma:setting:hnsw_space", PStr "cosine");
             ("chroma:version", PInt 2);
             ("owner", PStr "ann") ] = Some m /\
      In "owner" (PyDict.keys m))).
Proof.
  assert (Hin : In "owner"
                  (PyDict.keys
                     (_reconstruct_metadata
                        (Some [ ("chroma:setting:hnsw_space", PStr "cosine");
                                ("chroma:version", PInt 2);
                                ("owner", PStr "ann") ]))))
    by (simpl; auto).
  split; [exact Hin|].
  apply (reconstruct_hides_internal_keys _ "owner" Hin).
Defined.

(** X3: metadata whose keys are distinct and start neither with
    "chroma:" nor with "hnsw:" is returned as it is, in the same
    order. *)
Theorem reconstruct_custom_metadata_unchanged (m : dict) :
  PyDict.wf m ->
  (forall k, In k (PyDict.keys m) -> internal_key k = false) ->
  _reconstruct_metadata (Some m) = m.
Proof. exact (reconstruct_custom m). Qed.

Lemma reconstruct_custom_metadata_unchanged_witness :
  (PyDict.wf described /\
   (forall k, In k (PyDict.keys described) -> internal_key k = false)) /\
  _reconstruct_metadata (Some described) = described.
Proof.
  assert (Hwf : PyDict.wf described).
  { unfold PyDict.wf. simpl.
    repeat constructor; simpl; intuition discriminate. }
  assert (Hk : forall k, In k (PyDict.keys described) ->
                         internal_key k = false).
  { simpl. intros k [<-|[<-|[]]]; reflexivity. }
  split; [split; [exact Hwf | exact Hk]|].
  apply (reconstruct_custom_metadata_unchanged described Hwf Hk).
Defined.

(** X4: reconstructing a second time changes nothing. *)
Theorem reconstruct_idempotent (metadata : option dict) :
  _reconstruct_metadata (Some (_reconstruct_metadata metadata))
  = _reconstruct_metadata metadata.
Proof.
  apply reconstruct_custom; [apply reconstruct_wf|].
  intros k Hin.
  destruct (reconstruct_top_keys metadata k Hin) as [-> | [Hk _]];
    [reflexivity | exact Hk].
Qed.

(** X5: for every non-empty settings dictionary with non-empty keys whose
    flattened forms are distinct, reconstructing the flattened metadata
    gives the single key "settings", bound to the settings in their
    order with every underscore of a key turned into a colon. *)
Theorem reconstruct_flatten_restores (s : dict) :
  s <> [] ->
  (forall k, In k (PyDict.keys s) -> k <> "") ->
  NoDup (map flatten_key (PyDict.keys s)) ->
  _reconstruct_metadata (Some (flatten_settings s))
  = [("settings", PDict (restored_settings s))].
Proof. exact (reconstruct_flatten s). Qed.

Lemma reconstruct_flatten_restores_witness :
  (hnsw_defaults <> [] /\
   (forall k, In k (PyDict.keys hnsw_defaults) -> k <> "") /\
   NoDup (map flatten_key (PyDict.keys hnsw_defaults))) /\
  _reconstruct_metadata (Some (flatten_settings hnsw_defaults))
  = [("settings",
      PDict [ ("hnsw:space", PStr "cosine");
              ("hnsw:construction:ef", PInt 100);
              ("hnsw:search:ef", PInt 10);
              ("hnsw:M", PInt 16) ])].
Proof.
  assert (H1 : hnsw_defaults <> []) by discriminate.
  assert (H2 : forall k, In k (PyDict.keys hnsw_defaults) -> k <> "").
  { simpl. intros k [<-|[<-|[<-|[<-|[]]]]]; discriminate. }
  assert (H3 : NoDup (map flatten_key (PyDict.keys hnsw_defaults))).
  { simpl. repeat constructor; simpl; intuition discriminate. }
  split; [split; [exact H1 | split; [exact H2 | exact H3]]|].
  apply (reconstruct_flatten_restores hnsw_defaults H1 H2 H3).
Defined.


(* ================================================================== *)
(** * Pages and filter of the listing *)
(* ================================================================== *)

Section ListingResult.
Context {runtime : Runtime}.
Variable env : Env.

(** Every name that passed the filter is a name of the client. *)
Lemma filtered_names_in (name_contains : option string)
      (names : list string) (name : string) :
  In name (filtered_names name_contains names) -> In name names.
Proof.
  unfold filtered_names.
  destruct name_contains as [nc|]; [|trivial].
  destruct (PyStr.truthy nc); [|trivial].
  intros Hin. now apply filter_In in Hin.
Qed.

End ListingResult.

(** X6: with a valid input and a client that lists its collections, the
    page of the listing is what is left of the matching names after
    skipping [offset] of them, cut to its first [limit] names; it is
    never longer than [limit] nor than [total_count], and every name on
    it is a name of the client.  The listing returns the text that
    [json.dumps] gives for the result with this page. *)
Theorem list_page_skips_then_takes {runtime : Runtime} (env : Env)
        (input_data : ListCollectionsInput.t)
        (client : Client) (names : list string) :
  ListCollectionsInput.valid input_data ->
  get_chroma_client env = Gives client ->
  list_collections client = Gives names ->
  let limit := ListCollectionsInput.limit input_data in
  let offset := ListCollectionsInput.offset input_data in
  exists filtered page,
    keeps_matching (ListCollectionsInput.name_contains input_data)
      names filtered /\
    page = page_of filtered offset limit /\
    (length page <= length filtered)%nat /\
    (forall l, limit = Some l -> (length page <= Z.to_nat l)%nat) /\
    (forall name, In name page -> In name names) /\
    forall result_json,
      json_dumps (Some 2%nat)
        (PDict (list_result_data page (length filtered) limit offset))
      = Gives result_json ->
      run (_list_collections_impl env input_data)
      = (Return (text_content result_json), [call_list_collections]).
Proof.
  intros Hvalid Hclient Hnames limit offset.
  exists (filtered_names (ListCollectionsInput.name_contains input_data) names).
  eexists. split; [apply filtered_names_keeps|].
  split; [reflexivity|].
  split; [apply page_of_length|]. split; [apply page_of_length|].
  split.
  - intros name Hin. apply page_of_in in Hin.
    now apply filtered_names_in in Hin.
  - intros result_json Hjson.
    rewrite (list_collections_run env input_data client names
               Hvalid Hclient Hnames).
    fold limit. fold offset. now rewrite Hjson.
Qed.

Lemma list_page_skips_then_takes_witness :
  (ListCollectionsInput.valid second_ap_page /\
   get_chroma_client fruit_env = Gives fruit_client /\
   list_collections fruit_client = Gives fruit_names) /\
  exists filtered page,
    keeps_matching (Some "ap") fruit_names filtered /\
    page = page_of filtered (Some 1) (Some 2) /\
    (length page <= length filtered)%nat /\
    (forall l, Some 2 = Some l -> (length page <= Z.to_nat l)%nat) /\
    (forall name, In name page -> In name fruit_names) /\
    forall result_json,
      json_dumps (Some 2%nat)
        (PDict (list_result_data page (length filtered) (Some 2) (Some 1)))
      = Gives result_json ->
      run (_list_collections_impl fruit_env second_ap_page)
      = (Return (text_content result_json), [call_list_collections]).
Proof.
  assert (Hvalid : ListCollectionsInput.valid second_ap_page).
  { split; intros x E; inversion E; lia. }
  split; [split; [exact Hvalid | split; reflexivity]|].
  apply (list_page_skips_then_takes
           fruit_env second_ap_page fruit_client
           fruit_names Hvalid eq_refl eq_refl).
Defined.

(** X7: a listing with [limit = 0] returns no name at all, while
    [total_count] still counts every matching name: zero is not read as
    the absence of a limit. *)
Theorem list_limit_zero_returns_nothing {runtime : Runtime} (env : Env)
        (offset : option Z) (name_contains : option string)
        (client : Client) (names : list string) :
  (forall o, offset = Some o -> 0 <= o) ->
  get_chroma_client env = Gives client ->
  list_collections client = Gives names ->
  exists filtered,
    keeps_matching name_contains names filtered /\
    forall result_json,
      json_dumps (Some 2%nat)
        (PDict [ ("collection_names", PList []);
                 ("total_count", PInt (Z.of_nat (length filtered)));
                 ("limit", PInt 0);
                 ("offset", opt_int offset) ])
      = Gives result_json ->
      run (_list_collections_impl env
             (ListCollectionsInput.make (Some 0) offset name_contains))
      = (Return (text_content result_json), [call_list_collections]).
Proof.
  intros Hoff Hclient Hnames.
  assert (Hvalid : ListCollectionsInput.valid
                     (ListCollectionsInput.make (Some 0) offset name_contains)).
  { split; [intros l E; inversion E; lia | exact Hoff]. }
  exists (filtered_names name_contains names).
  split; [apply filtered_names_keeps|].
  intros result_json Hjson.
  rewrite (list_collections_run env _ client names Hvalid Hclient Hnames).
  cbn [ListCollectionsInput.limit ListCollectionsInput.offset
       ListCollectionsInput.name_contains].
  unfold list_result_data, page_of. cbn [Z.to_nat firstn map opt_int].
  now rewrite Hjson.
Qed.

Lemma list_limit_zero_returns_nothing_witness :
  ((forall o, @None Z = Some o -> 0 <= o) /\
   get_chroma_client fruit_env = Gives fruit_client /\
   list_collections fruit_client = Gives fruit_names) /\
  exists filtered,
    keeps_matching None fruit_names filtered /\
    forall result_json,
      json_dumps (Some 2%nat)
        (PDict [ ("collection_names", PList []);
                 ("total_count", PInt (Z.of_nat (length filtered)));
                 ("limit", PInt 0);
                 ("offset", opt_int None) ])
      = Gives result_json ->
      run (_list_collections_impl fruit_env
             (ListCollectionsInput.make (Some 0) None None))
      = (Return (text_content result_json), [call_list_collections]).
Proof.
  assert (Hoff : forall o, @None Z = Some o -> 0 <= o) by (intros o E; discriminate E).
  split; [split; [exact Hoff | split; reflexivity]|].
  apply (list_limit_zero_returns_nothing
           fruit_env None None fruit_client fruit_names Hoff eq_refl eq_refl).
Defined.

(** X8: the filter of the listing ignores the letter case of
    [name_contains]: two requests that differ only in the case of its
    letters give the same result. *)
Theorem list_filter_ignores_case (env : Env)
        (limit offset : option Z) (nc nc' : string) :
  PyStr.lower nc = PyStr.lower nc' ->
  run (_list_collections_impl env
         (ListCollectionsInput.make limit offset (Some nc)))
  = run (_list_collections_impl env
           (ListCollectionsInput.make limit offset (Some nc'))).
Proof.
  intros E. unfold _list_collections_impl. exec_unfold.
  cbn [ListCollectionsInput.limit ListCollectionsInput.offset
       ListCollectionsInput.name_contains].
  destruct (get_chroma_client env) as [client| |]; [|reflexivity..].
  destruct (list_collections client) as [names| |]; [|reflexivity..].
  destruct nc, nc'; try discriminate E; [reflexivity|].
  cbn [PyStr.truthy andb]. now rewrite E.
Qed.

Lemma list_filter_ignores_case_witness :
  PyStr.lower "AP" = PyStr.lower "ap" /\
  run (_list_collections_impl fruit_env
         (ListCollectionsInput.make (Some 2) (Some 1) (Some "AP")))
  = run (_list_collections_impl fruit_env
           (ListCollectionsInput.make (Some 2) (Some 1) (Some "ap"))).
Proof.
  split; [reflexivity|].
  apply (list_filter_ignores_case
           fruit_env (Some 2) (Some 1) "AP" "ap" eq_refl).
Defined.

(** X9: whatever fails during a listing, the accessor of the client, the
    client itself (even with a [ValueError]) or the serialization, the
    error raised carries the code [INTERNAL_ERROR] and a message that
    starts with "Tool Error: Error listing collections. Details: ": the
    listing never reports [INVALID_PARAMS]. *)
Theorem list_failure_is_internal_error {runtime : Runtime} (env : Env)
        (input_data : ListCollectionsInput.t) (e : PyExc) (log : list Call) :
  run (_list_collections_impl env input_data) = (Raise e, log) ->
  exists detail,
    e = McpError
          (mkErrorData INTERNAL_ERROR
             ("Tool Error: Error listing collections. Details: " ++ detail)).
Proof.
  unfold _list_collections_impl. exec_unfold.
  repeat (next_answer;
          [|intros E; inversion E; eexists; reflexivity..]).
  intros E; inversion E.
Qed.

Lemma list_failure_is_internal_error_witness :
  run (_list_collections_impl unlisted_env
         (ListCollectionsInput.make None None None))
  = (Raise (McpError
              (mkErrorData INTERNAL_ERROR
                 "Tool Error: Error listing collections. Details: Could not connect to tenant")),
     [call_list_collections]) /\
  exists detail,
    McpError
      (mkErrorData INTERNAL_ERROR
         "Tool Error: Error listing collections. Details: Could not connect to tenant")
    = McpError
        (mkErrorData INTERNAL_ERROR
           ("Tool Error: Error listing collections. Details: " ++ detail)).
Proof.
  split; [reflexivity|].
  apply (list_failure_is_internal_error
           unlisted_env (ListCollectionsInput.make None None None) _
           [call_list_collections] eq_refl).
Defined.

(* ================================================================== *)
(** * Classification of the client's errors *)
(* ================================================================== *)

Section Classification.
Context `{ErrorClasses}.
Context {runtime : Runtime}.
Variable env : Env.

Lemma not_validation_error cls msg :
  cls <> ValidationError -> is_ValidationError (Foreign cls msg) = false.
Proof. destruct cls; [congruence | reflexivity..]. Qed.

Lemma rename_collection_value_error i client cls msg :
  let original_name := RenameCollectionInput.collection_name i in
  let new_name := RenameCollectionInput.new_name i in
  validate_collection_name env original_name = Gives tt ->
  validate_collection_name env new_name = Gives tt ->
  get_chroma_client env = Gives client ->
  renaming_raises client original_name new_name cls msg ->
  cls <> ValidationError ->
  is_ValueError (Foreign cls msg) = true ->
  fst (run (_rename_collection_impl env i))
  = Raise (invalid_params
             (if says_not_found original_name msg
              then not_found_message original_name
              else if says_new_name_exists new_name msg
                   then "Tool Error: Collection name '" ++ new_name
                        ++ "' already exists."
                   else "Tool Error: Invalid parameter during rename. Details: "
                        ++ msg)).
Proof.
  intros original_name new_name Hv Hv' Hc Hr Hcls Hve.
  pose proof (not_validation_error cls msg Hcls) as Hval.
  unfold _rename_collection_impl. exec_unfold.
  fold original_name. fold new_name.
  rewrite Hv, Hv', Hc. cbv beta iota zeta.
  unfold says_not_found, says_new_name_exists, not_found_message,
    invalid_params.
  destruct Hr as [Hr | [c [Hr Hn]]]; rewrite Hr; cbv beta iota zeta;
    [|rewrite Hn; cbv beta iota zeta];
    cbn [exc_str fst]; rewrite Hval, Hve;
    repeat match goal with
           | |- context [if ?b then _ else _] => destruct b
           end; reflexivity.
Qed.

Lemma rename_collection_unexpected i client cls msg :
  let original_name := RenameCollectionInput.collection_name i in
  let new_name := RenameCollectionInput.new_name i in
  validate_collection_name env original_name = Gives tt ->
  validate_collection_name env new_name = Gives tt ->
  get_chroma_client env = Gives client ->
  renaming_raises client original_name new_name cls msg ->
  cls <> ValidationError ->
  is_ValueError (Foreign cls msg) = false ->
  fst (run (_rename_collection_impl env i))
  = Raise (unexpected_error "renaming" original_name msg).
Proof.
  intros original_name new_name Hv Hv' Hc Hr Hcls Hve.
  pose proof (not_validation_error cls msg Hcls) as Hval.
  unfold _rename_collection_impl. exec_unfold.
  fold original_name. fold new_name.
  rewrite Hv, Hv', Hc. cbv beta iota zeta.
  destruct Hr as [Hr | [c [Hr Hn]]]; rewrite Hr; cbv beta iota zeta;
    [|rewrite Hn; cbv beta iota zeta];
    cbn [exc_str fst]; rewrite Hval, Hve; reflexivity.
Qed.

Lemma get_collection_unexpected i client ef cls msg :
  let name := GetCollectionInput.collection_name i in
  validate_collection_name env name = Gives tt ->
  get_chroma_client env = Gives client ->
  get_embedding_function env = Gives ef ->
  lookup_raises client name ef cls msg ->
  is_ValueError (Foreign cls msg) = false ->
  fst (run (_get_collection_impl env i))
  = Raise (unexpected_error "while getting" name msg).
Proof.
  intros name Hv Hc Hef Hr Hve.
  unfold _get_collection_impl. exec_unfold. fold name.
  rewrite Hv, Hc, Hef. cbv beta iota zeta.
  destruct Hr as [Hr | [c [Hr Hn]]]; rewrite Hr; cbv beta iota zeta;
    [|rewrite Hn; cbv beta iota zeta];
    cbn [exc_str fst]; rewrite Hve; reflexivity.
Qed.

Lemma delete_collection_unexpected i client cls msg :
  let name := DeleteCollectionInput.collection_name i in
  validate_collection_name env name = Gives tt ->
  get_chroma_client env = Gives client ->
  delete_collection client name = Throws cls msg ->
  is_ValueError (Foreign cls msg) = false ->
  fst (run (_delete_collection_impl env i))
  = Raise (unexpected_error "deleting" name msg).
Proof.
  intros name Hv Hc Hr Hve.
  unfold _delete_collection_impl. exec_unfold. fold name.
  rewrite Hv, Hc, Hr. cbv beta iota zeta.
  cbn [exc_str fst]; rewrite Hve; reflexivity.
Qed.

Lemma peek_collection_unexpected i client cls msg :
  let name := PeekCollectionInput.collection_name i in
  let limit := match PeekCollectionInput.limit i with
               | Some l => l
               | None => 10
               end in
  validate_collection_name env name = Gives tt ->
  get_chroma_client env = Gives client ->
  sampling_raises client name limit cls msg ->
  is_ValueError (Foreign cls msg) = false ->
  fst (run (_peek_collection_impl env i))
  = Raise (unexpected_error "peeking" name msg).
Proof.
  intros name limit Hv Hc Hr Hve.
  unfold _peek_collection_impl. exec_unfold. fold name. fold limit.
  rewrite Hv, Hc. cbv beta iota zeta.
  destruct Hr as [Hr | [c [Hr Hn]]]; rewrite Hr; cbv beta iota zeta;
    [|fold limit; rewrite Hn; cbv beta iota zeta];
    cbn [exc_str fst]; rewrite Hve; reflexivity.
Qed.

(** What the handler of create collection does with an exception that
    the client raised. *)
Lemma create_collection_client_error i client ef settings cls msg :
  let name := CreateCollectionInput.collection_name i in
  validate_collection_name env name = Gives tt ->
  get_chroma_client env = Gives client ->
  get_embedding_function env = Gives ef ->
  get_collection_settings env = Gives settings ->
  creation_raises client name (flatten_settings settings) ef cls msg ->
  cls <> ValidationError ->
  fst (run (_create_collection_impl env i))
  = Raise
      (if is_ValueError (Foreign cls msg) then
         if says_already_exists name msg then already_exists_error name
         else invalid_params
                ("Tool Error: Invalid parameter during collection creation. Details: "
                 ++ msg)
       else if is_InvalidDimensionException (Foreign cls msg) then
         McpError (mkErrorData INTERNAL_ERROR
                     ("ChromaDB Error: Invalid dimension configuration. "
                      ++ msg))
       else unexpected_error "while creating" name msg).
Proof.
  intros name Hv Hc Hef Hs Hr Hcls.
  pose proof (not_validation_error cls msg Hcls) as Hval.
  unfold _create_collection_impl. exec_unfold. fold name.
  rewrite Hv, Hc, Hef, Hs. cbv beta iota zeta.
  unfold says_already_exists, already_exists_error, invalid_params.
  destruct Hr as [Hr | [c [Hr Hn]]]; rewrite Hr; cbv beta iota zeta;
    [|rewrite Hn; cbv beta iota zeta];
    cbn [exc_str fst]; rewrite Hval;
    repeat match goal with
           | |- context [if ?b then _ else _] => destruct b
           end; reflexivity.
Qed.

(** The handler of create collection with metadata looks at the message
    only. *)
Lemma create_collection_with_metadata_client_error i d client ef cls msg :
  let name := CreateCollectionWithMetadataInput.collection_name i in
  json_loads (CreateCollectionWithMetadataInput.metadata i) = Gives (PDict d) ->
  validate_collection_name env name = Gives tt ->
  get_embedding_function env = Gives ef ->
  get_chroma_client env = Gives client ->
  creation_raises client name d ef cls msg ->
  cls <> ValidationError ->
  fst (run (_create_collection_with_metadata_impl env i))
  = Raise (if says_already_exists name msg then already_exists_error name
           else unexpected_error "while creating" name msg).
Proof.
  intros name Hd Hv Hef Hc Hr Hcls.
  pose proof (not_validation_error cls msg Hcls) as Hval.
  unfold _create_collection_with_metadata_impl. exec_unfold. fold name.
  rewrite Hd. cbv beta iota zeta.
  rewrite Hv, Hef, Hc. cbv beta iota zeta.
  unfold says_already_exists, already_exists_error.
  destruct Hr as [Hr | [c [Hr Hn]]]; rewrite Hr; cbv beta iota zeta;
    [|rewrite Hn; cbv beta iota zeta];
    cbn [exc_str fst is_McpError]; rewrite Hval;
    match goal with
    | |- context [if ?b then _ else _] => destruct b
    end; reflexivity.
Qed.

End Classification.

Section Capitals.

Lemma lower_ascii_not_upper (c : ascii) : is_upper (PyStr.lower_ascii c) = false.
Proof. destruct c as [[] [] [] [] [] [] [] []]; reflexivity. Qed.

Lemma has_char_lower (c : ascii) (s : string) :
  is_upper c = true -> PyStr.has_char c (PyStr.lower s) = false.
Proof.
  intros Hc. induction s as [|a s IH]; simpl; [reflexivity|].
  rewrite IH, orb_false_r. apply Ascii.eqb_neq. intros E.
  pose proof (lower_ascii_not_upper a) as Hn. rewrite E in Hn. congruence.
Qed.

Lemma has_char_app (c : ascii) (s t : string) :
  PyStr.has_char c (s ++ t) = (PyStr.has_char c s || PyStr.has_char c t)%bool.
Proof.
  induction s as [|a s IH]; simpl; [reflexivity|].
  now rewrite IH, orb_assoc.
Qed.

Lemma has_char_prefix (c : ascii) (p s : string) :
  String.prefix p s = true -> PyStr.has_char c p = true ->
  PyStr.has_char c s = true.
Proof.
  revert s. induction p as [|a p IH]; intros s; simpl;
    [intros _ Hc; discriminate Hc|].
  destruct s as [|b s]; simpl; [discriminate|].
  destruct (ascii_dec a b) as [->|]; [|discriminate].
  intros Hp Hc. apply orb_true_iff in Hc as [Hc|Hc].
  - now rewrite Hc.
  - rewrite (IH s Hp Hc). apply orb_true_r.
Qed.

Lemma has_char_contains (c : ascii) (p s : string) :
  PyStr.contains p s = true -> PyStr.has_char c p = true ->
  PyStr.has_char c s = true.
Proof.
  induction s as [|a s IH]; cbn [PyStr.contains]; intros Hs Hc.
  - apply orb_true_iff in Hs as [Hs|Hs]; [|discriminate].
    now apply (has_char_prefix c p "").
  - apply orb_true_iff in Hs as [Hs|Hs].
    + now apply (has_char_prefix c p (String a s)).
    + simpl. rewrite (IH Hs Hc). apply orb_true_r.
Qed.

Lemma has_upper_char (s : string) :
  has_upper s = true ->
  exists c, is_upper c = true /\ PyStr.has_char c s = true.
Proof.
  induction s as [|a s IH]; simpl; [discriminate|]. intros Hs.
  apply orb_true_iff in Hs as [Hs|Hs].
  - exists a. now rewrite Ascii.eqb_refl.
  - destruct (IH Hs) as [c [Hc Hin]]. exists c.
    rewrite Hin. split; [exact Hc | apply orb_true_r].
Qed.

(** A pattern built around a name with a capital letter is not found in
    a lowercased message. *)
Lemma capital_never_matches (before name after msg : string) :
  has_upper name = true ->
  PyStr.contains (before ++ name ++ after) (PyStr.lower msg) = false.
Proof.
  intros Hu. destruct (has_upper_char name Hu) as [c [Hc Hin]].
  destruct (PyStr.contains _ _) eqn:E; [|reflexivity].
  apply (has_char_contains c) in E.
  - now rewrite (has_char_lower c msg Hc) in E.
  - rewrite !has_char_app, Hin. now rewrite orb_true_r.
Qed.

Lemma capital_says_not_found (name msg : string) :
  has_upper name = true ->
  says_not_found name msg = false /\
  says_not_found_on_delete name msg = false /\
  says_new_name_exists name msg = false.
Proof.
  intros Hu. unfold says_not_found, says_not_found_on_delete,
    says_new_name_exists. cbn [str_lower reference_runtime].
  now rewrite !(capital_never_matches _ name _ msg Hu).
Qed.

End Capitals.

Section GeneralMessages.
Context `{ErrorClasses}.
Context {runtime : Runtime}.
Variable env : Env.

Lemma get_collection_generic i client ef cls msg :
  let name := GetCollectionInput.collection_name i in
  validate_collection_name env name = Gives tt ->
  get_chroma_client env = Gives client ->
  get_embedding_function env = Gives ef ->
  lookup_raises client name ef cls msg ->
  is_ValueError (Foreign cls msg) = true ->
  says_not_found name msg = false ->
  fst (run (_get_collection_impl env i))
  = Raise (invalid_params
             ("Tool Error: Invalid parameter getting collection. Details: "
              ++ msg)).
Proof.
  intros name Hv Hc Hef Hr Hve Hsays.
  unfold _get_collection_impl. exec_unfold. fold name.
  rewrite Hv, Hc, Hef. cbv beta iota zeta.
  unfold says_not_found in Hsays.
  destruct Hr as [Hr | [c [Hr Hn]]]; rewrite Hr; cbv beta iota zeta;
    [|rewrite Hn; cbv beta iota zeta];
    cbn [exc_str fst]; rewrite Hve, Hsays; reflexivity.
Qed.

Lemma delete_collection_generic i client cls msg :
  let name := DeleteCollectionInput.collection_name i in
  validate_collection_name env name = Gives tt ->
  get_chroma_client env = Gives client ->
  delete_collection client name = Throws cls msg ->
  is_ValueError (Foreign cls msg) = true ->
  says_not_found_on_delete name msg = false ->
  fst (run (_delete_collection_impl env i))
  = Raise (invalid_params
             ("Tool Error: Invalid parameter deleting collection. Details: "
              ++ msg)).
Proof.
  intros name Hv Hc Hr Hve Hsays.
  unfold _delete_collection_impl. exec_unfold. fold name.
  rewrite Hv, Hc, Hr. cbv beta iota zeta.
  unfold says_not_found_on_delete in Hsays.
  cbn [exc_str fst]; rewrite Hve, Hsays; reflexivity.
Qed.

Lemma peek_collection_generic i client cls msg :
  let name := PeekCollectionInput.collection_name i in
  let limit := match PeekCollectionInput.limit i with
               | Some l => l
               | None => 10
               end in
  validate_collection_name env name = Gives tt ->
  get_chroma_client env = Gives client ->
  sampling_raises client name limit cls msg ->
  is_ValueError (Foreign cls msg) = true ->
  says_not_found name msg = false ->
  fst (run (_peek_collection_impl env i))
  = Raise (invalid_params
             ("Tool Error: Problem accessing collection '" ++ name
              ++ "'. Details: " ++ msg)).
Proof.
  intros name limit Hv Hc Hr Hve Hsays.
  unfold _peek_collection_impl. exec_unfold. fold name. fold limit.
  rewrite Hv, Hc. cbv beta iota zeta.
  unfold says_not_found in Hsays.
  destruct Hr as [Hr | [c [Hr Hn]]]; rewrite Hr; cbv beta iota zeta;
    [|fold limit; rewrite Hn; cbv beta iota zeta];
    cbn [exc_str fst]; rewrite Hve, Hsays; reflexivity.
Qed.

End GeneralMessages.

(** X10: a [ValueError] raised by the client during a rename, in
    [get_collection] or in [modify], is reported with the code
    [INVALID_PARAMS]: as "Collection 'ORIGINAL' not found." when the
    message, lowercased by [str.lower], says that the original
    collection is missing;
    if not, as "Collection name 'NEW' already exists." when it says that
    the new name is taken; otherwise with the message of the client
    after "Invalid parameter during rename. Details: ". *)
Theorem rename_value_error_is_classified `{ErrorClasses} {runtime : Runtime}
        (env : Env)
        (original_name new_name : string) (client : Client)
        (cls : ExcClass) (msg : string) :
  validate_collection_name env original_name = Gives tt ->
  validate_collection_name env new_name = Gives tt ->
  get_chroma_client env = Gives client ->
  renaming_raises client original_name new_name cls msg ->
  cls <> ValidationError ->
  is_ValueError (Foreign cls msg) = true ->
  fst (run (_rename_collection_impl env
              (RenameCollectionInput.make original_name new_name)))
  = Raise (invalid_params
             (if says_not_found original_name msg
              then "Tool Error: Collection '" ++ original_name
                   ++ "' not found."
              else if says_new_name_exists new_name msg
                   then "Tool Error: Collection name '" ++ new_name
                        ++ "' already exists."
                   else "Tool Error: Invalid parameter during rename. Details: "
                        ++ msg)).
Proof.
  intros Hv Hv' Hc Hr Hcls Hve.
  apply (rename_collection_value_error env
           (RenameCollectionInput.make original_name new_name)
           client cls msg Hv Hv' Hc Hr Hcls Hve).
Qed.

Lemma rename_value_error_is_classified_witness :
  (validate_collection_name crowded_env "docs" = Gives tt /\
   validate_collection_name crowded_env "notes" = Gives tt /\
   get_chroma_client crowded_env = Gives crowded_client /\
   renaming_raises crowded_client "docs" "notes" ValueError
     "Collection notes already exists." /\
   ValueError <> ValidationError /\
   is_ValueError (H:=validation_error_is_plain)
     (Foreign ValueError "Collection notes already exists.") = true) /\
  fst (run (_rename_collection_impl (H:=validation_error_is_plain) crowded_env
              (RenameCollectionInput.make "docs" "notes")))
  = Raise (invalid_params
             "Tool Error: Collection name 'notes' already exists.").
Proof.
  assert (Hr : renaming_raises crowded_client "docs" "notes" ValueError
                 "Collection notes already exists.")
    by (right; exists crowded; split; reflexivity).
  assert (Hne : ValueError <> ValidationError) by discriminate.
  split; [split; [reflexivity | split; [reflexivity | split; [reflexivity |
          split; [exact Hr | split; [exact Hne | reflexivity]]]]]|].
  apply (rename_value_error_is_classified (H:=validation_error_is_plain)
           (runtime:=reference_runtime) crowded_env "docs" "notes" crowded_client ValueError
           "Collection notes already exists." eq_refl eq_refl eq_refl
           Hr Hne eq_refl).
Defined.

(** X11: an exception that is neither a [ValueError] nor a
    [ValidationError], raised by the client in [get_collection] or
    [count] (get collection), in [get_collection] or [modify] (rename),
    in [delete_collection] (delete), in [get_collection] or [peek] (peek
    collection), makes the operation raise [McpError] with the code
    [INTERNAL_ERROR] and the message "Tool Error: An unexpected error
    occurred ... collection 'NAME'. Details: " followed by the message
    of the exception.  The sampling [peek] inside get collection is not
    concerned: what it raises is caught on the spot. *)
Theorem unexpected_client_error_is_internal `{ErrorClasses} {runtime : Runtime}
        (env : Env)
        (name : string) (client : Client) (cls : ExcClass) (msg : string) :
  validate_collection_name env name = Gives tt ->
  get_chroma_client env = Gives client ->
  cls <> ValidationError ->
  is_ValueError (Foreign cls msg) = false ->
  (forall ef,
      get_embedding_function env = Gives ef ->
      lookup_raises client name ef cls msg ->
      fst (run (_get_collection_impl env (GetCollectionInput.make name)))
      = Raise (unexpected_error "while getting" name msg)) /\
  (forall new_name,
      validate_collection_name env new_name = Gives tt ->
      renaming_raises client name new_name cls msg ->
      fst (run (_rename_collection_impl env
                  (RenameCollectionInput.make name new_name)))
      = Raise (unexpected_error "renaming" name msg)) /\
  (delete_collection client name = Throws cls msg ->
   fst (run (_delete_collection_impl env (DeleteCollectionInput.make name)))
   = Raise (unexpected_error "deleting" name msg)) /\
  (forall limit,
      sampling_raises client name
        (match limit with Some l => l | None => 10 end) cls msg ->
      fst (run (_peek_collection_impl env
                  (PeekCollectionInput.make name limit)))
      = Raise (unexpected_error "peeking" name msg)).
Proof.
  intros Hv Hc Hcls Hve. split; [|split; [|split]].
  - intros ef Hef Hr.
    apply (get_collection_unexpected env (GetCollectionInput.make name)
             client ef cls msg Hv Hc Hef Hr Hve).
  - intros new_name Hv' Hr.
    apply (rename_collection_unexpected env
             (RenameCollectionInput.make name new_name)
             client cls msg Hv Hv' Hc Hr Hcls Hve).
  - intros Hr.
    apply (delete_collection_unexpected env (DeleteCollectionInput.make name)
             client cls msg Hv Hc Hr Hve).
  - intros limit Hr.
    apply (peek_collection_unexpected env
             (PeekCollectionInput.make name limit) client cls msg Hv Hc Hr Hve).
Qed.

Lemma unexpected_client_error_is_internal_witness :
  (validate_collection_name offline_env "docs" = Gives tt /\
   get_chroma_client offline_env = Gives offline_client /\
   OtherException <> ValidationError /\
   is_ValueError (H:=validation_error_is_plain)
     (Foreign OtherException "connection lost") = false) /\
  fst (run (_get_collection_impl (H:=validation_error_is_plain) offline_env
              (GetCollectionInput.make "docs")))
  = Raise (unexpected_error "while getting" "docs" "connection lost") /\
  fst (run (_rename_collection_impl (H:=validation_error_is_plain) offline_env
              (RenameCollectionInput.make "docs" "notes")))
  = Raise (unexpected_error "renaming" "docs" "connection lost") /\
  fst (run (_delete_collection_impl (H:=validation_error_is_plain) offline_env
              (DeleteCollectionInput.make "docs")))
  = Raise (unexpected_error "deleting" "docs" "connection lost") /\
  fst (run (_peek_collection_impl (H:=validation_error_is_plain) offline_env
              (PeekCollectionInput.make "docs" None)))
  = Raise (unexpected_error "peeking" "docs" "connection lost").
Proof.
  assert (Hne : OtherException <> ValidationError) by discriminate.
  destruct (unexpected_client_error_is_internal
              (H:=validation_error_is_plain) offline_env "docs" offline_client
              OtherException "connection lost" eq_refl eq_refl Hne eq_refl)
    as [Hget [Hrename [Hdelete Hpeek]]].
  split; [split; [reflexivity | split; [reflexivity | split;
          [exact Hne | reflexivity]]]|].
  split; [|split; [|split]].
  - apply (Hget None); [reflexivity | left; reflexivity].
  - apply (Hrename "notes"); [reflexivity | left; reflexivity].
  - apply Hdelete. reflexivity.
  - apply (Hpeek None). left; reflexivity.
Defined.

(** X12: when the client refuses a creation with an
    [InvalidDimensionException], create collection raises [McpError] with
    the code [INTERNAL_ERROR] and the message "ChromaDB Error: Invalid
    dimension configuration. " followed by the message of the exception,
    whatever that message says. *)
Theorem invalid_dimension_is_internal `{ErrorClasses} {runtime : Runtime}
        (env : Env)
        (name : string) (client : Client) (ef : option EmbeddingFunction)
        (settings : dict) (msg : string) :
  validate_collection_name env name = Gives tt ->
  get_chroma_client env = Gives client ->
  get_embedding_function env = Gives ef ->
  get_collection_settings env = Gives settings ->
  creation_raises client name (flatten_settings settings) ef
    InvalidDimensionException msg ->
  fst (run (_create_collection_impl env (CreateCollectionInput.make name)))
  = Raise (McpError
             (mkErrorData INTERNAL_ERROR
                ("ChromaDB Error: Invalid dimension configuration. " ++ msg))).
Proof.
  intros Hv Hc Hef Hs Hr.
  assert (Hne : InvalidDimensionException <> ValidationError) by discriminate.
  apply (create_collection_client_error env (CreateCollectionInput.make name)
           client ef settings InvalidDimensionException msg
           Hv Hc Hef Hs Hr Hne).
Qed.

Lemma invalid_dimension_is_internal_witness :
  (validate_collection_name crowded_env "docs" = Gives tt /\
   get_chroma_client crowded_env = Gives crowded_client /\
   get_embedding_function crowded_env = Gives None /\
   get_collection_settings crowded_env = Gives [("hnsw:space", PStr "cosine")] /\
   creation_raises crowded_client "docs"
     (flatten_settings [("hnsw:space", PStr "cosine")]) None
     InvalidDimensionException "Embedding dimension 3 does not match 4") /\
  fst (run (_create_collection_impl (H:=validation_error_is_plain) crowded_env
              (CreateCollectionInput.make "docs")))
  = Raise (McpError
             (mkErrorData INTERNAL_ERROR
                "ChromaDB Error: Invalid dimension configuration. Embedding dimension 3 does not match 4")).
Proof.
  assert (Hr : creation_raises crowded_client "docs"
                 (flatten_settings [("hnsw:space", PStr "cosine")]) None
                 InvalidDimensionException
                 "Embedding dimension 3 does not match 4")
    by (left; reflexivity).
  split; [split; [reflexivity | split; [reflexivity | split; [reflexivity |
          split; [reflexivity | exact Hr]]]]|].
  apply (invalid_dimension_is_internal (H:=validation_error_is_plain)
           crowded_env "docs" crowded_client None
           [("hnsw:space", PStr "cosine")]
           "Embedding dimension 3 does not match 4"
           eq_refl eq_refl eq_refl eq_refl Hr).
Defined.

(** X13: the two creations report the same [ValueError] of the client
    differently when its message does not say that the name is taken:
    create collection raises [INVALID_PARAMS] with "Tool Error: Invalid
    parameter during collection creation. Details: ", create collection
    with metadata raises [INTERNAL_ERROR] with the message for unexpected
    errors. *)
Theorem creation_value_error_differs `{ErrorClasses} {runtime : Runtime}
        (env : Env)
        (name : string) (client : Client) (ef : option EmbeddingFunction)
        (cls : ExcClass) (msg : string) :
  validate_collection_name env name = Gives tt ->
  get_chroma_client env = Gives client ->
  get_embedding_function env = Gives ef ->
  cls <> ValidationError ->
  is_ValueError (Foreign cls msg) = true ->
  says_already_exists name msg = false ->
  (forall settings,
      get_collection_settings env = Gives settings ->
      creation_raises client name (flatten_settings settings) ef cls msg ->
      fst (run (_create_collection_impl env (CreateCollectionInput.make name)))
      = Raise (invalid_params
                 ("Tool Error: Invalid parameter during collection creation. Details: "
                  ++ msg))) /\
  (forall metadata d,
      json_loads metadata = Gives (PDict d) ->
      creation_raises client name d ef cls msg ->
      fst (run (_create_collection_with_metadata_impl env
                  (CreateCollectionWithMetadataInput.make name metadata)))
      = Raise (unexpected_error "while creating" name msg)).
Proof.
  intros Hv Hc Hef Hcls Hve Hsays. split.
  - intros settings Hs Hr.
    rewrite (create_collection_client_error env
               (CreateCollectionInput.make name) client ef settings cls msg
               Hv Hc Hef Hs Hr Hcls).
    cbn [CreateCollectionInput.collection_name]. now rewrite Hve, Hsays.
  - intros metadata d Hd Hr.
    rewrite (create_collection_with_metadata_client_error env
               (CreateCollectionWithMetadataInput.make name metadata)
               d client ef cls msg Hd Hv Hef Hc Hr Hcls).
    cbn [CreateCollectionWithMetadataInput.collection_name].
    now rewrite Hsays.
Qed.

Lemma creation_value_error_differs_witness :
  (validate_collection_name bare_env "docs" = Gives tt /\
   get_chroma_client bare_env = Gives bare_client /\
   get_embedding_function bare_env = Gives None /\
   ValueError <> ValidationError /\
   is_ValueError (H:=validation_error_is_plain)
     (Foreign ValueError "Expected metadata to be a non-empty dict") = true /\
   says_already_exists "docs" "Expected metadata to be a non-empty dict"
   = false) /\
  fst (run (_create_collection_impl (H:=validation_error_is_plain) bare_env
              (CreateCollectionInput.make "docs")))
  = Raise (invalid_params
             "Tool Error: Invalid parameter during collection creation. Details: Expected metadata to be a non-empty dict") /\
  fst (run (_create_collection_with_metadata_impl
              (H:=validation_error_is_plain) bare_env
              (CreateCollectionWithMetadataInput.make "docs" "{}")))
  = Raise (unexpected_error "while creating" "docs"
             "Expected metadata to be a non-empty dict").
Proof.
  assert (Hne : ValueError <> ValidationError) by discriminate.
  destruct (creation_value_error_differs (H:=validation_error_is_plain)
              bare_env "docs" bare_client None ValueError
              "Expected metadata to be a non-empty dict"
              eq_refl eq_refl eq_refl Hne eq_refl eq_refl)
    as [Hcreate Hmeta].
  split; [split; [reflexivity | split; [reflexivity | split; [reflexivity |
          split; [exact Hne | split; reflexivity]]]]|].
  split.
  - apply (Hcreate [("hnsw:space", PStr "cosine")]);
      [reflexivity | left; reflexivity].
  - apply (Hmeta "{}" []); [reflexivity | left; reflexivity].
Defined.

(** X14: the wordings for a missing collection are searched in the
    lowercased message of the client, with the name as it was given.  So
    for a name with an ASCII capital letter no [ValueError] is ever
    recognised as "not found": get, delete and peek collection answer
    with their general [INVALID_PARAMS] message, whatever the client
    said. *)
Theorem capital_name_is_never_not_found `{ErrorClasses} (env : Env)
        (name : string) (client : Client) (cls : ExcClass) (msg : string) :
  has_upper name = true ->
  validate_collection_name env name = Gives tt ->
  get_chroma_client env = Gives client ->
  is_ValueError (Foreign cls msg) = true ->
  (forall ef,
      get_embedding_function env = Gives ef ->
      lookup_raises client name ef cls msg ->
      fst (run (_get_collection_impl env (GetCollectionInput.make name)))
      = Raise (invalid_params
                 ("Tool Error: Invalid parameter getting collection. Details: "
                  ++ msg))) /\
  (delete_collection client name = Throws cls msg ->
   fst (run (_delete_collection_impl env (DeleteCollectionInput.make name)))
   = Raise (invalid_params
              ("Tool Error: Invalid parameter deleting collection. Details: "
               ++ msg))) /\
  (forall limit,
      sampling_raises client name
        (match limit with Some l => l | None => 10 end) cls msg ->
      fst (run (_peek_collection_impl env
                  (PeekCollectionInput.make name limit)))
      = Raise (invalid_params
                 ("Tool Error: Problem accessing collection '" ++ name
                  ++ "'. Details: " ++ msg))).
Proof.
  intros Hu Hv Hc Hve.
  destruct (capital_says_not_found name msg Hu) as [Hnf [Hnfd _]].
  split; [|split].
  - intros ef Hef Hr.
    apply (get_collection_generic env (GetCollectionInput.make name)
             client ef cls msg Hv Hc Hef Hr Hve Hnf).
  - intros Hr.
    apply (delete_collection_generic env (DeleteCollectionInput.make name)
             client cls msg Hv Hc Hr Hve Hnfd).
  - intros limit Hr.
    apply (peek_collection_generic env (PeekCollectionInput.make name limit)
             client cls msg Hv Hc Hr Hve Hnf).
Qed.

Lemma capital_name_is_never_not_found_witness :
  (has_upper "Docs" = true /\
   validate_collection_name bare_env "Docs" = Gives tt /\
   get_chroma_client bare_env = Gives bare_client /\
   is_ValueError (H:=validation_error_is_plain)
     (Foreign ValueError "Collection Docs does not exist.") = true) /\
  fst (run (_get_collection_impl (H:=validation_error_is_plain) bare_env
              (GetCollectionInput.make "Docs")))
  = Raise (invalid_params
             "Tool Error: Invalid parameter getting collection. Details: Collection Docs does not exist.") /\
  fst (run (_delete_collection_impl (H:=validation_error_is_plain) bare_env
              (DeleteCollectionInput.make "Docs")))
  = Raise (invalid_params
             "Tool Error: Invalid parameter deleting collection. Details: Collection Docs does not exist.") /\
  fst (run (_peek_collection_impl (H:=validation_error_is_plain) bare_env
              (PeekCollectionInput.make "Docs" None)))
  = Raise (invalid_params
             "Tool Error: Problem accessing collection 'Docs'. Details: Collection Docs does not exist.").
Proof.
  destruct (capital_name_is_never_not_found (H:=validation_error_is_plain)
              bare_env "Docs" bare_client ValueError
              "Collection Docs does not exist." eq_refl eq_refl eq_refl eq_refl)
    as [Hget [Hdelete Hpeek]].
  split; [split; [reflexivity | split; [reflexivity | split; reflexivity]]|].
  split; [|split].
  - apply (Hget None); [reflexivity | left; reflexivity].
  - apply Hdelete. reflexivity.
  - apply (Hpeek None). left; reflexivity.
Defined.


(* ================================================================== *)
(** * The calls of a request *)
(* ================================================================== *)

(** Closes a goal about the log of a run that has ended. *)
Ltac log_leaf :=
  repeat match goal with
         | |- context [if ?b then _ else _] => destruct b
         end;
  let E := fresh "E" in
  intros E; inversion E; subst;
  repeat (apply Forall_cons || apply Forall_nil);
  cbn; eauto 6.

Section IntendedCalls.
Context `{ErrorClasses}.
Context {runtime : Runtime}.
Variable env : Env.

Lemma create_collection_calls i r log :
  run (_create_collection_impl env i) = (r, log) ->
  Forall (intended_call env (create_collection_tool i)) log.
Proof.
  unfold _create_collection_impl. exec_unfold.
  repeat (next_answer; [|log_leaf..]). log_leaf.
Qed.

Lemma create_collection_with_metadata_calls i r log :
  run (_create_collection_with_metadata_impl env i) = (r, log) ->
  Forall (intended_call env (create_collection_with_metadata_tool i)) log.
Proof.
  unfold _create_collection_with_metadata_impl. exec_unfold.
  next_answer; [|log_leaf..].
  destruct a; cbv beta iota zeta; try solve [log_leaf].
  repeat (next_answer; [|log_leaf..]). log_leaf.
Qed.

Lemma list_collections_calls i r log :
  run (_list_collections_impl env i) = (r, log) ->
  Forall (intended_call env (list_collections_tool i)) log.
Proof.
  unfold _list_collections_impl. exec_unfold.
  repeat (next_answer; [|log_leaf..]). log_leaf.
Qed.

Lemma get_collection_calls i r log :
  run (_get_collection_impl env i) = (r, log) ->
  Forall (intended_call env (get_collection_tool i)) log.
Proof.
  unfold _get_collection_impl. exec_unfold.
  do 5 (next_answer; [|log_leaf..]).
  next_answer; (next_answer; [|log_leaf..]); log_leaf.
Qed.

Lemma rename_collection_calls i r log :
  run (_rename_collection_impl env i) = (r, log) ->
  Forall (intended_call env (rename_collection_tool i)) log.
Proof.
  unfold _rename_collection_impl. exec_unfold.
  repeat (next_answer; [|log_leaf..]). log_leaf.
Qed.

Lemma delete_collection_calls i r log :
  run (_delete_collection_impl env i) = (r, log) ->
  Forall (intended_call env (delete_collection_tool i)) log.
Proof.
  unfold _delete_collection_impl. exec_unfold.
  repeat (next_answer; [|log_leaf..]). log_leaf.
Qed.

Lemma peek_collection_calls i r log :
  run (_peek_collection_impl env i) = (r, log) ->
  Forall (intended_call env (peek_collection_tool i)) log.
Proof.
  unfold _peek_collection_impl. exec_unfold.
  do 4 (next_answer; [|log_leaf..]).
  match goal with
  | |- context [convert_entry "embeddings" ?d ?l] =>
      pose proof (convert_entry_log "embeddings" d l) as L1;
      destruct (convert_entry "embeddings" d l) as [[d1|e1] l1]
  end; cbn [snd] in L1; subst; [|log_leaf].
  match goal with
  | |- context [convert_entry "distances" ?d ?l] =>
      pose proof (convert_entry_log "distances" d l) as L2;
      destruct (convert_entry "distances" d l) as [[d2|e2] l2]
  end; cbn [snd] in L2; subst; [|log_leaf].
  next_answer; log_leaf.
Qed.

End IntendedCalls.

(** X15: whatever the accessors and the client answer, and whether the
    tool succeeds or fails, every call that a tool makes into the
    external library is one that its request allows: it names the
    collection of the request (the new name, for [modify]), creations
    pass [get_or_create = False] with the configured embedding function
    and the flattened default settings or the decoded metadata, get
    collection samples five entries, peek collection the limit of the
    request or ten.  In particular only delete collection ever calls
    [delete_collection], and only on the collection it was asked to
    delete. *)
Theorem tools_make_only_intended_calls `{ErrorClasses} {runtime : Runtime}
        (env : Env) (t : ToolCall) :
  Forall (intended_call env t) (snd (run (tool_impl env t))).
Proof.
  destruct (run (tool_impl env t)) as [r log] eqn:E. cbn [snd].
  destruct t as [i|i|i|i|i|i|i]; cbn [tool_impl] in E.
  - exact (create_collection_calls env i r log E).
  - exact (create_collection_with_metadata_calls env i r log E).
  - exact (list_collections_calls env i r log E).
  - exact (get_collection_calls env i r log E).
  - exact (rename_collection_calls env i r log E).
  - exact (delete_collection_calls env i r log E).
  - exact (peek_collection_calls env i r log E).
Qed.

(* ================================================================== *)
(** * The sample of peek collection *)
(* ================================================================== *)

Section DictUpdates.

Lemma get_set_other (d : dict) (k k' : string) (v : pyval) :
  k <> k' -> PyDict.get k (PyDict.set d k' v) = PyDict.get k d.
Proof.
  intros Hne. induction d as [|[k0 v0] d IH]; simpl.
  - destruct (String.eqb k' k) eqn:E; [|reflexivity].
    apply String.eqb_eq in E. congruence.
  - destruct (String.eqb k0 k') eqn:E; simpl.
    + apply String.eqb_eq in E. subst k0.
      destruct (String.eqb k' k) eqn:E'; [|reflexivity].
      apply String.eqb_eq in E'. congruence.
    + now rewrite IH.
Qed.

Lemma keys_set_present (d : dict) (k : string) (v v0 : pyval) :
  PyDict.get k d = Some v0 -> PyDict.keys (PyDict.set d k v) = PyDict.keys d.
Proof.
  induction d as [|[k0 v1] d IH]; simpl; [discriminate|].
  destruct (String.eqb k0 k) eqn:E; simpl; [reflexivity|].
  intros Hg. now rewrite (IH Hg).
Qed.

Lemma in_set_wf (d : dict) (key : string) (x : pyval) (k : string) (v : pyval) :
  PyDict.wf d -> In (k, v) (PyDict.set d key x) ->
  (k = key /\ v = x) \/ (k <> key /\ In (k, v) d).
Proof.
  unfold PyDict.wf. induction d as [|[k0 v0] d IH]; simpl; intros Hwf Hin.
  - destruct Hin as [E|[]]. inversion E. now left.
  - inversion Hwf as [|? ? Hnot Hd]; subst.
    destruct (String.eqb k0 key) eqn:E.
    + apply String.eqb_eq in E. subst k0.
      destruct Hin as [E|Hin]; [inversion E; now left|].
      right. split; [|now right].
      intros ->. apply Hnot. apply in_map_iff. now exists (key, v).
    + apply String.eqb_neq in E.
      destruct Hin as [E'|Hin]; [inversion E'; subst; right; split; auto|].
      destruct (IH Hd Hin) as [Hl|[Hne Hr]]; [now left | right; auto].
Qed.

Lemma get_in_wf (d : dict) (k : string) (v v0 : pyval) :
  PyDict.wf d -> PyDict.get k d = Some v0 -> In (k, v) d -> v = v0.
Proof.
  unfold PyDict.wf. induction d as [|[k0 v1] d IH]; simpl;
    intros Hwf Hg Hin; [contradiction|].
  inversion Hwf as [|? ? Hnot Hd]; subst.
  destruct (String.eqb k0 k) eqn:E.
  - apply String.eqb_eq in E. subst k0. inversion Hg; subst.
    destruct Hin as [E|Hin]; [now inversion E|].
    elim Hnot. apply in_map_iff. now exists (k, v).
  - apply String.eqb_neq in E.
    destruct Hin as [E'|Hin]; [inversion E'; congruence|].
    now apply IH.
Qed.

Lemma get_none_in (d : dict) (k : string) (v : pyval) :
  PyDict.get k d = None -> ~ In (k, v) d.
Proof.
  induction d as [|[k0 v1] d IH]; simpl; intros Hg Hin; [contradiction|].
  destruct (String.eqb k0 k) eqn:E; [discriminate|].
  apply String.eqb_neq in E.
  destruct Hin as [E'|Hin]; [inversion E'; congruence | now apply IH].
Qed.

End DictUpdates.

Section Conversion.

Lemma forallb_mapped {A B : Type} (f : B -> bool) (g : A -> B) (l : list A) :
  forallb f (map g l) = forallb (fun x => f (g x)) l.
Proof. induction l as [|x l IH]; simpl; [reflexivity | now rewrite IH]. Qed.

Lemma convert_entry_some (key : string) (d : dict) (v : pyval) :
  PyDict.get key d = Some v -> v <> PNone ->
  convert_entry key d
  = (items <- ask (py_iter v) ;;
     ret (PyDict.set d key (PList (map convert_item items)))).
Proof.
  intros G Hv. unfold convert_entry. rewrite G.
  destruct v; congruence || reflexivity.
Qed.

Lemma convert_entry_none (key : string) (d : dict) :
  PyDict.get key d = None \/ PyDict.get key d = Some PNone ->
  convert_entry key d = ret d.
Proof. unfold convert_entry. now intros [-> | ->]. Qed.

Lemma convertible_some (v : pyval) :
  v <> PNone ->
  convertible v
  = match py_iter v with
    | Gives items =>
        forallb (fun item => serializable (convert_item item)) items
    | _ => false
    end.
Proof. intros Hv. destruct v; congruence || reflexivity. Qed.

Lemma pyval_none_dec (v : pyval) : {v = PNone} + {v <> PNone}.
Proof. destruct v; (now left) || (right; discriminate). Qed.

Lemma get_in (d : dict) (k : string) (v : pyval) :
  PyDict.get k d = Some v -> In (k, v) d.
Proof.
  induction d as [|[k1 v1] d IH]; simpl; [discriminate|].
  destruct (String.eqb k1 k) eqn:E.
  - apply String.eqb_eq in E. intros G. inversion G; subst. now left.
  - right. now apply IH.
Qed.

Lemma convert_item_again (x : pyval) :
  serializable (convert_item x) = true ->
  serializable (convert_item (convert_item x)) = true.
Proof.
  generalize (convert_item x). intros y Hy.
  destruct y; try exact Hy; try discriminate Hy.
  cbn [convert_item serializable] in *. rewrite forallb_mapped.
  apply forallb_forall. intros z Hz.
  pose proof (proj1 (forallb_forall _ _) Hy z Hz) as Hsz.
  now destruct z.
Qed.

(** A conversion that returns keeps the keys of the sample and what is
    stored under the other keys, and makes no call. *)
Lemma convert_entry_result (key : string) (d d' : dict) (log log' : list Call) :
  convert_entry key d log = (Return d', log') ->
  PyDict.keys d' = PyDict.keys d /\
  (forall k, k <> key -> PyDict.get k d' = PyDict.get k d).
Proof.
  destruct (PyDict.get key d) as [v|] eqn:G;
    [destruct (pyval_none_dec v) as [-> | Hnn]|].
  - rewrite convert_entry_none by now right.
    intros E; inversion E; subst; now split.
  - rewrite (convert_entry_some key d v G Hnn). exec_unfold.
    destruct (py_iter v) as [its|cls msg|error]; [|discriminate..].
    intros E; inversion E; subst. split.
    + apply (keys_set_present d key _ v G).
    + intros k Hk. now apply get_set_other.
  - rewrite convert_entry_none by now left.
    intros E; inversion E; subst; now split.
Qed.

Lemma convert_entry_peekable (key : string) (pending : list string)
      (d : dict) (log : list Call) :
  PyDict.wf d ->
  forallb (peekable (key :: pending)) d = true ->
  exists d',
    convert_entry key d log = (Return d', log) /\
    PyDict.wf d' /\ forallb (peekable pending) d' = true.
Proof.
  intros Hwf Hok.
  assert (Hall : forall k v, In (k, v) d -> peekable (key :: pending) (k, v) = true)
    by (intros k v Hin; exact (proj1 (forallb_forall _ _) Hok (k, v) Hin)).
  assert (Hother : forall k v, In (k, v) d -> k <> key ->
                               peekable pending (k, v) = true).
  { intros k v Hin Hne. specialize (Hall k v Hin).
    unfold peekable in *. cbn [fst snd existsb] in *.
    now rewrite (proj2 (String.eqb_neq k key) Hne) in Hall. }
  assert (Hkey : forall v, In (key, v) d -> convertible v = true).
  { intros v Hin. specialize (Hall key v Hin).
    unfold peekable in Hall. cbn [fst snd existsb] in Hall.
    now rewrite String.eqb_refl in Hall. }
  destruct (PyDict.get key d) as [v0|] eqn:G.
  - pose proof (Hkey v0 (get_in d key v0 G)) as Hc.
    destruct (pyval_none_dec v0) as [-> | Hnn].
    + rewrite convert_entry_none by now right.
      exists d. split; [reflexivity | split; [exact Hwf|]].
      apply forallb_forall. intros [k v] Hin.
      destruct (String.eqb k key) eqn:E.
      * apply String.eqb_eq in E. subst k.
        rewrite (get_in_wf d key v PNone Hwf G Hin).
        unfold peekable. cbn [fst snd]. now destruct (existsb _ _).
      * apply String.eqb_neq in E. now apply Hother.
    + rewrite (convert_entry_some key d v0 G Hnn).
      rewrite (convertible_some v0 Hnn) in Hc. exec_unfold.
      destruct (py_iter v0) as [its|cls msg|error]; [|discriminate Hc..].
      eexists. split; [reflexivity|].
      split; [now apply set_wf|].
      apply forallb_forall. intros [k v] Hin.
      apply in_set_wf in Hin as [[-> ->]|[Hne Hin]];
        [|now apply Hother|exact Hwf].
      assert (Hs : serializable (PList (map convert_item its)) = true)
        by (cbn [serializable]; rewrite forallb_mapped; exact Hc).
      unfold peekable. cbn [fst snd].
      destruct (existsb _ _); [|exact Hs].
      unfold convertible. cbn [py_iter].
      rewrite forallb_mapped. apply forallb_forall. intros x Hx.
      apply convert_item_again.
      exact (proj1 (forallb_forall _ _) Hc x Hx).
  - rewrite convert_entry_none by now left.
    exists d. split; [reflexivity | split; [exact Hwf|]].
    apply forallb_forall. intros [k v] Hin.
    destruct (String.eqb k key) eqn:E.
    + apply String.eqb_eq in E. subst k. now elim (get_none_in d key v G).
    + apply String.eqb_neq in E. now apply Hother.
Qed.

End Conversion.

Section Peeking.
Context `{ErrorClasses}.
Context {runtime : Runtime}.
Variable env : Env.

(** Peek collection, once the client has given the sample: it returns
    what [json.dumps] makes of the converted sample. *)
Lemma peek_collection_after_peek i client c sample :
  let name := PeekCollectionInput.collection_name i in
  let limit := PeekCollectionInput.limit i in
  validate_collection_name env name = Gives tt ->
  get_chroma_client env = Gives client ->
  get_collection client name ef_omitted = Gives c ->
  coll_peek c (match limit with Some l => l | None => 10 end) = Gives sample ->
  forall d1 d2,
    convert_entry "embeddings"
      (match sample with Some d => d | None => [] end) (peek_calls name limit)
    = (Return d1, peek_calls name limit) ->
    convert_entry "distances" d1 (peek_calls name limit)
    = (Return d2, peek_calls name limit) ->
    match json_dumps (Some 2%nat) (PDict d2) with
    | Gives s =>
        run (_peek_collection_impl env i)
        = (Return (text_content s), peek_calls name limit)
    | _ =>
        exists error,
          run (_peek_collection_impl env i)
          = (Raise (McpError error), peek_calls name limit)
    end.
Proof.
  intros name limit Hv Hc Hg Hp d1 d2 H1 H2.
  unfold _peek_collection_impl. exec_unfold. fold name. fold limit.
  rewrite Hv, Hc, Hg. cbv beta iota zeta. rewrite Hp. cbv beta iota zeta.
  cbn [app]. unfold peek_calls in H1, H2. rewrite H1, H2.
  destruct (json_dumps _ _) as [s|cls msg|error]; cbv beta iota zeta;
    [reflexivity | |];
    repeat match goal with
           | |- context [if ?b then _ else _] => destruct b
           end;
    eexists; reflexivity.
Qed.

Lemma peek_collection_returns i client c d texts log :
  let name := PeekCollectionInput.collection_name i in
  let limit := PeekCollectionInput.limit i in
  validate_collection_name env name = Gives tt ->
  get_chroma_client env = Gives client ->
  get_collection client name ef_omitted = Gives c ->
  coll_peek c (match limit with Some l => l | None => 10 end)
  = Gives (Some d) ->
  run (_peek_collection_impl env i) = (Return texts, log) ->
  exists d' s,
    texts = text_content s /\ log = peek_calls name limit /\
    json_dumps (Some 2%nat) (PDict d') = Gives s /\
    PyDict.keys d' = PyDict.keys d /\
    forall k, k <> "embeddings" -> k <> "distances" ->
              PyDict.get k d' = PyDict.get k d.
Proof.
  intros name limit Hv Hc Hg Hp.
  pose proof (convert_entry_log "embeddings" d (peek_calls name limit)) as L1.
  destruct (convert_entry "embeddings" d (peek_calls name limit))
    as [[d1|e1] l1] eqn:E1; cbn [snd] in L1; subst l1.
  - pose proof (convert_entry_log "distances" d1 (peek_calls name limit)) as L2.
    destruct (convert_entry "distances" d1 (peek_calls name limit))
      as [[d2|e2] l2] eqn:E2; cbn [snd] in L2; subst l2.
    + pose proof (peek_collection_after_peek i client c (Some d) Hv Hc Hg Hp
                    d1 d2 E1 E2) as Hrun.
      destruct (json_dumps _ _) as [s|cls msg|error] eqn:D;
        [|destruct Hrun as [error' ->]; discriminate..].
      rewrite Hrun. intros E; inversion E; subst.
      destruct (convert_entry_result _ _ _ _ _ E1) as [K1 G1].
      destruct (convert_entry_result _ _ _ _ _ E2) as [K2 G2].
      exists d2, s. split; [reflexivity | split; [reflexivity|]].
      split; [exact D | split; [congruence|]].
      intros k Hk1 Hk2. now rewrite (G2 k Hk2), (G1 k Hk1).
    + unfold _peek_collection_impl. exec_unfold. fold name. fold limit.
      rewrite Hv, Hc, Hg. cbv beta iota zeta. rewrite Hp.
      cbv beta iota zeta. cbn [app]. unfold peek_calls in E1, E2.
      rewrite E1, E2. handler_raises.
  - unfold _peek_collection_impl. exec_unfold. fold name. fold limit.
    rewrite Hv, Hc, Hg. cbv beta iota zeta. rewrite Hp.
    cbv beta iota zeta. cbn [app]. unfold peek_calls in E1.
    rewrite E1. handler_raises.
Qed.

End Peeking.

Section PeekingReference.
Context `{ErrorClasses}.
Variable env : Env.

Lemma peek_collection_peekable i client c d :
  let name := PeekCollectionInput.collection_name i in
  let limit := PeekCollectionInput.limit i in
  validate_collection_name env name = Gives tt ->
  get_chroma_client env = Gives client ->
  get_collection client name ef_omitted = Gives c ->
  coll_peek c (match limit with Some l => l | None => 10 end)
  = Gives (Some d) ->
  PyDict.wf d ->
  forallb (peekable ["embeddings"; "distances"]) d = true ->
  exists s,
    run (_peek_collection_impl env i)
    = (Return (text_content s), peek_calls name limit) /\
    parses_as_json s.
Proof.
  intros name limit Hv Hc Hg Hp Hwf Hok.
  destruct (convert_entry_peekable "embeddings" ["distances"] d
              (peek_calls name limit) Hwf Hok) as [d1 [E1 [Hwf1 Hok1]]].
  destruct (convert_entry_peekable "distances" [] d1
              (peek_calls name limit) Hwf1 Hok1) as [d2 [E2 [_ Hok2]]].
  pose proof (peek_collection_after_peek env i client c (Some d) Hv Hc Hg Hp
                d1 d2 E1 E2) as Hrun.
  cbn [json_dumps reference_runtime] in Hrun.
  destruct (dumps_serializable (Some 2%nat) (PDict d2) Hok2) as [s D].
  rewrite D in Hrun. exists s. split; [exact Hrun|].
  exists (normalize (PDict d2)). exact (loads_dumps (Some 2%nat) _ s D).
Qed.

Lemma peek_collection_nothing i client c sample :
  let name := PeekCollectionInput.collection_name i in
  let limit := PeekCollectionInput.limit i in
  validate_collection_name env name = Gives tt ->
  get_chroma_client env = Gives client ->
  get_collection client name ef_omitted = Gives c ->
  coll_peek c (match limit with Some l => l | None => 10 end) = Gives sample ->
  sample = None \/ sample = Some [] ->
  run (_peek_collection_impl env i)
  = (Return (text_content "{}"), peek_calls name limit).
Proof.
  intros name limit Hv Hc Hg Hp Hs.
  assert (H1 : convert_entry "embeddings"
                 (match sample with Some d => d | None => [] end)
                 (peek_calls name limit)
               = (Return [], peek_calls name limit))
    by now destruct Hs as [-> | ->].
  exact (peek_collection_after_peek env i client c sample Hv Hc Hg Hp [] []
           H1 eq_refl).
Qed.

End PeekingReference.

(** X16: when peek collection returns, its text is what [json.dumps]
    returned for a dictionary with the keys of the sample that the
    client gave, in their order, and with the same value under every key
    other than "embeddings" and "distances"; the two calls made are
    [get_collection] without an embedding function and [peek]. *)
Theorem peek_keeps_the_other_entries `{ErrorClasses} {runtime : Runtime}
        (env : Env) (name : string) (limit : option Z) (client : Client)
        (c : Collection) (d : dict) (texts : list TextContent)
        (log : list Call) :
  validate_collection_name env name = Gives tt ->
  get_chroma_client env = Gives client ->
  get_collection client name ef_omitted = Gives c ->
  coll_peek c (match limit with Some l => l | None => 10 end)
  = Gives (Some d) ->
  run (_peek_collection_impl env (PeekCollectionInput.make name limit))
  = (Return texts, log) ->
  exists d' s,
    texts = text_content s /\ log = peek_calls name limit /\
    json_dumps (Some 2%nat) (PDict d') = Gives s /\
    PyDict.keys d' = PyDict.keys d /\
    forall k, k <> "embeddings" -> k <> "distances" ->
              PyDict.get k d' = PyDict.get k d.
Proof.
  intros Hv Hc Hg Hp Hrun.
  apply (peek_collection_returns env (PeekCollectionInput.make name limit)
           client c d texts log Hv Hc Hg Hp Hrun).
Qed.

Lemma peek_keeps_the_other_entries_witness :
  (validate_collection_name docs_env "docs" = Gives tt /\
   get_chroma_client docs_env = Gives docs_client /\
   get_collection docs_client "docs" ef_omitted = Gives docs /\
   coll_peek docs 10 = Gives (Some docs_sample) /\
   run (_peek_collection_impl (H:=validation_error_is_plain) docs_env
          (PeekCollectionInput.make "docs" None))
   = (Return (text_content docs_peek), peek_calls "docs" None)) /\
  exists d' s,
    text_content docs_peek = text_content s /\
    peek_calls "docs" None = peek_calls "docs" None /\
    json_dumps (Some 2%nat) (PDict d') = Gives s /\
    PyDict.keys d' = PyDict.keys docs_sample /\
    forall k, k <> "embeddings" -> k <> "distances" ->
              PyDict.get k d' = PyDict.get k docs_sample.
Proof.
  assert (Hrun :
    run (_peek_collection_impl (H:=validation_error_is_plain) docs_env
           (PeekCollectionInput.make "docs" None))
    = (Return (text_content docs_peek), peek_calls "docs" None))
    by (vm_compute; reflexivity).
  split; [split; [reflexivity | split; [reflexivity | split; [reflexivity |
          split; [reflexivity | exact Hrun]]]]|].
  apply (peek_keeps_the_other_entries (H:=validation_error_is_plain)
           docs_env "docs" None docs_client docs docs_sample
           (text_content docs_peek) (peek_calls "docs" None)
           eq_refl eq_refl eq_refl eq_refl Hrun).
Defined.

(** X17: peek collection succeeds, with a text that parses as JSON,
    whenever the sample of the client has distinct keys, what it holds
    under "embeddings" and under "distances" is [None] or an iterable
    whose items are serializable once their [tolist()] is taken, and
    every other value is serializable: arrays of the numerical library
    among the embeddings do not make the serialization fail. *)
Theorem peek_converts_embeddings `{ErrorClasses} (env : Env)
        (name : string) (limit : option Z) (client : Client)
        (c : Collection) (d : dict) :
  validate_collection_name env name = Gives tt ->
  get_chroma_client env = Gives client ->
  get_collection client name ef_omitted = Gives c ->
  coll_peek c (match limit with Some l => l | None => 10 end)
  = Gives (Some d) ->
  PyDict.wf d ->
  forallb (peekable ["embeddings"; "distances"]) d = true ->
  exists s,
    run (_peek_collection_impl env (PeekCollectionInput.make name limit))
    = (Return (text_content s), peek_calls name limit) /\
    parses_as_json s.
Proof.
  intros Hv Hc Hg Hp Hwf Hok.
  apply (peek_collection_peekable env (PeekCollectionInput.make name limit)
           client c d Hv Hc Hg Hp Hwf Hok).
Qed.

Lemma peek_converts_embeddings_witness :
  (validate_collection_name docs_env "docs" = Gives tt /\
   get_chroma_client docs_env = Gives docs_client /\
   get_collection docs_client "docs" ef_omitted = Gives docs /\
   coll_peek docs 10 = Gives (Some docs_sample) /\
   PyDict.wf docs_sample /\
   forallb (peekable ["embeddings"; "distances"]) docs_sample = true /\
   serializable (PDict docs_sample) = false) /\
  exists s,
    run (_peek_collection_impl (H:=validation_error_is_plain) docs_env
           (PeekCollectionInput.make "docs" None))
    = (Return (text_content s), peek_calls "docs" None) /\
    parses_as_json s.
Proof.
  assert (Hwf : PyDict.wf docs_sample).
  { unfold PyDict.wf. simpl. repeat constructor; simpl; intuition discriminate. }
  split; [split; [reflexivity | split; [reflexivity | split; [reflexivity |
          split; [reflexivity | split; [exact Hwf | split; reflexivity]]]]]|].
  apply (peek_converts_embeddings (H:=validation_error_is_plain)
           docs_env "docs" None docs_client docs docs_sample
           eq_refl eq_refl eq_refl eq_refl Hwf eq_refl).
Defined.

(** X18: when the client has nothing to show, [peek] returning [None]
    or an empty dictionary, peek collection returns the text of the
    empty JSON object after its two calls. *)
Theorem peek_of_nothing_is_empty_object `{ErrorClasses} (env : Env)
        (name : string) (limit : option Z) (client : Client)
        (c : Collection) (sample : option dict) :
  validate_collection_name env name = Gives tt ->
  get_chroma_client env = Gives client ->
  get_collection client name ef_omitted = Gives c ->
  coll_peek c (match limit with Some l => l | None => 10 end) = Gives sample ->
  sample = None \/ sample = Some [] ->
  run (_peek_collection_impl env (PeekCollectionInput.make name limit))
  = (Return (text_content "{}"), peek_calls name limit).
Proof.
  intros Hv Hc Hg Hp Hs.
  apply (peek_collection_nothing env (PeekCollectionInput.make name limit)
           client c sample Hv Hc Hg Hp Hs).
Qed.

Lemma peek_of_nothing_is_empty_object_witness :
  (validate_collection_name hollow_env "docs" = Gives tt /\
   get_chroma_client hollow_env = Gives hollow_client /\
   get_collection hollow_client "docs" ef_omitted = Gives hollow /\
   coll_peek hollow 3 = Gives None /\
   (@None dict = None \/ @None dict = Some [])) /\
  run (_peek_collection_impl (H:=validation_error_is_plain) hollow_env
         (PeekCollectionInput.make "docs" (Some 3)))
  = (Return (text_content "{}"), peek_calls "docs" (Some 3)).
Proof.
  assert (Hs : @None dict = None \/ @None dict = Some []) by (left; reflexivity).
  split; [split; [reflexivity | split; [reflexivity | split; [reflexivity |
          split; [reflexivity | exact Hs]]]]|].
  apply (peek_of_nothing_is_empty_object (H:=validation_error_is_plain)
           hollow_env "docs" (Some 3) hollow_client hollow None
           eq_refl eq_refl eq_refl eq_refl Hs).
Defined.


(* ================================================================== *)
(** * Settings reported by a creation *)
(* ================================================================== *)

Section Creation.
Context `{ErrorClasses}.
Context {runtime : Runtime}.
Variable env : Env.

Lemma create_collection_stored i client ef s c n result_json :
  let name := CreateCollectionInput.collection_name i in
  validate_collection_name env name = Gives tt ->
  get_chroma_client env = Gives client ->
  get_embedding_function env = Gives ef ->
  get_collection_settings env = Gives s ->
  create_collection client name (flatten_settings s) ef false = Gives c ->
  coll_count c = Gives n ->
  coll_metadata c = Some (flatten_settings s) ->
  s <> [] ->
  (forall k, In k (PyDict.keys s) -> k <> "") ->
  NoDup (map flatten_key (PyDict.keys s)) ->
  json_dumps (Some 2%nat)
    (PDict [ ("name", PStr (coll_name c));
             ("id", PStr (coll_id c));
             ("metadata", PDict [("settings", PDict (restored_settings s))]);
             ("count", PInt n) ])
  = Gives result_json ->
  run (_create_collection_impl env i)
  = (Return (text_content result_json), create_calls name s ef).
Proof.
  intros name Hv Hc Hef Hs Hcr Hn Hm Hne Hk Hnd Hj.
  unfold _create_collection_impl. exec_unfold. fold name.
  rewrite Hv, Hc, Hef, Hs. cbv beta iota zeta.
  rewrite Hcr. cbv beta iota zeta. rewrite Hn. cbv beta iota zeta.
  rewrite Hm, (reconstruct_flatten s Hne Hk Hnd), Hj. reflexivity.
Qed.

End Creation.

(** X19: when the client keeps the metadata it is given, and the default
    settings are a non-empty dictionary with non-empty names whose
    flattened forms are distinct, create collection reports the settings
    under "metadata" as the single key "settings", with every underscore
    of a setting's name turned into a colon (the flattening turned the
    colons into underscores, the reconstruction cannot tell them from
    the underscores that were there): it returns the text that
    [json.dumps] gives for this result, after the two calls
    [create_collection] and [count]. *)
Theorem create_reports_restored_settings `{ErrorClasses} {runtime : Runtime}
        (env : Env) (name : string) (client : Client)
        (ef : option EmbeddingFunction) (s : dict) (c : Collection) (n : Z) :
  validate_collection_name env name = Gives tt ->
  get_chroma_client env = Gives client ->
  get_embedding_function env = Gives ef ->
  get_collection_settings env = Gives s ->
  create_collection client name (flatten_settings s) ef false = Gives c ->
  coll_count c = Gives n ->
  coll_metadata c = Some (flatten_settings s) ->
  s <> [] ->
  (forall k, In k (PyDict.keys s) -> k <> "") ->
  NoDup (map flatten_key (PyDict.keys s)) ->
  forall result_json,
    json_dumps (Some 2%nat)
      (PDict [ ("name", PStr (coll_name c));
               ("id", PStr (coll_id c));
               ("metadata", PDict [("settings", PDict (restored_settings s))]);
               ("count", PInt n) ])
    = Gives result_json ->
    run (_create_collection_impl env (CreateCollectionInput.make name))
    = (Return (text_content result_json), create_calls name s ef).
Proof.
  intros Hv Hc Hef Hs Hcr Hn Hm Hne Hk Hnd result_json Hj.
  apply (create_collection_stored env (CreateCollectionInput.make name)
           client ef s c n result_json Hv Hc Hef Hs Hcr Hn Hm Hne Hk Hnd Hj).
Qed.

Lemma create_reports_restored_settings_witness :
  (validate_collection_name storing_env "docs" = Gives tt /\
   get_chroma_client storing_env = Gives storing_client /\
   get_embedding_function storing_env = Gives None /\
   get_collection_settings storing_env = Gives hnsw_defaults /\
   create_collection storing_client "docs" (flatten_settings hnsw_defaults)
     None false
   = Gives (stored "docs" (flatten_settings hnsw_defaults)) /\
   coll_count (stored "docs" (flatten_settings hnsw_defaults)) = Gives 0 /\
   coll_metadata (stored "docs" (flatten_settings hnsw_defaults))
   = Some (flatten_settings hnsw_defaults) /\
   hnsw_defaults <> [] /\
   (forall k, In k (PyDict.keys hnsw_defaults) -> k <> "") /\
   NoDup (map flatten_key (PyDict.keys hnsw_defaults))) /\
  forall result_json,
    json_dumps (Some 2%nat)
      (PDict [ ("name", PStr "docs");
               ("id", PStr "7f1d");
               ("metadata",
                 PDict [("settings",
                         PDict [ ("hnsw:space", PStr "cosine");
                                 ("hnsw:construction:ef", PInt 100);
                                 ("hnsw:search:ef", PInt 10);
                                 ("hnsw:M", PInt 16) ])]);
               ("count", PInt 0) ])
    = Gives result_json ->
    run (_create_collection_impl (H:=validation_error_is_plain) storing_env
           (CreateCollectionInput.make "docs"))
    = (Return (text_content result_json),
       create_calls "docs" hnsw_defaults None).
Proof.
  assert (H1 : hnsw_defaults <> []) by discriminate.
  assert (H2 : forall k, In k (PyDict.keys hnsw_defaults) -> k <> "").
  { simpl. intros k [<-|[<-|[<-|[<-|[]]]]]; discriminate. }
  assert (H3 : NoDup (map flatten_key (PyDict.keys hnsw_defaults))).
  { simpl. repeat constructor; simpl; intuition discriminate. }
  split; [split; [reflexivity | split; [reflexivity | split; [reflexivity |
          split; [reflexivity | split; [reflexivity | split; [reflexivity |
          split; [reflexivity | split; [exact H1 | split; [exact H2 |
          exact H3]]]]]]]]]|].
  apply (create_reports_restored_settings (H:=validation_error_is_plain)
           (runtime:=reference_runtime)
           storing_env "docs" storing_client None hnsw_defaults
           (stored "docs" (flatten_settings hnsw_defaults)) 0
           eq_refl eq_refl eq_refl eq_refl eq_refl eq_refl eq_refl
           H1 H2 H3).
Defined.

(** The run of the sample deployment, with the text that the reference
    codec writes. *)
Example stored_settings_are_restored :
  exists result_json,
    run (_create_collection_impl (H:=validation_error_is_plain) storing_env
           (CreateCollectionInput.make "docs"))
    = (Return (text_content result_json),
       create_calls "docs" hnsw_defaults None) /\
    Json.decode result_json
    = Some (PDict [ ("name", PStr "docs");
                    ("id", PStr "7f1d");
                    ("metadata",
                      PDict [("settings",
                              PDict [ ("hnsw:space", PStr "cosine");
                                      ("hnsw:construction:ef", PInt 100);
                                      ("hnsw:search:ef", PInt 10);
                                      ("hnsw:M", PInt 16) ])]);
                    ("count", PInt 0) ]).
Proof.
  eexists. split; [vm_compute; reflexivity|].
  vm_compute. reflexivity.
Qed.

(* ================================================================== *)
(** * The globals of the utilities and the helper of the tests *)
(* ================================================================== *)

Section GlobalsFacts.
Variables Logger ChromaClientConfig : Type.

Lemma config_after_setters (calls : list (Setter Logger ChromaClientConfig))
      (g : Globals Logger ChromaClientConfig) :
  _global_client_config (fold_left apply_setter calls g)
  = fold_left (fun acc s =>
                 match s with
                 | server_config_set config => config
                 | main_logger_set _ => acc
                 end) calls (_global_client_config g).
Proof.
  revert g. induction calls as [|s calls IH]; intros g; [reflexivity|].
  cbn [fold_left]. rewrite IH. now destruct s.
Qed.

End GlobalsFacts.

(** X20: after any sequence of calls of [set_main_logger] and
    [set_server_config] on the freshly imported module,
    [get_server_config] returns the configuration given to the last
    call of [set_server_config]; when there was no such call, or when
    the last one stored [None], it raises [McpError] with the code
    [INTERNAL_ERROR] and the message "Server configuration not
    initialized".  Setting the logger never changes the answer. *)
Theorem server_config_is_the_last_one_set (Logger ChromaClientConfig : Type)
        (calls : list (Setter Logger ChromaClientConfig)) :
  get_server_config (fold_left apply_setter calls initial_globals)
  = match last_config calls with
    | Some config => Return config
    | None =>
        Raise (McpError (mkErrorData INTERNAL_ERROR
                           "Server configuration not initialized"))
    end.
Proof.
  unfold get_server_config, last_config.
  now rewrite config_after_setters.
Qed.

(** X21: wrapped around the call of any tool, the helper
    [assert_raises_mcp_error] passes exactly when the tool returned a
    result or raised an [McpError] whose message contains the expected
    text: a tool that fails to raise goes unnoticed.  No exception other
    than the failed assertion ever leaves the helper. *)
Theorem error_helper_passes_iff `{ErrorClasses} {runtime : Runtime}
        (env : Env) (t : ToolCall) (expected_message : string) :
  let outcome := fst (run (tool_impl env t)) in
  (assert_raises_mcp_error expected_message outcome = test_passes tt <->
   (exists texts, outcome = Return texts) \/
   (exists d, outcome = Raise (McpError d) /\
              PyStr.contains expected_message (message d) = true)) /\
  (forall e, assert_raises_mcp_error expected_message outcome
             <> test_errors e).
Proof.
  intros outcome.
  pose proof (tool_raises_only_mcp_errors env t) as Hsafe.
  fold outcome in Hsafe. destruct outcome as [texts | [cls msg | d]];
    cbn [assert_raises_mcp_error raises_only_mcp_errors] in *;
    [| contradiction |].
  - split; [|discriminate]. split; [|reflexivity].
    intros _. left. now exists texts.
  - destruct (PyStr.contains expected_message (message d)) eqn:E.
    + split; [|discriminate]. split; [|reflexivity].
      intros _. right. exists d. now split.
    + split; [|discriminate]. split; [discriminate|].
      intros [[texts Ht] | [d' [Hd Hc]]]; [discriminate|].
      inversion Hd; subst. congruence.
Qed.

(** X22: given the result of a tool that succeeded, and no expected
    data, the helper [assert_successful_json_result] returns the parsed
    dictionary for create collection, create collection with metadata,
    list, get and peek collection, and the parsed dictionary is what the
    decoder reads from the text; for rename and delete collection it
    fails, their text being a sentence and no JSON. *)
Theorem json_helper_on_tool_results `{ErrorClasses} (env : Env)
        (py_eq : dict -> dict -> bool) (py_str : dict -> string)
        (t : ToolCall) (texts : list TextContent) (log : list Call) :
  run (tool_impl env t) = (Return texts, log) ->
  match t with
  | rename_collection_tool _ | delete_collection_tool _ =>
      exists s detail,
        texts = text_content s /\
        assert_successful_json_result py_eq py_str texts None
        = test_fails ("Result content is not valid JSON: " ++ detail
                      ++ Json.newline ++ "Content: " ++ s)
  | _ =>
      exists s parsed_data,
        texts = text_content s /\
        Json.decode s = Some (PDict parsed_data) /\
        assert_successful_json_result py_eq py_str texts None
        = test_passes parsed_data
  end.
Proof.
  intros Hrun.
  destruct (tool_success_text env t texts log Hrun) as [s [-> Hs]].
  assert (Hjson : (exists data,
                      Json.dumps (indent_of t) (PDict data) = Gives s) ->
                  exists s0 parsed_data,
                    text_content s = text_content s0 /\
                    Json.decode s0 = Some (PDict parsed_data) /\
                    assert_successful_json_result py_eq py_str
                      (text_content s) None
                    = test_passes parsed_data).
  { intros [data Hd].
    pose proof (loads_dumps _ _ s Hd) as Hdec.
    cbn [normalize] in Hdec.
    eexists s, _. split; [reflexivity | split; [exact Hdec|]].
    unfold assert_successful_json_result, text_content.
    cbn [type text String.eqb Ascii.eqb Bool.eqb negb].
    cbn [json_loads reference_runtime]. unfold Json.loads.
    now rewrite Hdec. }
  assert (Hsentence : (exists rest, s = "Collection '" ++ rest) ->
                      exists s0 detail,
                        text_content s = text_content s0 /\
                        assert_successful_json_result py_eq py_str
                          (text_content s) None
                        = test_fails
                            ("Result content is not valid JSON: " ++ detail
                             ++ Json.newline ++ "Content: " ++ s0)).
  { intros [rest ->]. eexists _, "Expecting value".
    split; reflexivity. }
  destruct t as [i|i|i|i|i|i|i]; cbn [text_of_success] in Hs;
    try (apply Hjson; destruct Hs as [data [_ Hj]]; exists data; exact Hj).
  - apply Hsentence. destruct Hs as [-> _]. eexists; reflexivity.
  - apply Hsentence. destruct Hs as [-> _]. eexists; reflexivity.
Qed.

Lemma json_helper_on_tool_results_witness :
  run (tool_impl (H:=validation_error_is_plain) docs_env get_docs)
  = (Return (text_content docs_summary), get_calls "docs" None) /\
  exists s parsed_data,
    text_content docs_summary = text_content s /\
    Json.decode s = Some (PDict parsed_data) /\
    assert_successful_json_result (fun _ _ => true) (fun _ => EmptyString)
      (text_content docs_summary) None
    = test_passes parsed_data.
Proof.
  split; [reflexivity|].
  apply (json_helper_on_tool_results (H:=validation_error_is_plain) docs_env
           (fun _ _ => true) (fun _ => EmptyString) get_docs
           (text_content docs_summary) (get_calls "docs" None) eq_refl).
Defined.

(* ================================================================== *)
(** * Validation first, custom metadata *)
(* ================================================================== *)

Section NamesFirst.
Context `{ErrorClasses}.
Context {runtime : Runtime}.
Variable env : Env.

Lemma create_collection_with_metadata_stored i d client ef c n result_json :
  let name := CreateCollectionWithMetadataInput.collection_name i in
  json_loads (CreateCollectionWithMetadataInput.metadata i) = Gives (PDict d) ->
  validate_collection_name env name = Gives tt ->
  get_embedding_function env = Gives ef ->
  get_chroma_client env = Gives client ->
  create_collection client name d ef false = Gives c ->
  coll_count c = Gives n ->
  coll_metadata c = Some d ->
  PyDict.wf d ->
  (forall k, In k (PyDict.keys d) -> internal_key k = false) ->
  json_dumps None
    (PDict [ ("name", PStr (coll_name c));
             ("id", PStr (coll_id c));
             ("metadata", PDict d);
             ("count", PInt n);
             ("status", PStr "success") ])
  = Gives result_json ->
  run (_create_collection_with_metadata_impl env i)
  = (Return (text_content result_json),
     create_with_metadata_calls name d ef).
Proof.
  intros name Hd Hv Hef Hc Hcr Hn Hm Hwf Hk Hj.
  unfold _create_collection_with_metadata_impl. exec_unfold. fold name.
  rewrite Hd. cbv beta iota zeta.
  rewrite Hv, Hef, Hc. cbv beta iota zeta.
  rewrite Hcr. cbv beta iota zeta. rewrite Hn. cbv beta iota zeta.
  pose proof (reconstruct_custom d Hwf Hk) as R.
  unfold dict in *. rewrite Hm, R, Hj. reflexivity.
Qed.

(** A validator that raises stops the tool before its first call. *)
Lemma rejected_name_stops (t : ToolCall) (name : string) :
  In name (validated_names t) ->
  (forall u, validate_collection_name env name <> Gives u) ->
  snd (run (tool_impl env t)) = [].
Proof.
  destruct t as [i|i|i|i|i|i|i]; cbn [tool_impl validated_names];
    intros Hin Hv.
  - destruct Hin as [<-|[]].
    unfold _create_collection_impl. exec_unfold.
    next_answer; [now elim (Hv a)|..];
      repeat match goal with
             | |- context [if ?b then _ else _] => destruct b
             end; reflexivity.
  - destruct Hin as [<-|[]].
    unfold _create_collection_with_metadata_impl. exec_unfold.
    next_answer;
      [destruct a; cbv beta iota zeta;
       try (next_answer; [now elim (Hv a)|..])|..];
      repeat match goal with
             | |- context [if ?b then _ else _] => destruct b
             end; reflexivity.
  - destruct Hin.
  - destruct Hin as [<-|[]].
    unfold _get_collection_impl. exec_unfold.
    next_answer; [now elim (Hv a)|..];
      repeat match goal with
             | |- context [if ?b then _ else _] => destruct b
             end; reflexivity.
  - unfold _rename_collection_impl. exec_unfold.
    destruct Hin as [<-|[<-|[]]].
    + next_answer; [now elim (Hv a)|..];
        repeat match goal with
               | |- context [if ?b then _ else _] => destruct b
               end; reflexivity.
    + next_answer; [next_answer; [now elim (Hv a0)|..]|..];
        repeat match goal with
               | |- context [if ?b then _ else _] => destruct b
               end; reflexivity.
  - destruct Hin as [<-|[]].
    unfold _delete_collection_impl. exec_unfold.
    next_answer; [now elim (Hv a)|..];
      repeat match goal with
             | |- context [if ?b then _ else _] => destruct b
             end; reflexivity.
  - destruct Hin as [<-|[]].
    unfold _peek_collection_impl. exec_unfold.
    next_answer; [now elim (Hv a)|..];
      repeat match goal with
             | |- context [if ?b then _ else _] => destruct b
             end; reflexivity.
Qed.

End NamesFirst.

(** X23: a name that the validator rejects, with whatever exception,
    stops the tool before any call into the external library: create,
    create with metadata, get, rename (for either of its two names),
    delete and peek collection leave the client untouched. *)
Theorem rejected_name_makes_no_call `{ErrorClasses} {runtime : Runtime}
        (env : Env) (t : ToolCall) (name : string) (cls : ExcClass)
        (msg : string) :
  In name (validated_names t) ->
  validate_collection_name env name = Throws cls msg ->
  snd (run (tool_impl env t)) = [].
Proof.
  intros Hin Hv. apply (rejected_name_stops env t name Hin).
  intros u E. rewrite Hv in E. discriminate E.
Qed.

Lemma rejected_name_makes_no_call_witness :
  (In "ab" (validated_names
              (rename_collection_tool (RenameCollectionInput.make "docs" "ab"))) /\
   validate_collection_name strict_env "ab"
   = Throws ValidationError "Collection name must be at least 3 characters") /\
  snd (run (tool_impl (H:=validation_error_is_plain) strict_env
              (rename_collection_tool (RenameCollectionInput.make "docs" "ab"))))
  = [].
Proof.
  assert (Hin : In "ab" (validated_names
                  (rename_collection_tool
                     (RenameCollectionInput.make "docs" "ab"))))
    by (simpl; auto).
  split; [split; [exact Hin | reflexivity]|].
  apply (rejected_name_makes_no_call (H:=validation_error_is_plain)
           strict_env
           (rename_collection_tool (RenameCollectionInput.make "docs" "ab"))
           "ab" ValidationError
           "Collection name must be at least 3 characters" Hin eq_refl).
Defined.

(** X24: when [json.loads] reads the metadata string as an object with
    distinct keys none of which starts with "chroma:" or "hnsw:", and
    the client keeps the metadata it is given, create collection with
    metadata reports that same object under "metadata", next to the
    name, the id, the count and the status "success": it returns the
    text that [json.dumps], called without indent, gives for this
    result, after the two calls [create_collection] and [count]. *)
Theorem create_with_metadata_echoes_custom_keys `{ErrorClasses}
        {runtime : Runtime} (env : Env)
        (name metadata : string) (d : dict) (client : Client)
        (ef : option EmbeddingFunction) (c : Collection) (n : Z) :
  json_loads metadata = Gives (PDict d) ->
  validate_collection_name env name = Gives tt ->
  get_embedding_function env = Gives ef ->
  get_chroma_client env = Gives client ->
  create_collection client name d ef false = Gives c ->
  coll_count c = Gives n ->
  coll_metadata c = Some d ->
  PyDict.wf d ->
  (forall k, In k (PyDict.keys d) -> internal_key k = false) ->
  forall result_json,
    json_dumps None
      (PDict [ ("name", PStr (coll_name c));
               ("id", PStr (coll_id c));
               ("metadata", PDict d);
               ("count", PInt n);
               ("status", PStr "success") ])
    = Gives result_json ->
    run (_create_collection_with_metadata_impl env
           (CreateCollectionWithMetadataInput.make name metadata))
    = (Return (text_content result_json),
       create_with_metadata_calls name d ef).
Proof.
  intros Hd Hv Hef Hc Hcr Hn Hm Hwf Hk result_json Hj.
  apply (create_collection_with_metadata_stored env
           (CreateCollectionWithMetadataInput.make name metadata)
           d client ef c n result_json Hd Hv Hef Hc Hcr Hn Hm Hwf Hk Hj).
Qed.

Lemma create_with_metadata_echoes_custom_keys_witness :
  (json_loads described_json = Gives (PDict described) /\
   validate_collection_name storing_env "docs" = Gives tt /\
   get_embedding_function storing_env = Gives None /\
   get_chroma_client storing_env = Gives storing_client /\
   create_collection storing_client "docs" described None false
   = Gives (stored "docs" described) /\
   coll_count (stored "docs" described) = Gives 0 /\
   coll_metadata (stored "docs" described) = Some described /\
   PyDict.wf described /\
   (forall k, In k (PyDict.keys described) -> internal_key k = false)) /\
  forall result_json,
    json_dumps None
      (PDict [ ("name", PStr "docs");
               ("id", PStr "7f1d");
               ("metadata", PDict described);
               ("count", PInt 0);
               ("status", PStr "success") ])
    = Gives result_json ->
    run (_create_collection_with_metadata_impl (H:=validation_error_is_plain)
           storing_env
           (CreateCollectionWithMetadataInput.make "docs" described_json))
    = (Return (text_content result_json),
       create_with_metadata_calls "docs" described None).
Proof.
  assert (Hd : json_loads described_json = Gives (PDict described))
    by (vm_compute; reflexivity).
  assert (Hwf : PyDict.wf described).
  { unfold PyDict.wf. simpl. repeat constructor; simpl; intuition discriminate. }
  assert (Hk : forall k, In k (PyDict.keys described) -> internal_key k = false).
  { simpl. intros k [<-|[<-|[]]]; reflexivity. }
  split; [split; [exact Hd | split; [reflexivity | split; [reflexivity |
          split; [reflexivity | split; [reflexivity | split; [reflexivity |
          split; [reflexivity | split; [exact Hwf | exact Hk]]]]]]]]|].
  apply (create_with_metadata_echoes_custom_keys
           (H:=validation_error_is_plain) (runtime:=reference_runtime)
           storing_env "docs" described_json
           described storing_client None (stored "docs" described) 0
           Hd eq_refl eq_refl eq_refl eq_refl eq_refl eq_refl Hwf Hk).
Defined.
